(** * pgp-serverless-js: the fallible-sequence framework and the key lookup pipeline

    A shallow embedding of
      - [src/utils/Result.ts]                 (module [Result]),
      - [src/utils/AsyncResultIterators.ts]   (module [AsyncResultGenerator]),
      - [src/utils/AsyncGenerators.ts]        (module [AsyncGenerators]),
      - [src/backend/backend.ts]              (module [Backend]),
      - [src/pks/lookup/formatters.ts] and [src/pks/lookup/lookup.ts]
                                              (modules [Lookup] and [Entry]),
      - [src/backend/types.ts] and [src/pks/lookup/handlers.ts]
                                              (modules [Types] and [LookupHandlers]),
    followed by the properties the specification states about them and by
    further properties of the same code. *)

From stdpp Require Import gmap strings list fin_maps.
From Stdlib Require Import ZArith String Ascii DecimalString.
From Stdlib.Strings Require Import Byte.

Local Open Scope string_scope.
Set Warnings "-register-all".

(* ===================================================================== *)
(** ** JavaScript values *)
(* ===================================================================== *)

(** The prototype an object was created with.  [ErrorObject ctor] stands for
    an instance of [Error] or of one of its subclasses, [ctor] being the
    constructor's name. *)
Inductive ObjectClass :=
| PlainObject
| ErrorObject (ctor : string).

(** An own property: its key, whether it is enumerable, and its value. *)
Record Property (V : Type) := mkProperty {
  prop_key : string;
  prop_enumerable : bool;
  prop_value : V
}.
Arguments mkProperty {V} _ _ _.
Arguments prop_key {V} _.
Arguments prop_enumerable {V} _.
Arguments prop_value {V} _.

(** A Number that is a safe integer: one of magnitude at most [2^53 - 1]. *)
Definition is_safe_integer (n : Z) : bool := (Z.abs n <=? 9007199254740991)%Z.

Record SafeInteger := mkSafeInteger {
  integer_value : Z;
  integer_safe : is_safe_integer integer_value = true
}.

(** The literal [n]. *)
Abbreviation safe n := (mkSafeInteger n eq_refl) (only parsing).

(** The values a [catch (cause: unknown)] clause can receive.  Numbers are
    the safe integers; an object is its prototype and its own data
    properties in creation order, none of them a function. *)
Inductive JSValue :=
| VUndefined
| VNull
| VBoolean (b : bool)
| VNumber (n : SafeInteger)
| VBigInt (n : Z)
| VString (s : string)
| VObject (class : ObjectClass) (props : list (Property JSValue)).

Definition typeof (v : JSValue) : string :=
  match v with
  | VUndefined => "undefined"
  | VNull => "object"
  | VBoolean _ => "boolean"
  | VNumber _ => "number"
  | VBigInt _ => "bigint"
  | VString _ => "string"
  | VObject _ _ => "object"
  end.

Definition own_property (k : string) (props : list (Property JSValue))
  : option (Property JSValue) :=
  List.find (fun p => String.eqb (prop_key p) k) props.

(** What [Error.prototype] answers for the keys this development reads. *)
Definition proto_get (c : ObjectClass) (k : string) : option JSValue :=
  match c with
  | PlainObject => None
  | ErrorObject ctor =>
      if String.eqb k "message" then Some (VString "")
      else if String.eqb k "name" then Some (VString ctor)
      else None
  end.

(** [v[k]]: the own property if there is one, the prototype's otherwise. *)
Definition get (v : JSValue) (k : string) : JSValue :=
  match v with
  | VObject c props =>
      match own_property k props with
      | Some p => prop_value p
      | None => default VUndefined (proto_get c k)
      end
  | _ => VUndefined
  end.

(** [k in v]. *)
Definition has_property (k : string) (v : JSValue) : bool :=
  match v with
  | VObject c props =>
      match own_property k props with
      | Some _ => true
      | None => bool_decide (is_Some (proto_get c k))
      end
  | _ => false
  end.

(** [v instanceof Error]. *)
Definition instanceof_Error (v : JSValue) : bool :=
  match v with
  | VObject (ErrorObject _) _ => true
  | _ => false
  end.

Definition decimal (n : Z) : string := NilZero.string_of_int (Z.to_int n).

Definition string_or (d : string) (v : JSValue) : string :=
  match v with
  | VString s => s
  | _ => d
  end.

(** How the evaluation of an expression ends: with a value, or with a
    [throw] (for a promise: fulfilled or rejected). *)
Inductive Completion (A : Type) :=
| Normal (a : A)
| Throw (cause : JSValue).
Arguments Normal {A} _.
Arguments Throw {A} _.

(** Sequencing: a [throw] skips what follows. *)
#[export] Instance Completion_ret : MRet Completion := fun A a => Normal a.
#[export] Instance Completion_bind : MBind Completion :=
  fun A B f c => match c with Normal a => f a | Throw cause => Throw cause end.
#[export] Instance Completion_fmap : FMap Completion :=
  fun A B f c => match c with Normal a => Normal (f a) | Throw cause => Throw cause end.

(** The [TypeError] of a conversion to a primitive that finds no method to
    call. *)
Definition TypeError_to_primitive : JSValue :=
  VObject (ErrorObject "TypeError")
    [ mkProperty "message" false (VString "Cannot convert object to primitive value") ].

(** [String(v)].  A primitive has its string.  An object is converted by the
    first of its [toString] and [valueOf] that is callable and returns a
    primitive.  An own [toString] is a data property here, so not callable,
    and what is tried next, an own [valueOf] or the inherited one, which
    returns the object, gives no primitive: the conversion throws a
    [TypeError].  Without an own [toString] the inherited one is called:
    [Object.prototype.toString], or [Error.prototype.toString], which reads
    [name] and then [message] and converts each of them in turn. *)
Fixpoint ToString (v : JSValue) : Completion string :=
  match v with
  | VUndefined => Normal "undefined"
  | VNull => Normal "null"
  | VBoolean true => Normal "true"
  | VBoolean false => Normal "false"
  | VNumber n => Normal (decimal (integer_value n))
  | VBigInt n => Normal (decimal n)
  | VString s => Normal s
  | VObject class props =>
      (* the own property [k], if there is one, with [String] of its value *)
      let fix own_string (k : string) (ps : list (Property JSValue))
          : option (JSValue * Completion string) :=
        match ps with
        | [] => None
        | p :: rest =>
            if String.eqb (prop_key p) k
            then Some (prop_value p, ToString (prop_value p))
            else own_string k rest
        end in
      match own_property "toString" props with
      | Some _ => Throw TypeError_to_primitive
      | None =>
          match class with
          | PlainObject => Normal "[object Object]"
          | ErrorObject ctor =>
              name ← match own_string "name" props with
                     | Some (VUndefined, _) => Normal "Error"
                     | Some (_, converted) => converted
                     | None => Normal ctor
                     end;
              msg ← match own_string "message" props with
                    | Some (VUndefined, _) => Normal ""
                    | Some (_, converted) => converted
                    | None => Normal ""
                    end;
              Normal (if String.eqb name "" then msg
                      else if String.eqb msg "" then name
                      else name ++ ": " ++ msg)
          end
      end
  end.

(** [new Error(message)]: the constructor creates [message] as an own,
    writable, NON-enumerable data property, and creates none when called
    without an argument ([Error.prototype.message] is the empty string). *)
Definition new_Error (message : option string) : JSValue :=
  VObject (ErrorObject "Error")
    match message with
    | Some m => [mkProperty "message" false (VString m)]
    | None => []
    end.

(** [CreateDataProperty]: an existing key keeps its place, a new one is
    appended. *)
Fixpoint define_property (p : Property JSValue) (props : list (Property JSValue))
  : list (Property JSValue) :=
  match props with
  | [] => [p]
  | q :: rest =>
      if String.eqb (prop_key q) (prop_key p) then p :: rest
      else q :: define_property p rest
  end.

(** The own enumerable properties an object spread [...v] copies. *)
Definition own_enumerable (v : JSValue) : list (Property JSValue) :=
  match v with
  | VObject _ props => List.filter prop_enumerable props
  | _ => []
  end.

Definition copy_data_properties (target : list (Property JSValue)) (source : JSValue)
  : list (Property JSValue) :=
  fold_left
    (fun acc p => define_property (mkProperty (prop_key p) true (prop_value p)) acc)
    (own_enumerable source) target.

(** The object literal [{...a, ...b}]. *)
Definition object_spread (sources : list JSValue) : JSValue :=
  VObject PlainObject (fold_left copy_data_properties sources []).

(** How a type answers [=== undefined] and [=== null]. *)
Class Nullable (T : Type) := {
  is_undefined : T -> bool;
  is_null : T -> bool
}.

#[export] Instance JSValue_Nullable : Nullable JSValue := {|
  is_undefined v := match v with VUndefined => true | _ => false end;
  is_null v := match v with VNull => true | _ => false end
|}.

(** [T | undefined]. *)
#[export] Instance option_Nullable {A} : Nullable (option A) := {|
  is_undefined o := match o with None => true | Some _ => false end;
  is_null _ := false
|}.

(** [void]. *)
#[export] Instance unit_Nullable : Nullable unit := {|
  is_undefined _ := true;
  is_null _ := false
|}.

(* ===================================================================== *)
(** ** Result.ts *)
(* ===================================================================== *)

(** [type Result<T, E> = Result.Ok<T> | Result.Err<E>]: an object holding
    either the key [value] or the key [cause]. *)
Inductive Result (T : Type) :=
| Ok (value : T)
| Err (cause : JSValue).
Arguments Ok {T} _.
Arguments Err {T} _.

Module Result.

(** ['k' in result]. *)
Definition has_key {T} (k : string) (result : Result T) : bool :=
  match result with
  | Ok _ => String.eqb k "value"
  | Err _ => String.eqb k "cause"
  end.

Definition ok {T} (value : T) : Result T := Ok value.

(** [err(cause)]; it ends in a [throw] when [String] does. *)
Definition err {T} (cause : JSValue) : Completion (Result T) :=
  if is_null cause || is_undefined cause then
    Normal (Err (new_Error None))
  else if String.eqb (typeof cause) "string" then
    Normal (Err (new_Error (Some (string_or "" cause))))
  else if negb (String.eqb (typeof cause) "object") then
    message ← ToString cause;
    Normal (Err (new_Error (Some message)))
  else if instanceof_Error cause then
    Normal (Err cause)
  else if has_property "message" cause then
    message ← (if String.eqb (typeof (get cause "message")) "string"
               then Normal (string_or "" (get cause "message"))
               else ToString (get cause "message"));
    Normal (Err (object_spread [cause; new_Error (Some message)]))
  else
    Normal (Err (object_spread [cause; new_Error None])).

Definition isOk {T} (result : Result T) : bool := has_key "value" result.

Definition isErr {T} (result : Result T) : bool := negb (has_key "value" result).

Definition isPresent {T} `{Nullable T} (result : Result T) : bool :=
  has_key "value" result &&
  match result with
  | Ok value => negb (is_undefined value) && negb (is_null value)
  | Err _ => false  (* [result.value] is [undefined] *)
  end.

End Result.

(* ===================================================================== *)
(** ** Exceptions, the stores, and the world a request runs in *)
(* ===================================================================== *)

(** [try { body } catch (cause) { handler(cause) }]. *)
Definition try_catch {A} (body : Completion A) (handler : JSValue -> Completion A)
  : Completion A :=
  match body with
  | Normal a => Normal a
  | Throw cause => handler cause
  end.

(** [Result.run(action)] of [Result.ts], where calling [action] ends as
    [action]: the value is wrapped, an exception becomes
    [Result.err(cause)]. *)
Definition Result_run {T} (action : Completion T) : Completion (Result T) :=
  match action with
  | Normal value => Normal (Result.ok value)
  | Throw cause => Result.err cause
  end.

(** [Result.expect(result)]: the value, or a [throw] of the cause. *)
Definition Result_expect {T} (result : Result T) : Completion T :=
  match result with
  | Ok value => Normal value
  | Err cause => Throw cause
  end.

(** [AttributeValue] of [@aws-sdk/client-dynamodb]: a union in which exactly
    one member is defined.  [N] and the members of [NS] are strings. *)
Inductive AttributeValue :=
| AV_B (b : list byte)
| AV_BOOL (b : bool)
| AV_BS (bs : list (list byte))
| AV_L (l : list AttributeValue)
| AV_M (m : list (string * AttributeValue))
| AV_N (n : string)
| AV_NS (ns : list string)
| AV_NULL (b : bool)
| AV_S (s : string)
| AV_SS (ss : list string)
| AV_unknown (name : string) (payload : JSValue).

(** What [unfoldAttributes] stores under a key: the member that is defined,
    taken out of its wrapper. *)
Inductive Native :=
| NBinary (b : list byte)
| NBoolean (b : bool)
| NBinarySet (bs : list (list byte))
| NList (l : list AttributeValue)
| NMap (m : list (string * AttributeValue))
| NString (s : string)
| NStringSet (ss : list string)
| NNull
| NUnknown (name : string) (payload : JSValue).

(** [SearchingLookup] of [src/backend/types.ts]: a [Lookup] whose [search]
    is present. *)
Record SearchingLookup := mkLookup {
  op : string;
  search : string;
  options : option (list string);
  exact : bool
}.

Definition set_search (lookup : SearchingLookup) (s : string) : SearchingLookup :=
  {| op := op lookup; search := s; options := options lookup; exact := exact lookup |}.

Module QueryCommand.
Record Input := mk {
  TableName : string;
  KeyConditionExpression : string;
  ExpressionAttributeValues : gmap string AttributeValue;
  Limit : option Z;
  ExclusiveStartKey : option (gmap string AttributeValue)
}.
End QueryCommand.

Module ScanCommand.
Record Input := mk {
  TableName : string;
  FilterExpression : string;
  ExpressionAttributeValues : gmap string AttributeValue;
  Limit : option Z;
  ExclusiveStartKey : option (gmap string AttributeValue)
}.
End ScanCommand.

Module GetItemCommand.
Record Input := mk {
  TableName : string;
  Key : gmap string AttributeValue
}.
End GetItemCommand.

Module GetObjectCommand.
Record Input := mk {
  Bucket : string;
  Key : string
}.
End GetObjectCommand.

Inductive DynamoCommand :=
| QueryCommand (input : QueryCommand.Input)
| ScanCommand (input : ScanCommand.Input)
| GetItemCommand (input : GetItemCommand.Input).

(** The fields the code reads from what [DYNAMO.send] resolves to. *)
Record DynamoOutput := mkOutput {
  Items : option (list (gmap string AttributeValue));
  LastEvaluatedKey : option (gmap string AttributeValue);
  Item : option (gmap string AttributeValue)
}.

(** A [stream.Readable]: the chunks it delivers and, if reading it fails,
    the cause raised after them. *)
Inductive Chunk :=
| BufferChunk (b : list byte)
| OtherChunk (s : string).

Record Readable := mkReadable {
  chunks : list Chunk;
  failure : option JSValue
}.

Record GetObjectOutput := mkObject {
  Body : option Readable
}.

(** [Record<string, unknown> & {id, fingerprint, primaryUserId}]. *)
Abbreviation KeyMetadata := (gmap string Native).

(** What [keyMeta.k] reads when the type says the field is a string. *)
Definition field (k : string) (keyMeta : KeyMetadata) : string :=
  match keyMeta !! k with
  | Some (NString s) => s
  | _ => ""
  end.

(** What the code takes from its environment: the process' configuration,
    [HEX_REGEX] of [src/utils/constants.ts] (what [s.match(HEX_REGEX)]
    captures in its group 1, if [s] matches), what the object store answers
    to a [GetObjectCommand] during the request, and the library functions on
    buffers and strings, [String.prototype.toUpperCase] among them.
    [JSON_stringify] is the serialization of the object [formatJsonIndices]
    fills, as a function of the mapping it holds. *)
Class Externals := {
  PGP_TABLE_NAME : string;
  PGP_BUCKET_NAME : string;
  PGP_TABLE_PAGE_LIMIT : option Z;
  HEX_REGEX : string -> option string;
  toUpperCase : string -> string;
  S3_send : GetObjectCommand.Input -> Completion GetObjectOutput;
  Buffer_from : string -> list byte;
  Buffer_toString : list byte -> string;
  encodeURIComponent : string -> string;
  JSON_stringify : gmap string KeyMetadata -> string
}.

(** The state one request runs against: the lookup object the handler and
    the generators share, what the keyed store will answer to the calls to
    come, and the commands sent so far. *)
Record World := mkWorld {
  lookup_object : SearchingLookup;
  dynamo_answers : list (Completion DynamoOutput);
  dynamo_sent : list DynamoCommand
}.

(** [await DYNAMO.send(request)]: the request is recorded and the store's
    next answer is consumed; a store with no answer left refuses the call. *)
Definition DYNAMO_send (request : DynamoCommand) (w : World)
  : Completion DynamoOutput * World :=
  match dynamo_answers w with
  | [] =>
      (Throw (new_Error (Some "no answer")),
       mkWorld (lookup_object w) [] ((dynamo_sent w ++ [request])%list))
  | answer :: rest =>
      (answer, mkWorld (lookup_object w) rest ((dynamo_sent w ++ [request])%list))
  end.

(* ===================================================================== *)
(** ** Async generators *)
(* ===================================================================== *)

(** [IteratorResult<T, TReturn>]: [{done: false, value}] or
    [{done: true, value}]. *)
Inductive IteratorResult (T R : Type) :=
| IYield (value : T)
| IDone (value : R).
Arguments IYield {T R} _.
Arguments IDone {T R} _.

(** One turn of the event loop on the promise [next()] returned: it is
    still pending, or it has settled. *)
Inductive Progress (S T R : Type) :=
| Pending (s : S)
| Settled (c : Completion (IteratorResult T R)) (s : S).
Arguments Pending {S T R} _.
Arguments Settled {S T R} _ _.

(** The [next] method of an [AsyncGenerator<T, TReturn>], over the state [S]
    the object keeps between calls. *)
Definition AsyncGenerator (S T R : Type) : Type :=
  S -> World -> Progress S T R * World.

(** What the body of an [async function*] does up to its next suspension
    point: [yield], [return], [throw], or an [await]. *)
Inductive Step (S T R : Type) :=
| Yield (v : T) (s : S)
| Return (r : R)
| Raise (cause : JSValue)
| Await (s : S).
Arguments Yield {S T R} _ _.
Arguments Return {S T R} _.
Arguments Raise {S T R} _.
Arguments Await {S T R} _.

Definition GeneratorBody (S T R : Type) : Type := S -> World -> Step S T R * World.

(** The value a type has for [undefined]. *)
Class Void (R : Type) := undefined : R.
#[export] Instance unit_Void : Void unit := tt.
#[export] Instance option_Void {A} : Void (option A) := None.

(** The generator object an [async function*] creates.  Its state is [None]
    once the body has returned or thrown; from then on [next()] resolves to
    [{done: true, value: undefined}] without running any code. *)
Definition generator {S T R} `{Void R} (body : GeneratorBody S T R)
  : AsyncGenerator (option S) T R :=
  fun st w =>
    match st with
    | None => (Settled (Normal (IDone undefined)) None, w)
    | Some s =>
        match body s w with
        | (Yield v s', w') => (Settled (Normal (IYield v)) (Some s'), w')
        | (Return r, w') => (Settled (Normal (IDone r)) None, w')
        | (Raise cause, w') => (Settled (Throw cause) None, w')
        | (Await s', w') => (Pending (Some s'), w')
        end
    end.

(** [await g.next()]: turns of the event loop until the promise settles;
    [None] when [fuel] turns were not enough. *)
Fixpoint next {S T R} (fuel : nat) (g : AsyncGenerator S T R) (s : S) (w : World)
  : option (Completion (IteratorResult T R) * S * World) :=
  match fuel with
  | O => None
  | Datatypes.S fuel' =>
      match g s w with
      | (Pending s', w') => next fuel' g s' w'
      | (Settled c s', w') => Some (c, s', w')
      end
  end.

(** What a consumer that pulls until [done] observes: the items, in order,
    and how the sequence ended. *)
Fixpoint drain {S T R} (fuel : nat) (g : AsyncGenerator S T R) (s : S) (w : World)
  : option (list T * Completion R * S * World) :=
  match fuel with
  | O => None
  | Datatypes.S fuel' =>
      match g s w with
      | (Pending s', w') => drain fuel' g s' w'
      | (Settled (Normal (IYield v)) s', w') =>
          match drain fuel' g s' w' with
          | Some (vs, c, s'', w'') => Some (v :: vs, c, s'', w'')
          | None => None
          end
      | (Settled (Normal (IDone r)) s', w') => Some ([], Normal r, s', w')
      | (Settled (Throw cause) s', w') => Some ([], Throw cause, s', w')
      end
  end.

(** [count] successive pulls, whatever they return. *)
Fixpoint pulls {S T R} (fuel count : nat) (g : AsyncGenerator S T R) (s : S) (w : World)
  : option (list (Completion (IteratorResult T R)) * S * World) :=
  match count with
  | O => Some ([], s, w)
  | Datatypes.S count' =>
      match next fuel g s w with
      | Some (c, s', w') =>
          match pulls fuel count' g s' w' with
          | Some (cs, s'', w'') => Some (c :: cs, s'', w'')
          | None => None
          end
      | None => None
      end
  end.

(* ===================================================================== *)
(** ** AsyncResult.ts and AsyncResultIterators.ts *)
(* ===================================================================== *)

Module AsyncResult.

(** [run(action)]: [action] is awaited inside [try]; a rejection becomes
    [Result.err(cause)]. *)
Definition run {T} (action : World -> Completion T * World) (w : World)
  : Completion (Result T) * World :=
  match action w with
  | (Normal value, w') => (Normal (Result.ok value), w')
  | (Throw cause, w') => (Result.err cause, w')
  end.

End AsyncResult.

Module AsyncResultGenerator.

Definition wrapIteratorResult {T R} (result : IteratorResult T R)
  : IteratorResult T (Result R) :=
  match result with
  | IDone value => IDone (Result.ok value)
  | IYield value => IYield value
  end.

(** What [next] of the wrapper does once [generator.next(...args)] has
    settled to [settled]: the [try] block awaits it and wraps the result,
    the [catch] clause turns a rejection into a [done]. *)
Definition next_caught {T R} (settled : Completion (IteratorResult T R))
  : Completion (IteratorResult T (Result R)) :=
  try_catch
    (iteratorResult ← settled; Normal (wrapIteratorResult iteratorResult))
    (fun cause => IDone <$> Result.err cause).

(** The [next] method of the object [from(generator)] returns. *)
Definition from {S T R} (generator : AsyncGenerator S T R)
  : AsyncGenerator S T (Result R) :=
  fun s w =>
    match generator s w with
    | (Pending s', w') => (Pending s', w')
    | (Settled settled s', w') => (Settled (next_caught settled) s', w')
    end.

(** The [throw] and [return] methods of an [AsyncGenerator<T, TReturn>],
    over the state the object keeps.  The argument of [return] is a value
    or a promise; it is given as what awaiting it gives: [Normal value], or
    [Throw cause] for a promise that rejects. *)
Definition ThrowMethod (S T R : Type) : Type :=
  JSValue -> S -> World -> Progress S T R * World.

Definition ReturnMethod (S T R : Type) : Type :=
  Completion R -> S -> World -> Progress S T R * World.



End AsyncResultGenerator.

(* ===================================================================== *)
(** ** AsyncGenerators.ts *)
(* ===================================================================== *)

(** The [TypeError] of [undefined.value]. *)
Definition TypeError_value_of_undefined : JSValue :=
  VObject (ErrorObject "TypeError")
    [ mkProperty "message" false
        (VString "Cannot read properties of undefined (reading 'value')") ].

Module AsyncGenerators.

(** An [AsyncGenerator<T, TReturn>] object: its three methods, over the
    state the object keeps. *)
Record Methods (S T R : Type) := mkMethods {
  next_method : AsyncGenerator S T R;
  throw_method : AsyncResultGenerator.ThrowMethod S T R;
  return_method : AsyncResultGenerator.ReturnMethod S T R
}.
Arguments mkMethods {S T R} _ _ _.
Arguments next_method {S T R} _.
Arguments throw_method {S T R} _.
Arguments return_method {S T R} _.

(** What every method of [wrappedGenerator] does with the result it awaited:
    a [done] result is stored in [resultContainer.result], which travels as
    the second component of the state. *)
Definition intercept {S T R} (awaited : Progress S T R * World) (result : option R)
  : Progress (S * option R) T R * World :=
  match awaited with
  | (Pending s', w') => (Pending (s', result), w')
  | (Settled (Normal (IDone value)) s', w') =>
      (Settled (Normal (IDone value)) (s', Some value), w')
  | (Settled settled s', w') => (Settled settled (s', result), w')
  end.

Definition wrappedGenerator {S T R} (generator : Methods S T R)
  : Methods (S * option R) T R :=
  {| next_method := fun '(s, result) w => intercept (next_method generator s w) result;
     throw_method :=
       fun cause '(s, result) w => intercept (throw_method generator cause s w) result;
     return_method :=
       fun arg '(s, result) w => intercept (return_method generator arg s w) result |}.

(** [block]: a consumer of a generator object, whatever state the object
    keeps; it returns [void] or an [IteratorReturnResult], given here by its
    [value]. *)
Definition Block (T R R2 : Type) : Type :=
  forall St, Methods St T R -> St -> World ->
             option (Completion (option (R + R2)) * St * World).

Definition run {S T R R2} (generator : Methods S T R) (block : Block T R R2)
    (s : S) (w : World) : option (Completion (R + R2) * S * World) :=
  match block _ (wrappedGenerator generator) (s, None) w with
  | None => None
  | Some (Throw cause, (s', _), w') => Some (Throw cause, s', w')
  | Some (Normal (Some blockResult), (s', _), w') => Some (Normal blockResult, s', w')
  | Some (Normal None, (s', Some value), w') => Some (Normal (inl value), s', w')
  | Some (Normal None, (s', None), w') => Some (Throw TypeError_value_of_undefined, s', w')
  end.

End AsyncGenerators.

(* ===================================================================== *)
(** ** String methods *)
(* ===================================================================== *)

Definition toUpperCase_ascii (c : ascii) : ascii :=
  let n := nat_of_ascii c in
  if (97 <=? n)%nat && (n <=? 122)%nat then ascii_of_nat (n - 32) else c.

(** What [s.toUpperCase()] is when every character of [s] is an ASCII
    character: the letters [a] to [z] become [A] to [Z]. *)
Fixpoint toUpperCase_ASCII (s : string) : string :=
  match s with
  | EmptyString => EmptyString
  | String c rest => String (toUpperCase_ascii c) (toUpperCase_ASCII rest)
  end.

(** Every character of [s] is an ASCII character. *)
Definition is_ASCII (s : string) : bool :=
  forallb (fun c => (nat_of_ascii c <? 128)%nat) (list_ascii_of_string s).

(** [s.slice(start, end)]; a negative index counts from the end of [s], and
    [end_ = None] is the one-argument call. *)
Definition slice (s : string) (start : Z) (end_ : option Z) : string :=
  let len := Z.of_nat (String.length s) in
  let clamp i := if (i <? 0)%Z then Z.max (len + i) 0 else Z.min i len in
  let from := clamp start in
  let to := clamp (default len end_) in
  String.substring (Z.to_nat from) (Z.to_nat (Z.max (to - from) 0)) s.

(* ===================================================================== *)
(** ** backend.ts *)
(* ===================================================================== *)

(** The [AssertionError] a failed [assert.ok(expression)] throws. *)
Definition AssertionError (expression : string) : JSValue :=
  VObject (ErrorObject "AssertionError")
    [ mkProperty "message" false
        (VString ("The expression evaluated to a falsy value: assert.ok(" ++ expression ++ ")"));
      mkProperty "generatedMessage" true (VBoolean true);
      mkProperty "code" true (VString "ERR_ASSERTION");
      mkProperty "actual" true (VBoolean false);
      mkProperty "expected" true (VBoolean true);
      mkProperty "operator" true (VString "==") ].

Definition assert_ok (condition : bool) (expression : string) : Completion unit :=
  if condition then Normal tt else Throw (AssertionError expression).

(** [typeof result.k] on the mapping [unfoldAttributes] returns. *)
Definition typeof_field (v : option Native) : string :=
  match v with
  | None => "undefined"
  | Some (NString _) => "string"
  | Some (NBoolean _) => "boolean"
  | Some _ => "object"
  end.

Module Backend.
Section WithExternals.
Context `{Externals}.

(** One turn of the loop [for (const k in item)]: the first member of
    [attr] that is defined is stored under [k]. *)
Definition unfoldAttribute (attr : AttributeValue) : Native :=
  match attr with
  | AV_B b => NBinary b
  | AV_BOOL b => NBoolean b
  | AV_BS bs => NBinarySet bs
  | AV_L l => NList l
  | AV_M m => NMap m
  | AV_N n => NString n
  | AV_NS ns => NStringSet ns
  | AV_NULL _ => NNull
  | AV_S s => NString s
  | AV_SS ss => NStringSet ss
  | AV_unknown name payload => NUnknown name payload
  end.

Definition unfoldAttributes (item : gmap string AttributeValue) : gmap string Native :=
  unfoldAttribute <$> item.

Definition extractKeyMetadata (item : gmap string AttributeValue) : Completion KeyMetadata :=
  let result := unfoldAttributes item in
  assert_ok (String.eqb (typeof_field (result !! "pgpKeyId")) "string")
    "typeof result.pgpKeyId === 'string'" ;;
  assert_ok (String.eqb (typeof_field (result !! "pgpFingerprintUpper")) "string")
    "typeof result.pgpFingerprintUpper === 'string'" ;;
  assert_ok (String.eqb (typeof_field (result !! "primaryUserId")) "string")
    "typeof result.primaryUserId === 'string'" ;;
  let result := <["id" := NString (field "pgpKeyId" result)]> result in
  let result :=
    <["fingerprint" :=
        NString (field "pgpFingerprintUpper" result ++ field "pgpKeyId" result)]> result in
  let result := delete "pgpKeyId" result in
  let result := delete "pgpFingerprintUpper" result in
  Normal result.

(** [request.input.ExclusiveStartKey = key]. *)
Definition set_ExclusiveStartKey (request : DynamoCommand)
    (key : gmap string AttributeValue) : DynamoCommand :=
  match request with
  | QueryCommand i =>
      QueryCommand
        (QueryCommand.mk (QueryCommand.TableName i) (QueryCommand.KeyConditionExpression i)
           (QueryCommand.ExpressionAttributeValues i) (QueryCommand.Limit i) (Some key))
  | ScanCommand i =>
      ScanCommand
        (ScanCommand.mk (ScanCommand.TableName i) (ScanCommand.FilterExpression i)
           (ScanCommand.ExpressionAttributeValues i) (ScanCommand.Limit i) (Some key))
  | GetItemCommand i => GetItemCommand i
  end.

(** Where the body of the [async function*] that [searchKeysById] and
    [searchKeysByKeyword] both wrap is suspended: at a
    [await DYNAMO.send(request)], or inside [for (const i of response.Items)]
    with [rest] still to yield. *)
Inductive PageState :=
| Sending (request : DynamoCommand)
| Yielding (request : DynamoCommand) (response : DynamoOutput)
    (rest : list (gmap string AttributeValue)).

(** That body (the two functions have the same text). *)
Definition page_loop : GeneratorBody PageState KeyMetadata unit :=
  fun s w =>
    match s with
    | Sending request =>
        match DYNAMO_send request w with
        | (Throw cause, w') => (Raise cause, w')
        | (Normal response, w') =>
            (Await (Yielding request response (default [] (Items response))), w')
        end
    | Yielding request response (i :: rest) =>
        match extractKeyMetadata i with
        | Throw cause => (Raise cause, w)
        | Normal keyMeta => (Yield keyMeta (Yielding request response rest), w)
        end
    | Yielding request response [] =>
        match LastEvaluatedKey response with
        | None => (Return tt, w)
        | Some key => (Await (Sending (set_ExclusiveStartKey request key)), w)
        end
    end.

(** The [next] of the [AsyncResultGenerator] both functions return. *)
Definition page_generator : AsyncGenerator (option PageState) KeyMetadata (Result unit) :=
  AsyncResultGenerator.from (generator page_loop).

Definition searchKeysById_request (lookup : SearchingLookup) : DynamoCommand :=
  QueryCommand
    {| QueryCommand.TableName := PGP_TABLE_NAME;
       QueryCommand.KeyConditionExpression := "pgpKeyId = :term";
       QueryCommand.ExpressionAttributeValues :=
         {[ ":term" := AV_S (toUpperCase (search lookup)) ]};
       QueryCommand.Limit := PGP_TABLE_PAGE_LIMIT;
       QueryCommand.ExclusiveStartKey := None |}.

(** [searchKeysById(lookup)]: the request is built at the call, the body has
    not started. *)
Definition searchKeysById (lookup : SearchingLookup) : option PageState :=
  Some (Sending (searchKeysById_request lookup)).

Definition searchKeysByKeyword_request (lookup : SearchingLookup) : DynamoCommand :=
  ScanCommand
    {| ScanCommand.TableName := PGP_TABLE_NAME;
       ScanCommand.FilterExpression :=
         if exact lookup then "primaryUserId = :term"
         else "contains(primaryUserId, :term) OR contains(pgpKeyId, :term) OR contains(pgpFingerprintUpper, :term)";
       ScanCommand.ExpressionAttributeValues := {[ ":term" := AV_S (search lookup) ]};
       ScanCommand.Limit := PGP_TABLE_PAGE_LIMIT;
       ScanCommand.ExclusiveStartKey := None |}.

Definition searchKeysByKeyword (lookup : SearchingLookup) : option PageState :=
  Some (Sending (searchKeysByKeyword_request lookup)).

Definition findKeyByFingerprint_request (lookup : SearchingLookup) : DynamoCommand :=
  GetItemCommand
    {| GetItemCommand.TableName := PGP_TABLE_NAME;
       GetItemCommand.Key :=
         {[ "pgpKeyId" := AV_S (toUpperCase (slice (search lookup) (-16) None));
            "pgpFingerprintUpper" :=
              AV_S (toUpperCase (slice (search lookup) 0 (Some (-16)%Z))) ]} |}.

Definition findKeyByFingerprint (lookup : SearchingLookup) (w : World)
  : Completion (Result (option KeyMetadata)) * World :=
  let request := findKeyByFingerprint_request lookup in
  AsyncResult.run
    (fun w =>
       match DYNAMO_send request w with
       | (Throw cause, w') => (Throw cause, w')
       | (Normal response, w') =>
           match Item response with
           | None => (Normal None, w')
           | Some item => (Some <$> extractKeyMetadata item, w')
           end
       end) w.

Definition getKeyDataStream (keyMeta : KeyMetadata) (w : World)
  : Completion (Result (option Readable)) * World :=
  let request :=
    {| GetObjectCommand.Bucket := PGP_BUCKET_NAME;
       GetObjectCommand.Key := field "fingerprint" keyMeta |} in
  AsyncResult.run
    (fun w =>
       match S3_send request with
       | Throw cause => (Throw cause, w)
       | Normal response => (Normal (Body response), w)
       end) w.

(** Where the body of [searchKeysByBestGuess] is suspended: not started,
    after [yield result.value], or inside a [yield*]. *)
Inductive GuessState :=
| Guess_entry
| Guess_yielded
| Guess_delegating (inner : option PageState).

Definition searchKeysByBestGuess
  : GeneratorBody GuessState KeyMetadata (option (Result unit)) :=
  fun s w =>
    match s with
    | Guess_entry =>
        match HEX_REGEX (search (lookup_object w)) with
        | None => (Await (Guess_delegating (searchKeysByKeyword (lookup_object w))), w)
        | Some match_1 =>
            let w := mkWorld (set_search (lookup_object w) match_1)
                             (dynamo_answers w) (dynamo_sent w) in
            let lookup := lookup_object w in
            let len := String.length (search lookup) in
            if (len =? 32)%nat || (len =? 40)%nat || (len =? 64)%nat then
              match findKeyByFingerprint lookup w with
              | (Throw cause, w') => (Raise cause, w')
              | (Normal (Err cause), w') => (Return (Some (Err cause)), w')
              | (Normal (Ok (Some value)), w') => (Yield value Guess_yielded, w')
              | (Normal (Ok None), w') => (Return (Some (Result.ok tt)), w')
              end
            else if (len =? 16)%nat then
              (Await (Guess_delegating (searchKeysById lookup)), w)
            else
              (Await (Guess_delegating (searchKeysByKeyword lookup)), w)
        end
    | Guess_yielded => (Return (Some (Result.ok tt)), w)
    | Guess_delegating inner =>
        match page_generator inner w with
        | (Pending inner', w') => (Await (Guess_delegating inner'), w')
        | (Settled (Normal (IYield v)) inner', w') => (Yield v (Guess_delegating inner'), w')
        | (Settled (Normal (IDone r)) _, w') => (Return (Some r), w')
        | (Settled (Throw cause) _, w') => (Raise cause, w')
        end
    end.

End WithExternals.
End Backend.

(* ===================================================================== *)
(** ** formatters.ts and lookup.ts *)
(* ===================================================================== *)

(** [HTTPStatusCode] of [src/utils/HTTPStatusCode.ts]: the members the
    handlers name. *)
Inductive HTTPStatusCode :=
| OK
| BadRequest
| NotFound
| NotImplemented
| InternalServerError.

Record APIGatewayProxyStructuredResultV2 := mkResponse {
  statusCode : HTTPStatusCode;
  headers : gmap string string;
  body : option string
}.

(** The [TypeError] of ['value' in undefined]. *)
Definition TypeError_in_undefined : JSValue :=
  VObject (ErrorObject "TypeError")
    [ mkProperty "message" false
        (VString "Cannot use 'in' operator to search for 'value' in undefined") ].

(** [new BadLookupError(message)] of [./exceptions]. *)
Definition BadLookupError (message : string) : JSValue :=
  VObject (ErrorObject "BadLookupError") [ mkProperty "message" false (VString message) ].

Definition LF : string := String (ascii_of_nat 10) EmptyString.

(** [options.includes(x)]. *)
Definition includes (x : string) (l : list string) : bool := existsb (String.eqb x) l.

Module Lookup.
Section WithExternals.
Context `{Externals}.

(** [for await (const nextChunk of keyStream) { chunks.push(...) }]: the
    chunks delivered are pushed, then the stream's failure, if it has one,
    is raised. *)
Definition read_stream (chunks0 : list (list byte)) (keyStream : Readable)
  : Completion (list (list byte)) :=
  let pushed :=
    fold_left
      (fun acc nextChunk =>
         match nextChunk with
         | BufferChunk b => (acc ++ [b])%list
         | OtherChunk s => (acc ++ [Buffer_from s])%list
         end)
      (chunks keyStream) chunks0 in
  match failure keyStream with
  | None => Normal pushed
  | Some cause => Throw cause
  end.

Definition keys_response (chunks0 : list (list byte)) : APIGatewayProxyStructuredResultV2 :=
  {| statusCode := OK;
     headers := {[ "Content-Type" := "application/pgp-keys" ]};
     body := Some (Buffer_toString (List.concat chunks0)) |}.

(** The loop of [formatKeys], from a [keyStreams.next()] on, with the
    [chunks] pushed so far. *)
Fixpoint formatKeys_loop {S} (fuel : nat)
    (keyStreams : AsyncGenerator S Readable (option (Result unit)))
    (s : S) (w : World) (chunks0 : list (list byte))
  : option (Completion (Result APIGatewayProxyStructuredResultV2) * S * World) :=
  match fuel with
  | O => None
  | Datatypes.S fuel' =>
      match keyStreams s w with
      | (Pending s', w') => formatKeys_loop fuel' keyStreams s' w' chunks0
      | (Settled (Throw cause) s', w') => Some (Throw cause, s', w')
      | (Settled (Normal (IYield keyStream)) s', w') =>
          match read_stream chunks0 keyStream with
          | Throw cause => Some (Result.err cause, s', w')
          | Normal chunks1 => formatKeys_loop fuel' keyStreams s' w' chunks1
          end
      | (Settled (Normal (IDone value)) s', w') =>
          match value with
          | None => Some (Throw TypeError_in_undefined, s', w')
          | Some (Ok _) => Some (Normal (Result.ok (keys_response chunks0)), s', w')
          | Some (Err cause) => Some (Normal (Err cause), s', w')
          end
      end
  end.

Definition formatKeys {S} (fuel : nat)
    (keyStreams : AsyncGenerator S Readable (option (Result unit))) (s : S) (w : World)
  : option (Completion (Result APIGatewayProxyStructuredResultV2) * S * World) :=
  formatKeys_loop fuel keyStreams s w [].

Fixpoint formatMachineIndices_loop {S} (fuel : nat)
    (keyMetas : AsyncGenerator S KeyMetadata (option (Result unit)))
    (s : S) (w : World) (chunks0 : list (list byte))
  : option (Completion (Result string) * S * World) :=
  match fuel with
  | O => None
  | Datatypes.S fuel' =>
      match keyMetas s w with
      | (Pending s', w') => formatMachineIndices_loop fuel' keyMetas s' w' chunks0
      | (Settled (Throw cause) s', w') => Some (Throw cause, s', w')
      | (Settled (Normal (IYield keyMeta)) s', w') =>
          let line :=
            "pub:" ++ field "fingerprint" keyMeta ++ LF ++
            "uid:" ++ encodeURIComponent (field "primaryUserId" keyMeta) ++ LF in
          formatMachineIndices_loop fuel' keyMetas s' w' ((chunks0 ++ [Buffer_from line])%list)
      | (Settled (Normal (IDone value)) s', w') =>
          match value with
          | None => Some (Throw TypeError_in_undefined, s', w')
          | Some (Err cause) => Some (Normal (Err cause), s', w')
          | Some (Ok _) =>
              Some (Normal (Result.ok (Buffer_toString (List.concat chunks0))), s', w')
          end
      end
  end.

Fixpoint formatJsonIndices_loop {S} (fuel : nat)
    (keyMetas : AsyncGenerator S KeyMetadata (option (Result unit)))
    (s : S) (w : World) (indices : gmap string KeyMetadata)
  : option (Completion (Result string) * S * World) :=
  match fuel with
  | O => None
  | Datatypes.S fuel' =>
      match keyMetas s w with
      | (Pending s', w') => formatJsonIndices_loop fuel' keyMetas s' w' indices
      | (Settled (Throw cause) s', w') => Some (Throw cause, s', w')
      | (Settled (Normal (IYield keyMeta)) s', w') =>
          formatJsonIndices_loop fuel' keyMetas s' w'
            (<[field "fingerprint" keyMeta := keyMeta]> indices)
      | (Settled (Normal (IDone value)) s', w') =>
          match value with
          | None => Some (Throw TypeError_in_undefined, s', w')
          | Some (Err cause) => Some (Normal (Err cause), s', w')
          | Some (Ok _) => Some (Normal (Result.ok (JSON_stringify indices)), s', w')
          end
      end
  end.

Definition formatMachineIndices {S} (fuel : nat)
    (keyMetas : AsyncGenerator S KeyMetadata (option (Result unit))) (s : S) (w : World) :=
  formatMachineIndices_loop fuel keyMetas s w [].

Definition formatJsonIndices {S} (fuel : nat)
    (keyMetas : AsyncGenerator S KeyMetadata (option (Result unit))) (s : S) (w : World) :=
  formatJsonIndices_loop fuel keyMetas s w ∅.

Definition isMachine (lookup : SearchingLookup) : bool :=
  match options lookup with
  | None => true
  | Some opts => includes "mr" opts || negb (includes "json" opts)
  end.

Definition formatIndices {S} (fuel : nat) (lookup : SearchingLookup)
    (keyMetas : AsyncGenerator S KeyMetadata (option (Result unit))) (s : S) (w : World)
  : option (Completion (Result APIGatewayProxyStructuredResultV2) * S * World) :=
  let content_type := if isMachine lookup then "text/plain" else "application/json" in
  let formatResult :=
    if isMachine lookup then formatMachineIndices fuel keyMetas s w
    else formatJsonIndices fuel keyMetas s w in
  match formatResult with
  | None => None
  | Some (Throw cause, s', w') => Some (Throw cause, s', w')
  | Some (Normal (Err cause), s', w') => Some (Normal (Err cause), s', w')
  | Some (Normal (Ok value), s', w') =>
      Some (Normal (Result.ok
              {| statusCode := OK;
                 headers := {[ "Content-Type" := content_type ]};
                 body := Some value |}), s', w')
  end.

(** The body of [generateKeyStreams], suspended at a [keyMetas.next()]; the
    state is that of [keyMetas]. *)
Definition generateKeyStreams {S}
    (keyMetas : AsyncGenerator S KeyMetadata (option (Result unit)))
  : GeneratorBody S Readable (option (Result unit)) :=
  fun s w =>
    match keyMetas s w with
    | (Pending s', w') => (Await s', w')
    | (Settled (Throw cause) _, w') => (Raise cause, w')
    | (Settled (Normal (IDone value)) _, w') => (Return value, w')
    | (Settled (Normal (IYield keyMeta)) s', w') =>
        match Backend.getKeyDataStream keyMeta w' with
        | (Throw cause, w'') => (Raise cause, w'')
        | (Normal (Ok (Some value)), w'') => (Yield value s', w'')
        | (Normal _, w'') => (Await s', w'')
        end
    end.

(** The handler of [get]: the lookup it receives is the world's, whose
    [search] is present. *)
Definition get_handler (fuel : nat) (w : World) :=
  let keyMetas := generator Backend.searchKeysByBestGuess in
  let keyStreams := generator (generateKeyStreams keyMetas) in
  formatKeys fuel keyStreams (Some (Some Backend.Guess_entry)) w.

(** The handler of [index] and [vindex], on a lookup whose [search] is
    present. *)
Definition index_handler (fuel : nat) (w : World) :=
  let keyMetas := generator Backend.searchKeysByBestGuess in
  formatIndices fuel (lookup_object w) keyMetas (Some Backend.Guess_entry) w.

(** The generator [hget] passes to [generateKeyStreams]: not started, or
    after its [yield]. *)
Inductive FoundState :=
| Found_entry
| Found_yielded.

Definition found_key (value : option KeyMetadata)
  : GeneratorBody FoundState KeyMetadata (option (Result unit)) :=
  fun s w =>
    match s with
    | Found_entry =>
        match value with
        | Some keyMeta => (Yield keyMeta Found_yielded, w)
        | None => (Return (Some (Result.ok tt)), w)
        end
    | Found_yielded => (Return (Some (Result.ok tt)), w)
    end.

(** The handler of [hget]; the generator state it hands back is that of the
    stream generator, when it got as far as creating one. *)
Definition hget_handler (fuel : nat) (w : World)
  : option (Completion (Result APIGatewayProxyStructuredResultV2) * World) :=
  match HEX_REGEX (search (lookup_object w)) with
  | None =>
      Some (Result.err
              (BadLookupError ("invalid hex string format " ++ search (lookup_object w))), w)
  | Some match_1 =>
      let w := mkWorld (set_search (lookup_object w) match_1)
                       (dynamo_answers w) (dynamo_sent w) in
      let lookup := lookup_object w in
      let len := String.length (search lookup) in
      if negb (len =? 32)%nat && negb (len =? 40)%nat && negb (len =? 64)%nat then
        Some (Result.err
                (BadLookupError ("invalid hex string length " ++ search lookup)), w)
      else
        match Backend.findKeyByFingerprint lookup w with
        | (Throw cause, w') => Some (Throw cause, w')
        | (Normal (Err cause), w') => Some (Normal (Err cause), w')
        | (Normal (Ok value), w') =>
            let keyStreams := generator (generateKeyStreams (generator (found_key value))) in
            match formatKeys fuel keyStreams (Some (Some Found_entry)) w' with
            | Some (c, _, w'') => Some (c, w'')
            | None => None
            end
        end
  end.

End WithExternals.
End Lookup.

(* ===================================================================== *)
(** ** types.ts, handlers.ts and the entry point of lookup.ts *)
(* ===================================================================== *)

Module Types.

(** [Lookup] of [src/backend/types.ts]. *)
Record Lookup := mk {
  op : string;
  search : option string;
  options : option (list string);
  exact : bool
}.

End Types.

(** [SearchingLookup.is(it)]: whether [it.search !== undefined], with the
    lookup as the narrowed type sees it. *)
Definition SearchingLookup_is (it : Types.Lookup) : option SearchingLookup :=
  match Types.search it with
  | Some s => Some (mkLookup (Types.op it) s (Types.options it) (Types.exact it))
  | None => None
  end.

(** The lookup object after a handler has worked on it. *)
Definition as_Lookup (lookup : SearchingLookup) : Types.Lookup :=
  Types.mk (op lookup) (Some (search lookup)) (options lookup) (exact lookup).

(** What [lookup.ts] takes from the runtime and from [./exceptions]:
    [String.prototype.trim]; the evaluation of
    [JSON.stringify(error, Object.getOwnPropertyNames(error))], which can
    throw and can return [undefined]; whether the class named first is a
    proper subclass of the class named second; and the [TypeError] a call of
    [handlers[op]] ends in when [op] names a member of [Object.prototype]. *)
Class Runtime := {
  String_trim : string -> string;
  JSON_stringify_error : JSValue -> Completion (option string);
  extends : string -> string -> bool;
  TypeError_of_inherited : string -> JSValue
}.

(** [error instanceof cls], for a class [cls] of [./exceptions]. *)
Definition instanceof `{Runtime} (error : JSValue) (cls : string) : bool :=
  match error with
  | VObject (ErrorObject ctor) _ => String.eqb ctor cls || extends ctor cls
  | _ => false
  end.

(** [new EmptyLookupError(message)] and [new UnknownOperationError(message)]
    of [./exceptions]. *)
Definition EmptyLookupError (message : string) : JSValue :=
  VObject (ErrorObject "EmptyLookupError") [ mkProperty "message" false (VString message) ].

Definition UnknownOperationError (message : string) : JSValue :=
  VObject (ErrorObject "UnknownOperationError")
    [ mkProperty "message" false (VString message) ].

(** [s.split(',')]. *)
Fixpoint split_comma (s : string) : list string :=
  match s with
  | EmptyString => [ EmptyString ]
  | String c rest =>
      if Ascii.eqb c "," then EmptyString :: split_comma rest
      else match split_comma rest with
           | piece :: pieces => String c piece :: pieces
           | [] => [ String c EmptyString ]
           end
  end.

(** The names [Object.prototype] answers to: what [handlers[op]] finds when
    [handlers] has no own property [op]. *)
Definition Object_prototype_members : list string :=
  [ "constructor"; "__defineGetter__"; "__defineSetter__"; "hasOwnProperty";
    "__lookupGetter__"; "__lookupSetter__"; "isPrototypeOf"; "propertyIsEnumerable";
    "toString"; "valueOf"; "__proto__"; "toLocaleString" ].

Module LookupHandlers.

(** [LookupHandler]: the handler works on the lookup object it is given,
    against the answers the store has left, and adds to the commands sent. *)
Definition LookupHandler : Type :=
  nat -> Types.Lookup -> list (Completion DynamoOutput) -> list DynamoCommand ->
  option (Completion (Result APIGatewayProxyStructuredResultV2)
          * Types.Lookup * list (Completion DynamoOutput) * list DynamoCommand).

(** What [handlers[op]] evaluates to: an own property, a member inherited
    from [Object.prototype], or [undefined]. *)
Inductive Member :=
| Own (handler : LookupHandler)
| Inherited
| Undefined.

Definition getOperation (handlers : gmap string LookupHandler) (op : string) : Member :=
  match handlers !! op with
  | Some handler => Own handler
  | None =>
      if bool_decide (op ∈ Object_prototype_members) then Inherited else Undefined
  end.

Definition addOperation (op : string) (handler : LookupHandler)
    (handlers : gmap string LookupHandler) : LookupHandler * gmap string LookupHandler :=
  (handler, <[op := handler]> handlers).

End LookupHandlers.

Module Entry.
Section WithExternals.
Context `{Externals} `{Runtime}.

(** The guard each handler starts with. *)
Definition missing_search : Completion (Result APIGatewayProxyStructuredResultV2) :=
  Result.err (BadLookupError "missing search").

Definition index : LookupHandlers.LookupHandler :=
  fun fuel lookup answers sent =>
    match SearchingLookup_is lookup with
    | None => Some (missing_search, lookup, answers, sent)
    | Some lookup =>
        match Lookup.index_handler fuel (mkWorld lookup answers sent) with
        | Some (c, _, w) =>
            Some (c, as_Lookup (lookup_object w), dynamo_answers w, dynamo_sent w)
        | None => None
        end
    end.

Definition get : LookupHandlers.LookupHandler :=
  fun fuel lookup answers sent =>
    match SearchingLookup_is lookup with
    | None => Some (missing_search, lookup, answers, sent)
    | Some lookup =>
        match Lookup.get_handler fuel (mkWorld lookup answers sent) with
        | Some (c, _, w) =>
            Some (c, as_Lookup (lookup_object w), dynamo_answers w, dynamo_sent w)
        | None => None
        end
    end.

Definition hget : LookupHandlers.LookupHandler :=
  fun fuel lookup answers sent =>
    match SearchingLookup_is lookup with
    | None => Some (missing_search, lookup, answers, sent)
    | Some lookup =>
        match Lookup.hget_handler fuel (mkWorld lookup answers sent) with
        | Some (c, w) =>
            Some (c, as_Lookup (lookup_object w), dynamo_answers w, dynamo_sent w)
        | None => None
        end
    end.

(** The registry once the module is loaded: the four [addOperation] calls,
    in their order. *)
Definition handlers : gmap string LookupHandlers.LookupHandler :=
  let '(index, handlers) := LookupHandlers.addOperation "index" index ∅ in
  let '(_, handlers) := LookupHandlers.addOperation "vindex" index handlers in
  let '(_, handlers) := LookupHandlers.addOperation "get" get handlers in
  let '(_, handlers) := LookupHandlers.addOperation "hget" hget handlers in
  handlers.

Definition formatError (error : JSValue) : Completion APIGatewayProxyStructuredResultV2 :=
  match JSON_stringify_error error with
  | Throw cause => Throw cause
  | Normal text =>
      let result := InternalServerError in
      let result := if instanceof error "BadLookupError" then BadRequest else result in
      let result := if instanceof error "EmptyLookupError" then NotFound else result in
      let result :=
        if instanceof error "UnknownOperationError" then NotImplemented else result in
      let result := if instanceof error "NoDataError" then InternalServerError else result in
      Normal {| statusCode := result; headers := ∅; body := text |}
  end.

(** The lambda entry point, on [event.queryStringParameters]; it returns
    the response, or the rejection, and the commands the store received. *)
Definition lookup (fuel : nat) (queryStringParameters : option (gmap string string))
    (answers : list (Completion DynamoOutput))
  : option (Completion APIGatewayProxyStructuredResultV2 * list DynamoCommand) :=
  match queryStringParameters with
  | None => Some (formatError (BadLookupError "missing parameters"), [])
  | Some parameters =>
      let v := parameters !! "v" in
      let search := parameters !! "search" in
      let exact := parameters !! "exact" in
      let op := String_trim <$> parameters !! "op" in
      let options := split_comma <$> parameters !! "options" in
      (* from [if (op === undefined || op.length === 0)] on *)
      let admitted :=
        match op with
        | None => Some (formatError (BadLookupError "missing operation"), [])
        | Some op =>
            if (String.length op =? 0)%nat
            then Some (formatError (BadLookupError "missing operation"), [])
            else
              match LookupHandlers.getOperation handlers op with
              | LookupHandlers.Undefined =>
                  Some (formatError (UnknownOperationError ("unknown operation " ++ op)), [])
              | LookupHandlers.Inherited => Some (Throw (TypeError_of_inherited op), [])
              | LookupHandlers.Own handler =>
                  let lookup :=
                    Types.mk op search options (bool_decide (exact = Some "on")) in
                  match handler fuel lookup answers [] with
                  | None => None
                  | Some (Throw cause, _, _, sent) => Some (Throw cause, sent)
                  | Some (Normal (Err cause), _, _, sent) => Some (formatError cause, sent)
                  | Some (Normal (Ok structuredResult), lookup, _, sent) =>
                      let empty :=
                        formatError
                          (EmptyLookupError
                             ("no keys matching '"
                              ++ default "undefined" (Types.search lookup) ++ "'")) in
                      match body structuredResult with
                      | None => Some (empty, sent)
                      | Some text =>
                          if (String.length text =? 0)%nat then Some (empty, sent)
                          else Some (Normal structuredResult, sent)
                      end
                  end
              end
        end in
      match v with
      | Some version =>
          if negb (String.eqb version "1")
          then Some (formatError (BadLookupError ("unsupported version " ++ version)), [])
          else admitted
      | None => admitted
      end
  end.

End WithExternals.
End Entry.

(* ===================================================================== *)
(** ** Sample environment *)
(* ===================================================================== *)

Definition is_hex_digit (c : ascii) : bool :=
  let n := nat_of_ascii c in
  ((48 <=? n)%nat && (n <=? 57)%nat) ||
  ((65 <=? n)%nat && (n <=? 70)%nat) ||
  ((97 <=? n)%nat && (n <=? 102)%nat).

Fixpoint all_hex (s : string) : bool :=
  match s with
  | EmptyString => true
  | String c rest => is_hex_digit c && all_hex rest
  end.

(** Modelled from the spec: [HEX_REGEX] of [src/utils/constants.ts], which
    is not among the sources.  Section 4.2 has it a hex-identifier pattern,
    optionally prefixed by a 2-character marker such as [0x], whose match is
    replaced by the hex payload, marker stripped; that the id path
    upper-cases the payload says that the digits may be of either case. *)
Definition HEX_REGEX_spec (s : string) : option string :=
  let payload :=
    match s with
    | String "0" (String "x" rest) => rest
    | _ => s
    end in
  if negb (String.eqb payload "") && all_hex payload then Some payload else None.

(** An environment to run the model in: an object store that holds the
    data of one key, answers without a body for a second, delivers a stream
    that breaks for a third and refuses every other name; buffers are the
    bytes of the string.  The search texts of the samples hold ASCII
    characters only, on which [toUpperCase] is [toUpperCase_ASCII]. *)
Definition sample_stream : Readable :=
  mkReadable [BufferChunk [x6b; x65; x79; x0a]] None.

Definition broken_stream : Readable :=
  mkReadable [BufferChunk [x6b; x65]] (Some (new_Error (Some "aborted"))).

Definition sample_externals : Externals := {|
  PGP_TABLE_NAME := "pgp-table";
  PGP_BUCKET_NAME := "pgp-bucket";
  PGP_TABLE_PAGE_LIMIT := None;
  HEX_REGEX := HEX_REGEX_spec;
  toUpperCase := toUpperCase_ASCII;
  S3_send := fun request =>
    if String.eqb (GetObjectCommand.Key request) "AABBCCDDEEFF00112233445566778899AABBCCDD"
    then Normal (mkObject (Some sample_stream))
    else if String.eqb (GetObjectCommand.Key request) "00000000000000000000000066778899AABBCCDD"
    then Normal (mkObject None)
    else if String.eqb (GetObjectCommand.Key request) "FFFFFFFFFFFFFFFFFFFFFFFF1122334455667788"
    then Normal (mkObject (Some broken_stream))
    else Throw (new_Error (Some "NoSuchKey"));
  Buffer_from := list_byte_of_string;
  Buffer_toString := string_of_list_byte;
  encodeURIComponent := fun s => s;
  JSON_stringify := fun indices => String.concat "," (fst <$> map_to_list indices)
|}.

(** [trim] on the ASCII space. *)
Fixpoint trim_start (s : string) : string :=
  match s with
  | String c rest => if Ascii.eqb c " " then trim_start rest else s
  | EmptyString => EmptyString
  end.

Definition sample_trim (s : string) : string :=
  let reversed t := string_of_list_ascii (List.rev (list_ascii_of_string t)) in
  reversed (trim_start (reversed (trim_start s))).

Definition sample_runtime : Runtime := {|
  String_trim := sample_trim;
  JSON_stringify_error := fun error => Some <$> ToString error;
  extends := fun _ _ => false;
  TypeError_of_inherited := fun _ =>
    VObject (ErrorObject "TypeError")
      [ mkProperty "message" false (VString "handler is not a function") ]
|}.

(** A record of the table, as the store returns it. *)
Definition sample_item (keyId upper uid : string) : gmap string AttributeValue :=
  {[ "pgpKeyId" := AV_S keyId; "pgpFingerprintUpper" := AV_S upper;
     "primaryUserId" := AV_S uid ]}.

Definition sample_key (keyId upper uid : string) : KeyMetadata :=
  {[ "id" := NString keyId; "fingerprint" := NString (upper ++ keyId);
     "primaryUserId" := NString uid ]}.

Local Open Scope list_scope.
Local Abbreviation length := Datatypes.length.

(* ===================================================================== *)
(** ** The vocabulary of the statements *)
(* ===================================================================== *)

Definition message_404 : JSValue :=
  VObject PlainObject [mkProperty "message" true (VNumber (safe 404))].

(** [{message: {toString: 1, valueOf: 1}}]: an object whose [message] has no
    string. *)
Definition message_unconvertible : JSValue :=
  VObject PlainObject
    [ mkProperty "message" true
        (VObject PlainObject
           [ mkProperty "toString" true (VNumber (safe 1));
             mkProperty "valueOf" true (VNumber (safe 1)) ]) ].

(** The pull of a generator object that has completed. *)
Definition idle {T R} `{Void R} : Completion (IteratorResult T (Result R)) :=
  Normal (IDone (Result.ok undefined)).

(** The shape of what successive pulls return: items, then at most one
    termination of the body (a [done], or the rejection of a pull whose
    conversion of the cause threw), then only the pull of a completed
    generator. *)
Definition items_then_done {T R} `{Void R}
    (cs : list (Completion (IteratorResult T (Result R)))) : Prop :=
  exists (items : list T) (tail : list (Completion (IteratorResult T (Result R)))),
    cs = ((fun v => Normal (IYield v)) <$> items) ++ tail /\
    (tail = []
     \/ exists termination n,
          tail = termination :: repeat idle n
          /\ ((exists r, termination = Normal (IDone r))
              \/ (exists e, termination = Throw e))).

(** A page the store answers with: its records, if the field is there, and
    its continuation token, if more data exists. *)
Definition page_of (items : option (list (gmap string AttributeValue)))
    (key : option (gmap string AttributeValue)) : Completion DynamoOutput :=
  Normal (mkOutput items key None).

(** A page that carries a continuation token. *)
Definition continued (p : option (list (gmap string AttributeValue)) * gmap string AttributeValue)
  : Completion DynamoOutput :=
  page_of (fst p) (Some (snd p)).

Definition records (items : option (list (gmap string AttributeValue)))
  : list (gmap string AttributeValue) :=
  default [] items.

Definition all_records
    (pages : list (option (list (gmap string AttributeValue)) * gmap string AttributeValue))
  : list (gmap string AttributeValue) :=
  List.concat ((fun p => records (fst p)) <$> pages).

Definition prepend {T R S : Type} (vs : list T)
    (x : option (list T * Completion R * S * World))
  : option (list T * Completion R * S * World) :=
  match x with
  | Some (vs', c, s, w) => Some (vs ++ vs', c, s, w)
  | None => None
  end.

(** The requests a paginated search sends: the one it was built with, then
    that same request with the token of each page in turn. *)
Definition requests_for (request : DynamoCommand)
    (pages : list (option (list (gmap string AttributeValue)) * gmap string AttributeValue))
  : list DynamoCommand :=
  request :: ((fun p => Backend.set_ExclusiveStartKey request (snd p)) <$> pages).

(** The continuation token a command carries, and the command without
    it. *)
Definition start_key (command : DynamoCommand) : option (gmap string AttributeValue) :=
  match command with
  | QueryCommand i => QueryCommand.ExclusiveStartKey i
  | ScanCommand i => ScanCommand.ExclusiveStartKey i
  | GetItemCommand _ => None
  end.

Definition without_start_key (command : DynamoCommand) : DynamoCommand :=
  match command with
  | QueryCommand i =>
      QueryCommand
        {| QueryCommand.TableName := QueryCommand.TableName i;
           QueryCommand.KeyConditionExpression := QueryCommand.KeyConditionExpression i;
           QueryCommand.ExpressionAttributeValues := QueryCommand.ExpressionAttributeValues i;
           QueryCommand.Limit := QueryCommand.Limit i;
           QueryCommand.ExclusiveStartKey := None |}
  | ScanCommand i =>
      ScanCommand
        {| ScanCommand.TableName := ScanCommand.TableName i;
           ScanCommand.FilterExpression := ScanCommand.FilterExpression i;
           ScanCommand.ExpressionAttributeValues := ScanCommand.ExpressionAttributeValues i;
           ScanCommand.Limit := ScanCommand.Limit i;
           ScanCommand.ExclusiveStartKey := None |}
  | GetItemCommand i => GetItemCommand i
  end.

(** [keyMetas] are the records [items], decoded. *)
Definition decoded (items : list (gmap string AttributeValue)) (keyMetas : list KeyMetadata)
  : Prop :=
  Forall2 (fun i keyMeta => Backend.extractKeyMetadata i = Normal keyMeta) items keyMetas.

(** The record [extractKeyMetadata] derives from the decoded mapping
    [result] whose key id is [keyId] and whose upper fingerprint segment is
    [upper]. *)
Definition derived (result : gmap string Native) (keyId upper : string) : KeyMetadata :=
  delete "pgpFingerprintUpper"
    (delete "pgpKeyId"
       (<["fingerprint" := NString (upper ++ keyId)%string]>
          (<["id" := NString keyId]> result))).

(** The three fields [extractKeyMetadata] asserts to be strings. *)
Definition required_fields : list string :=
  ["pgpKeyId"; "pgpFingerprintUpper"; "primaryUserId"].

Definition is_string_field (result : gmap string Native) (k : string) : bool :=
  String.eqb (typeof_field (result !! k)) "string".

Definition progress_state {S T R} (p : Progress S T R) : S :=
  match p with
  | Pending s => s
  | Settled _ s => s
  end.

(** [n] turns of the event loop under a consumer that pulls again as soon
    as a pull has settled: where the generator and the world are then. *)
Fixpoint turns {S T R} (n : nat) (g : AsyncGenerator S T R) (s : S) (w : World)
  : S * World :=
  match n with
  | O => (s, w)
  | Datatypes.S n' =>
      match g s w with
      | (Pending s', w') => turns n' g s' w'
      | (Settled _ s', w') => turns n' g s' w'
      end
  end.

(** [command] is [request], or [request] with a continuation token
    attached. *)
Definition same_query (request command : DynamoCommand) : Prop :=
  command = request \/ exists key, command = Backend.set_ExclusiveStartKey request key.

(** The request a suspended paginated search holds is [request], up to the
    continuation token. *)
Definition holds_query (request : DynamoCommand) (st : option Backend.PageState) : Prop :=
  match st with
  | None => True
  | Some (Backend.Sending r) => same_query request r
  | Some (Backend.Yielding r _ _) => same_query request r
  end.

Definition delegates_query (request : DynamoCommand) (st : option Backend.GuessState)
  : Prop :=
  match st with
  | None => True
  | Some (Backend.Guess_delegating inner) => holds_query request inner
  | Some _ => False
  end.

(** The commands a paginated search that began with [query] has sent, when
    the store had the answers [all]: first [query], then [query] with the
    [LastEvaluatedKey] of the answer to the command before. *)
Definition commands_chained (query : DynamoCommand) (all : list (Completion DynamoOutput))
    (cmds : list DynamoCommand) : Prop :=
  forall i command,
    cmds !! i = Some command ->
    match i with
    | O => command = query
    | Datatypes.S j =>
        exists response token,
          all !! j = Some (Normal response)
          /\ LastEvaluatedKey response = Some token
          /\ command = Backend.set_ExclusiveStartKey query token
    end.

(** A paginated search that began with [query] in a world that had sent
    [sent0] and whose store had the answers [all], after it has sent
    [cmds]: the answers left, and the request it holds. *)
Definition paging (query : DynamoCommand) (all : list (Completion DynamoOutput))
    (sent0 cmds : list DynamoCommand) (st : option Backend.PageState) (w : World) : Prop :=
  dynamo_sent w = sent0 ++ cmds
  /\ dynamo_answers w = drop (length cmds) all
  /\ commands_chained query all cmds
  /\ match st with
     | None => True
     | Some (Backend.Sending r) =>
         match length cmds with
         | O => r = query
         | Datatypes.S j =>
             exists response token,
               all !! j = Some (Normal response)
               /\ LastEvaluatedKey response = Some token
               /\ r = Backend.set_ExclusiveStartKey query token
         end
     | Some (Backend.Yielding r response _) =>
         same_query query r
         /\ exists j, length cmds = Datatypes.S j /\ all !! j = Some (Normal response)
     end.

(** The same of [searchKeysByBestGuess], while it delegates to that search
    and once it has completed. *)
Definition delegates_paging (query : DynamoCommand) (all : list (Completion DynamoOutput))
    (sent0 cmds : list DynamoCommand) (st : option Backend.GuessState) (w : World) : Prop :=
  match st with
  | None => paging query all sent0 cmds None w
  | Some (Backend.Guess_delegating inner) => paging query all sent0 cmds inner w
  | Some _ => False
  end.

(** Pulling until [count] items have been yielded: the items, and where the
    generator and the world are right after the last of them. *)
Fixpoint take_items {S T R} (fuel count : nat) (g : AsyncGenerator S T R) (s : S) (w : World)
  {struct fuel} : option (list T * S * World) :=
  match count with
  | O => Some ([], s, w)
  | Datatypes.S count' =>
      match fuel with
      | O => None
      | Datatypes.S fuel' =>
          match g s w with
          | (Pending s', w') => take_items fuel' count g s' w'
          | (Settled (Normal (IYield v)) s', w') =>
              match take_items fuel' count' g s' w' with
              | Some (vs, s'', w'') => Some (v :: vs, s'', w'')
              | None => None
              end
          | (Settled _ _, _) => None
          end
      end
  end.

(** A stream that can be read to its end. *)
Definition readable (keyStream : Readable) : Prop := failure keyStream = None.

(** The object [formatJsonIndices] fills, from [indices] on. *)
Definition index_from (indices : gmap string KeyMetadata) (keyMetas : list KeyMetadata)
  : gmap string KeyMetadata :=
  foldl (fun m keyMeta => <[field "fingerprint" keyMeta := keyMeta]> m) indices keyMetas.

(** How a formatter ends on a sequence that terminated with [r]. *)
Definition formatted {A} (r : Result unit) (value : A) : Result A :=
  match r with
  | Ok _ => Ok value
  | Err cause => Err cause
  end.

(** What a command asks for: the value bound to [:term], and the key of a
    point lookup. *)
Definition filter_term (command : DynamoCommand) : option AttributeValue :=
  match command with
  | QueryCommand i => QueryCommand.ExpressionAttributeValues i !! ":term"
  | ScanCommand i => ScanCommand.ExpressionAttributeValues i !! ":term"
  | GetItemCommand _ => None
  end.

Definition point_key (command : DynamoCommand) (k : string) : option AttributeValue :=
  match command with
  | GetItemCommand i => GetItemCommand.Key i !! k
  | _ => None
  end.

Section Vocabulary.
Context `{Externals}.

(** The buffers reading [keyStream] pushes. *)
Definition stream_buffers (keyStream : Readable) : list (list byte) :=
  (fun nextChunk =>
     match nextChunk with
     | BufferChunk b => b
     | OtherChunk s => Buffer_from s
     end) <$> chunks keyStream.

(** The stream [getKeyDataStream] finds for a key, if it finds one. *)
Definition present_stream (keyMeta : KeyMetadata) : option Readable :=
  match S3_send {| GetObjectCommand.Bucket := PGP_BUCKET_NAME;
                   GetObjectCommand.Key := field "fingerprint" keyMeta |} with
  | Normal response => Body response
  | Throw _ => None
  end.

(** The retrieval of the data of [keyMeta] returns: with a stream, with
    none, or with an [Err]. *)
Definition retrieved (keyMeta : KeyMetadata) : Prop :=
  forall w, exists r, Backend.getKeyDataStream keyMeta w = (Normal r, w).

(** The response [formatKeys] builds from the streams it has read. *)
Definition keys_body (streams : list Readable) : APIGatewayProxyStructuredResultV2 :=
  {| statusCode := OK;
     headers := {[ "Content-Type" := "application/pgp-keys" ]};
     body := Some (Buffer_toString (List.concat (List.concat (stream_buffers <$> streams)))) |}.

End Vocabulary.

(* ===================================================================== *)
(** ** Vocabulary of the further properties *)
(* ===================================================================== *)

(** An object has each of its own keys once. *)
Definition own_keys_distinct (v : JSValue) : Prop :=
  match v with
  | VObject _ props => NoDup (prop_key <$> props)
  | _ => True
  end.

(** The own properties an object spread leaves: keys all different, every
    property enumerable. *)
Definition spread_shape (l : list (Property JSValue)) : Prop :=
  NoDup (prop_key <$> l) /\ Forall (fun p => prop_enumerable p = true) l.

(** What a generator that delegates with [return yield* inner] yields and
    returns, from what [inner] does. *)
Definition delegated {T R S S' : Type} (x : option (list T * Completion R * S * World))
  : option (list T * Completion (option R) * option S' * World) :=
  match x with
  | Some (vs, c, _, w') => Some (vs, Some <$> c, None, w')
  | None => None
  end.

(** The request names no version, or the version 1. *)
Definition supported_version (parameters : gmap string string) : Prop :=
  forall version, parameters !! "v" = Some version -> version = "1".

(** The operations the module registers. *)
Definition registered : list string := [ "index"; "vindex"; "get"; "hget" ].

(** The classes of [./exceptions] that [formatError] tells apart. *)
Definition lookup_errors : list string :=
  [ "BadLookupError"; "EmptyLookupError"; "UnknownOperationError"; "NoDataError" ].

(** The lookup object the entry point builds for the operation [op]. *)
Definition lookup_of (op : string) (parameters : gmap string string) : Types.Lookup :=
  Types.mk op (parameters !! "search") (split_comma <$> parameters !! "options")
    (bool_decide (parameters !! "exact" = Some "on")).

(** The block [for await (const _ of it) {}]. *)
Definition for_await {T R R2} (fuel : nat) : AsyncGenerators.Block T R R2 :=
  fun St it s w =>
    match drain fuel (AsyncGenerators.next_method it) s w with
    | None => None
    | Some (_, Throw cause, s', w') => Some (Throw cause, s', w')
    | Some (_, Normal _, s', w') => Some (Normal None, s', w')
    end.

(** The block that, after such a loop, calls [it.next()] once more. *)
Definition for_await_and_next {T R R2} (fuel : nat) : AsyncGenerators.Block T R R2 :=
  fun St it s w =>
    match drain fuel (AsyncGenerators.next_method it) s w with
    | None => None
    | Some (_, Throw cause, s', w') => Some (Throw cause, s', w')
    | Some (_, Normal _, s', w') =>
        match next fuel (AsyncGenerators.next_method it) s' w' with
        | None => None
        | Some (Throw cause, s'', w'') => Some (Throw cause, s'', w'')
        | Some (Normal _, s'', w'') => Some (Normal None, s'', w'')
        end
    end.

(** The string a string attribute or a number attribute holds. *)
Definition string_attribute (attr : option AttributeValue) : option string :=
  match attr with
  | Some (AV_S s) => Some s
  | Some (AV_N n) => Some n
  | _ => None
  end.

Section FurtherVocabulary.
Context `{Externals}.

(** The line [formatMachineIndices] writes for a record. *)
Definition machine_line (keyMeta : KeyMetadata) : string :=
  ("pub:" ++ field "fingerprint" keyMeta ++ LF ++
   "uid:" ++ encodeURIComponent (field "primaryUserId" keyMeta) ++ LF)%string.

(** The response of the machine-readable index of [keys]. *)
Definition machine_response (keys : list KeyMetadata) : APIGatewayProxyStructuredResultV2 :=
  {| statusCode := OK;
     headers := {[ "Content-Type" := "text/plain" ]};
     body := Some (Buffer_toString
                     (List.concat ((fun keyMeta => Buffer_from (machine_line keyMeta)) <$> keys))) |}.

(** How the retrieval of the data of one key and the reading of its stream
    end: with the response [formatKeys] builds from the stream, or from no
    stream when the bucket has none or the retrieval ended in [Err]; with
    [Result.err] of the cause when the stream fails while it is read; with a
    [throw] when the conversion of the retrieval's failure throws. *)
Definition delivered (keyMeta : KeyMetadata)
  : Completion (Result APIGatewayProxyStructuredResultV2) :=
  match S3_send {| GetObjectCommand.Bucket := PGP_BUCKET_NAME;
                   GetObjectCommand.Key := field "fingerprint" keyMeta |} with
  | Throw cause =>
      _ ← Result.err (T:=option Readable) cause; Normal (Ok (keys_body []))
  | Normal response =>
      match Body response with
      | None => Normal (Ok (keys_body []))
      | Some keyStream =>
          match failure keyStream with
          | None => Normal (Ok (keys_body [keyStream]))
          | Some cause => Result.err cause
          end
      end
  end.

End FurtherVocabulary.

(* ===================================================================== *)
(** ** Sample requests *)
(* ===================================================================== *)

Definition item_1 := sample_item "66778899AABBCCDD" "AABBCCDDEEFF001122334455" "Jane Doe <jane@example.org>".
Definition item_2 := sample_item "66778899AABBCCDD" "000000000000000000000000" "John Roe <john@example.org>".
Definition item_3 := sample_item "1122334455667788" "FFFFFFFFFFFFFFFFFFFFFFFF" "Erin Poe <erin@example.org>".
Definition key_1 := sample_key "66778899AABBCCDD" "AABBCCDDEEFF001122334455" "Jane Doe <jane@example.org>".
Definition key_2 := sample_key "66778899AABBCCDD" "000000000000000000000000" "John Roe <john@example.org>".
Definition key_3 := sample_key "1122334455667788" "FFFFFFFFFFFFFFFFFFFFFFFF" "Erin Poe <erin@example.org>".
Definition item_4 := sample_item "8877665544332211" "123412341234123412341234" "Alex Low <alex@example.org>".
Definition key_4 := sample_key "8877665544332211" "123412341234123412341234" "Alex Low <alex@example.org>".
Definition item_5 := sample_item "66778899AABBCCDD" "AABBCCDDEEFF001122334455" "Jane D. <jd@example.org>".
Definition key_5 := sample_key "66778899AABBCCDD" "AABBCCDDEEFF001122334455" "Jane D. <jd@example.org>".

(** A record whose [pgpKeyId] is missing. *)
Definition item_bad : gmap string AttributeValue :=
  {[ "pgpFingerprintUpper" := AV_S "AABBCCDDEEFF001122334455";
     "primaryUserId" := AV_S "Jane Doe <jane@example.org>" ]}.

(** A record whose [pgpKeyId] is a number attribute. *)
Definition item_numeric : gmap string AttributeValue :=
  {[ "pgpKeyId" := AV_N "1234567890123456";
     "pgpFingerprintUpper" := AV_S "AABBCCDDEEFF001122334455";
     "primaryUserId" := AV_S "Jane Doe <jane@example.org>" ]}.

Definition token_1 : gmap string AttributeValue := {[ "pgpKeyId" := AV_S "66778899AABBCCDD" ]}.
Definition token_2 : gmap string AttributeValue := {[ "pgpKeyId" := AV_S "1122334455667788" ]}.

Definition sample_pages
  : list (option (list (gmap string AttributeValue)) * gmap string AttributeValue) :=
  [ (Some [item_1; item_2], token_1); (None, token_2) ].

Definition lookup_id : SearchingLookup := mkLookup "index" "66778899aabbccdd" None false.
Definition lookup_name : SearchingLookup := mkLookup "index" "jane" (Some ["json"]) true.
Definition lookup_short_hex : SearchingLookup := mkLookup "index" "0xABCD" None false.
Definition lookup_fingerprint : SearchingLookup :=
  mkLookup "get" "0xaabbccddeeff00112233445566778899aabbccdd" None false.

Definition transport_error : JSValue := new_Error (Some "socket hang up").

(** Query string parameters: a fingerprint for [hget], the same without a
    search text, an operation nobody registered, and a version that is not
    supported. *)
Definition parameters_hget : gmap string string :=
  {[ "op" := " hget "; "v" := "1";
     "search" := "0xaabbccddeeff00112233445566778899aabbccdd" ]}.

Definition parameters_no_search : gmap string string := {[ "op" := "get" ]}.

Definition parameters_unknown : gmap string string := {[ "op" := "GET"; "search" := "jane" ]}.

Definition parameters_v2 : gmap string string :=
  {[ "op" := "get"; "v" := "2"; "search" := "jane" ]}.

(** A generator object whose [throw] and [return] are those of a generator
    that has not started: the first rejects with the cause, the second is
    done with its argument. *)
Definition not_started {S T R} (next_method : AsyncGenerator (option S) T R)
  : AsyncGenerators.Methods (option S) T R :=
  AsyncGenerators.mkMethods next_method
    (fun cause _ w => (Settled (Throw cause) None, w))
    (fun arg _ w =>
       (Settled match arg with
                | Normal value => Normal (IDone value)
                | Throw cause => Throw cause
                end None, w)).

(* ===================================================================== *)
(** ** Result: discriminants and [err] *)
(* ===================================================================== *)

Lemma isOk_isErr {T} (r : Result T) : Result.isErr r = negb (Result.isOk r).
Proof. reflexivity. Qed.

Lemma isPresent_spec {T} `{Nullable T} (r : Result T) :
  Result.isPresent r = true <->
  exists v, r = Ok v /\ is_undefined v = false /\ is_null v = false.
Proof.
  destruct r as [v|c]; unfold Result.isPresent; cbn.
  - split.
    + intros Hp. exists v.
      destruct (is_undefined v), (is_null v); try discriminate. auto.
    + intros (v' & Hv & Hu & Hn). injection Hv as <-. now rewrite Hu, Hn.
  - split; [discriminate|]. intros (v & Hv & _). discriminate.
Qed.

(** C10.  [isPresent(ok(v))] holds exactly when [isOk] holds and [v] is
    neither [null] nor [undefined]; [isPresent(Ok(null))] is false,
    [isPresent(Ok(5))] is true, [isErr(Ok(undefined))] is false; and on every
    [Result] exactly one of [isOk] and [isErr] holds, both being decided by
    the presence of the key [value] alone. *)
Theorem isPresent_isOk_isErr :
  (forall v : JSValue,
      Result.isPresent (Result.ok v) = true <->
      (Result.isOk (Result.ok v) = true /\ v <> VNull /\ v <> VUndefined))
  /\ Result.isPresent (Result.ok VNull) = false
  /\ Result.isPresent (Result.ok (VNumber (safe 5))) = true
  /\ Result.isErr (Result.ok VUndefined) = false
  /\ (forall (T : Type) (r : Result T),
        xorb (Result.isOk r) (Result.isErr r) = true
        /\ Result.isOk r = Result.has_key "value" r
        /\ Result.isErr r = negb (Result.has_key "value" r)).
Proof.
  split; [|repeat split].
  - intros v. split.
    + intros Hp. apply isPresent_spec in Hp as (v' & Hv & Hu & Hn).
      injection Hv as <-. split; [reflexivity|].
      split; intros ->; discriminate.
    + intros (_ & Hn & Hu). destruct v; try reflexivity; congruence.
  - unfold Result.isOk, Result.isErr. now destruct (Result.has_key "value" r).
Qed.

(** Spreading an [Error] into an object literal copies nothing: the
    constructor's [message] is not enumerable. *)
Lemma spread_new_Error (target : list (Property JSValue)) (message : option string) :
  copy_data_properties target (new_Error message) = target.
Proof. now destruct message. Qed.

(** [Result.err] ends in the same way at every type: it returns an [Err],
    or the conversion of the message throws. *)
Lemma err_outcome (v : JSValue) :
  (exists c, forall T, @Result.err T v = Normal (Err c))
  \/ (exists e, forall T, @Result.err T v = Throw e).
Proof.
  unfold Result.err.
  destruct (is_null v || is_undefined v); [left; eexists; reflexivity|].
  destruct (String.eqb (typeof v) "string"); [left; eexists; reflexivity|].
  destruct (negb (String.eqb (typeof v) "object")).
  { destruct (ToString v) as [message|e]; [left|right]; eexists; reflexivity. }
  destruct (instanceof_Error v); [left; eexists; reflexivity|].
  destruct (has_property "message" v); [|left; eexists; reflexivity].
  destruct (String.eqb (typeof (get v "message")) "string");
    [left; eexists; reflexivity|].
  destruct (ToString (get v "message")) as [message|e]; [left|right]; eexists; reflexivity.
Qed.

Lemma err_returns_Err {T} (v : JSValue) (r : Result T) :
  Result.err v = Normal r -> exists c, r = Err c.
Proof.
  destruct (err_outcome v) as [[c Hc]|[e He]].
  - rewrite Hc. intros [= <-]. eauto.
  - now rewrite He.
Qed.

Lemma err_retyped {T U} (v : JSValue) :
  Result.err (T:=U) v
  = match Result.err (T:=T) v with
    | Normal (Err c) => Normal (Err c)
    | Normal (Ok _) => Normal (Err VUndefined)
    | Throw e => Throw e
    end.
Proof.
  destruct (err_outcome v) as [[c Hc]|[e He]].
  - now rewrite !Hc.
  - now rewrite !He.
Qed.

Lemma err_Error_instance {T} (cause : JSValue) :
  instanceof_Error cause = true -> @Result.err T cause = Normal (Err cause).
Proof. destruct cause as [| | | | | |[|ctor] props]; try discriminate. reflexivity. Qed.

(** What [Result.err] returns for a plain object, when it returns: the
    spread of the object alone. *)
Lemma err_plain_object {T} (props : list (Property JSValue)) :
  @Result.err T (VObject PlainObject props)
  = (_ ← ToString (get (VObject PlainObject props) "message");
     Normal (Err (object_spread [VObject PlainObject props]))).
Proof.
  unfold Result.err, object_spread. cbn [is_null is_undefined JSValue_Nullable orb typeof
    String.eqb negb instanceof_Error fold_left].
  change (String.eqb "object" "string") with false.
  change (String.eqb "object" "object") with true. cbn [negb].
  rewrite !spread_new_Error.
  unfold has_property, get.
  destruct (own_property "message" props) as [p|]; [|reflexivity].
  destruct (prop_value p) as [| | | | |m|]; try reflexivity;
    cbn; now destruct (ToString _).
Qed.

(** C3.  [Result.err] returns nothing but an [Err]; [err("boom")] has the
    message ["boom"], and [null] and [undefined] become a bare [Error] whose
    message is empty; but [err({message: 404})] returns a copy of the object
    in which [message] is still the number 404: the synthesized [Error]
    contributes nothing to the spread, and indeed nothing to the spread of
    any plain object, whose [message] is converted and then left as it was.
    Nor is [Result.err] total: on an object whose [message] has no string the
    conversion throws, and so does [Result.err]. *)
Theorem err_message_not_coerced :
  (forall (T : Type) (v : JSValue) (r : Result T),
      Result.err v = Normal r -> exists c, r = Err c)
  /\ @Result.err unit (VString "boom") = Normal (Err (new_Error (Some "boom")))
  /\ get (new_Error (Some "boom")) "message" = VString "boom"
  /\ @Result.err unit VNull = Normal (Err (new_Error None))
  /\ @Result.err unit VUndefined = Normal (Err (new_Error None))
  /\ get (new_Error None) "message" = VString ""
  /\ @Result.err unit message_404 = Normal (Err message_404)
  /\ get message_404 "message" = VNumber (safe 404)
  /\ get message_404 "message" <> VString "404"
  /\ (forall props : list (Property JSValue),
        @Result.err unit (VObject PlainObject props)
        = (_ ← ToString (get (VObject PlainObject props) "message");
           Normal (Err (object_spread [VObject PlainObject props]))))
  /\ @Result.err unit message_unconvertible = Throw TypeError_to_primitive.
Proof.
  split; [intros T v r; apply err_returns_Err|].
  repeat split; try reflexivity.
  - discriminate.
  - intros props. apply err_plain_object.
Qed.

(* ===================================================================== *)
(** ** The wrapper [AsyncResultGenerator.from] *)
(* ===================================================================== *)

Lemma next_from {S T R} (g : AsyncGenerator S T R) fuel s w :
  next fuel (AsyncResultGenerator.from g) s w
  = match next fuel g s w with
    | Some (c, s', w') => Some (AsyncResultGenerator.next_caught c, s', w')
    | None => None
    end.
Proof.
  revert s w. induction fuel as [|fuel IH]; intros s w; [reflexivity|].
  cbn [next]. unfold AsyncResultGenerator.from at 1.
  destruct (g s w) as [[s'|c s'] w']; [apply IH|reflexivity].
Qed.

(** More turns of the event loop do not change what a pull settles to. *)
Lemma next_more {S T R} (g : AsyncGenerator S T R) fuel extra s w x :
  next fuel g s w = Some x -> next (fuel + extra) g s w = Some x.
Proof.
  revert s w. induction fuel as [|fuel IH]; intros s w; [discriminate|].
  cbn [next Nat.add]. destruct (g s w) as [[s'|c s'] w']; [apply IH|auto].
Qed.

Lemma drain_more {S T R} (g : AsyncGenerator S T R) fuel extra s w x :
  drain fuel g s w = Some x -> drain (fuel + extra) g s w = Some x.
Proof.
  revert s w x. induction fuel as [|fuel IH]; intros s w x; [discriminate|].
  cbn [drain Nat.add]. destruct (g s w) as [[s'|[[v|r]|cause] s'] w']; auto.
  destruct (drain fuel g s' w') as [[[[vs c] s''] w'']|] eqn:E; [|discriminate].
  now rewrite (IH _ _ _ E).
Qed.

(** Where a drained sequence ends is where the generator is after as many
    turns as the draining took. *)
Lemma drain_turns {S T R} (g : AsyncGenerator S T R) fuel : forall s w vs c s' w',
  drain fuel g s w = Some (vs, c, s', w') ->
  exists n, n <= fuel /\ turns n g s w = (s', w').
Proof.
  induction fuel as [|fuel IH]; intros s w vs c s' w'; [discriminate|].
  cbn [drain].
  destruct (g s w) as [[s1|[[v|r]|cause] s1] w1] eqn:Eg.
  - intros Hd. destruct (IH _ _ _ _ _ _ Hd) as (n & Hn & Ht).
    exists (Datatypes.S n). split; [lia|]. cbn [turns]. now rewrite Eg.
  - destruct (drain fuel g s1 w1) as [[[[vs1 c1] s2] w2]|] eqn:Ed; [|discriminate].
    intros [= <- <- <- <-]. destruct (IH _ _ _ _ _ _ Ed) as (n & Hn & Ht).
    exists (Datatypes.S n). split; [lia|]. cbn [turns]. now rewrite Eg.
  - intros [= <- <- <- <-]. exists 1. split; [lia|]. cbn [turns]. now rewrite Eg.
  - intros [= <- <- <- <-]. exists 1. split; [lia|]. cbn [turns]. now rewrite Eg.
Qed.

Lemma next_completed {S T R} `{Void R} (body : GeneratorBody S T R) fuel w :
  next (Datatypes.S fuel) (AsyncResultGenerator.from (generator body)) None w
  = Some (idle, None, w).
Proof. reflexivity. Qed.

Lemma next_live {S T R} `{Void R} (body : GeneratorBody S T R) fuel st w c st' w' :
  next fuel (AsyncResultGenerator.from (generator body)) st w = Some (c, st', w') ->
  (exists v, c = Normal (IYield v))
  \/ (((exists r, c = Normal (IDone r)) \/ (exists e, c = Throw e)) /\ st' = None).
Proof.
  revert st w. induction fuel as [|fuel IH]; intros st w; [discriminate|].
  cbn [next]. unfold AsyncResultGenerator.from at 1, generator at 1.
  destruct st as [s|].
  - destruct (body s w) as [[v s1|r|cause|s1] w1]; cbn.
    + intros [= <- <- <-]. left. eauto.
    + intros [= <- <- <-]. right. eauto.
    + intros [= <- <- <-]. right. split; [|reflexivity].
      destruct (Result.err cause) as [r|e]; cbn; eauto.
    + apply IH.
  - intros [= <- <- <-]. right. eauto.
Qed.

Lemma pulls_completed {S T R} `{Void R} (body : GeneratorBody S T R) fuel count w cs st' w' :
  pulls fuel count (AsyncResultGenerator.from (generator body)) None w = Some (cs, st', w') ->
  cs = repeat idle count /\ st' = None /\ w' = w.
Proof.
  revert cs. induction count as [|count IH]; intros cs; cbn [pulls].
  - intros [= <- <- <-]. auto.
  - destruct fuel as [|fuel]; [discriminate|]. rewrite next_completed.
    destruct (pulls _ count _ None w) as [[[cs1 s1] w1]|] eqn:E; [|discriminate].
    intros [= <- <- <-]. destruct (IH _ eq_refl) as (-> & -> & ->). auto.
Qed.

Lemma pulls_items_then_done {S T R} `{Void R} (body : GeneratorBody S T R)
    fuel count st w cs st' w' :
  pulls fuel count (AsyncResultGenerator.from (generator body)) st w = Some (cs, st', w') ->
  items_then_done cs.
Proof.
  revert st w cs. induction count as [|count IH]; intros st w cs; cbn [pulls].
  - intros [= <- <- <-]. exists [], []. auto.
  - destruct (next fuel _ st w) as [[[c s1] w1]|] eqn:En; [|discriminate].
    destruct (pulls fuel count _ s1 w1) as [[[cs1 s2] w2]|] eqn:Ep; [|discriminate].
    intros [= <- <- <-].
    destruct (next_live _ _ _ _ _ _ _ En) as [[v ->]|(Hend & ->)].
    + destruct (IH _ _ _ Ep) as (items & tail & -> & Htail).
      exists (v :: items), tail. auto.
    + apply pulls_completed in Ep as (-> & _ & _).
      exists [], (c :: repeat idle count). split; [reflexivity|].
      right. eauto.
Qed.

(** C2, as the code has it.  The pull of the wrapper settles in the turn in
    which that of the wrapped generator does.  A result is passed on, a
    [done] value wrapped in [Result.ok]; an exception is caught and becomes
    what [Result.err(cause)] gives, inside [{done: true, value}].  So the
    pull rejects in one case only: when [Result.err], called in the [catch]
    clause, throws itself; it does on a generator that throws an object
    whose [message] has no string.  Over a generator object, successive
    pulls return items, then at most one termination of the body, and after
    it no item: only the [done] of a completed generator, which runs no
    code. *)
Theorem from_rejects_only_when_err_throws :
  (forall (S T R : Type) (g : AsyncGenerator S T R) (s : S) (w : World),
      (forall e s' w',
          AsyncResultGenerator.from g s w = (Settled (Throw e) s', w') ->
          exists cause,
            g s w = (Settled (Throw cause) s', w') /\ Result.err (T:=R) cause = Throw e)
      /\ (forall fuel c s' w',
            next fuel g s w = Some (c, s', w') ->
            exists c',
              next fuel (AsyncResultGenerator.from g) s w = Some (c', s', w')
              /\ (forall cause, c = Throw cause -> c' = IDone <$> Result.err cause)
              /\ (forall cause, c = Throw cause -> instanceof_Error cause = true ->
                                c' = Normal (IDone (Err cause)))
              /\ (forall v, c = Normal (IYield v) -> c' = Normal (IYield v))
              /\ (forall v, c = Normal (IDone v) -> c' = Normal (IDone (Result.ok v)))))
  /\ (forall (S T R : Type) (V : Void R) (body : GeneratorBody S T R)
        (fuel count : nat) (st : option S) (w : World) cs st' w',
        pulls fuel count (AsyncResultGenerator.from (generator body)) st w
          = Some (cs, st', w') ->
        items_then_done cs)
  /\ (forall (S T R : Type) (V : Void R) (body : GeneratorBody S T R)
        (fuel : nat) (w : World),
        next (Datatypes.S fuel) (AsyncResultGenerator.from (generator body)) None w
          = Some (idle, None, w))
  /\ (forall w : World,
        next 1
          (AsyncResultGenerator.from
             (generator (T:=unit) (R:=unit) (fun (_ : unit) w => (Raise message_unconvertible, w))))
          (Some tt) w
        = Some (Throw TypeError_to_primitive, None, w)).
Proof.
  split; [|split; [|split]].
  - intros S T R g s w. split.
    + intros e s' w'. unfold AsyncResultGenerator.from.
      destruct (g s w) as [[s1|c s1] w1]; [discriminate|].
      destruct c as [[v|v]|cause]; cbn; try discriminate.
      destruct (Result.err cause) as [r|e'] eqn:He; cbn; [discriminate|].
      intros [= <- <- <-]. eauto.
    + intros fuel c s' w' Hn. rewrite next_from, Hn.
      destruct c as [[v|v]|cause]; cbn; eexists; (split; [reflexivity|]);
        repeat split; intros; try congruence.
      match goal with
      | Heq : Throw _ = Throw _, Hi : instanceof_Error _ = true |- _ =>
          injection Heq as <-; now rewrite (err_Error_instance _ Hi)
      end.
  - intros S T R V body fuel count st w cs st' w'. apply pulls_items_then_done.
  - intros. reflexivity.
  - intros w. reflexivity.
Qed.

(* ===================================================================== *)
(** ** Pagination: [searchKeysById] and [searchKeysByKeyword] *)
(* ===================================================================== *)

Section Pagination.
Context `{Externals}.

Lemma set_ExclusiveStartKey_twice request k k' :
  Backend.set_ExclusiveStartKey (Backend.set_ExclusiveStartKey request k) k'
  = Backend.set_ExclusiveStartKey request k'.
Proof. now destruct request. Qed.

Lemma requests_for_cons request p pages :
  requests_for request (p :: pages)
  = request :: requests_for (Backend.set_ExclusiveStartKey request (snd p)) pages.
Proof.
  unfold requests_for. cbn. do 2 f_equal.
  apply list_fmap_ext. intros _ q _. now rewrite set_ExclusiveStartKey_twice.
Qed.

Lemma last_cons_default {A} (l : list A) (x d d' : A) :
  List.last (d :: x :: l) d = List.last (x :: l) d'.
Proof.
  change (List.last (d :: x :: l) d) with (List.last (x :: l) d).
  revert x. induction l as [|y l IH]; intros x; [reflexivity|].
  change (List.last (y :: l) d = List.last (y :: l) d'). apply IH.
Qed.

Lemma drain_yielding request response items keyMetas fuel w :
  decoded items keyMetas ->
  drain (length items + fuel) Backend.page_generator
    (Some (Backend.Yielding request response items)) w
  = prepend keyMetas
      (drain fuel Backend.page_generator (Some (Backend.Yielding request response [])) w).
Proof.
  induction 1 as [|i keyMeta items keyMetas Hi _ IH]; cbn [length Nat.add].
  - now destruct (drain fuel _ _ w) as [[[[? ?] ?] ?]|].
  - cbn [drain]. unfold Backend.page_generator at 1, AsyncResultGenerator.from at 1,
      generator at 1. cbn [Backend.page_loop]. rewrite Hi. cbn.
    fold Backend.page_generator. rewrite IH.
    now destruct (drain fuel _ _ w) as [[[[? ?] ?] ?]|].
Qed.

Lemma drain_continued_page request items key keyMetas fuel lk answers sent :
  decoded (records items) keyMetas ->
  drain (2 + length keyMetas + fuel) Backend.page_generator
    (Some (Backend.Sending request))
    (mkWorld lk (continued (items, key) :: answers) sent)
  = prepend keyMetas
      (drain fuel Backend.page_generator
         (Some (Backend.Sending (Backend.set_ExclusiveStartKey request key)))
         (mkWorld lk answers (sent ++ [request]))).
Proof.
  intros Hd. pose proof (Forall2_length _ _ _ Hd) as Hlen.
  replace (2 + length keyMetas + fuel) with (S (length (records items) + S fuel)) by lia.
  cbn [drain]. unfold Backend.page_generator at 1, AsyncResultGenerator.from at 1,
    generator at 1. cbn. fold Backend.page_generator.
  fold (records items). rewrite (drain_yielding _ _ _ _ _ _ Hd).
  reflexivity.
Qed.

Lemma drain_last_page request items keyMetas fuel lk answers sent :
  decoded (records items) keyMetas ->
  drain (2 + length keyMetas + fuel) Backend.page_generator
    (Some (Backend.Sending request))
    (mkWorld lk (page_of items None :: answers) sent)
  = Some (keyMetas, Normal (Result.ok tt), None, mkWorld lk answers (sent ++ [request])).
Proof.
  intros Hd. pose proof (Forall2_length _ _ _ Hd) as Hlen.
  replace (2 + length keyMetas + fuel) with (S (length (records items) + S fuel)) by lia.
  cbn [drain]. unfold Backend.page_generator at 1, AsyncResultGenerator.from at 1,
    generator at 1. cbn. fold Backend.page_generator.
  fold (records items). rewrite (drain_yielding _ _ _ _ _ _ Hd).
  cbn. now rewrite app_nil_r.
Qed.

Lemma drain_failed_call request cause fuel lk answers sent :
  drain (S fuel) Backend.page_generator (Some (Backend.Sending request))
    (mkWorld lk (Throw cause :: answers) sent)
  = Some ([], Result.err cause, None, mkWorld lk answers (sent ++ [request])).
Proof.
  cbn [drain]. unfold Backend.page_generator, AsyncResultGenerator.from, generator.
  cbn. now destruct (Result.err cause).
Qed.

(** The requests of a paginated search differ in their continuation token
    only: the first carries the one [request] has, each later one the token
    of the page before it. *)
Lemma requests_for_tokens request pages :
  (forall i, request <> GetItemCommand i) ->
  start_key <$> requests_for request pages
  = start_key request :: ((fun p => Some (snd p)) <$> pages)
  /\ Forall (fun command => without_start_key command = without_start_key request)
       (requests_for request pages).
Proof.
  intros Hpaged. unfold requests_for. split.
  - cbn [fmap list_fmap]. f_equal. rewrite <- list_fmap_compose.
    apply list_fmap_ext. intros ? q ?. cbn.
    destruct request as [input|input|input]; [reflexivity..|now destruct (Hpaged input)].
  - constructor; [reflexivity|]. apply Forall_fmap, Forall_forall.
    intros q _. cbn. now destruct request.
Qed.

Lemma drain_pages pages : forall request keyMetas fuel lk answers sent,
  decoded (all_records pages) keyMetas ->
  drain (2 * length pages + length keyMetas + fuel) Backend.page_generator
    (Some (Backend.Sending request))
    (mkWorld lk ((continued <$> pages) ++ answers) sent)
  = prepend keyMetas
      (drain fuel Backend.page_generator
         (Some (Backend.Sending (List.last (requests_for request pages) request)))
         (mkWorld lk answers (sent ++ removelast (requests_for request pages)))).
Proof.
  induction pages as [|[items key] pages IH]; intros request keyMetas fuel lk answers sent Hd.
  - apply Forall2_nil_inv_l in Hd as ->. cbn. rewrite app_nil_r.
    now destruct (drain fuel _ _ _) as [[[[? ?] ?] ?]|].
  - unfold all_records in Hd. cbn in Hd.
    apply Forall2_app_inv_l in Hd as (kms1 & kms2 & Hd1 & Hd2 & ->).
    rewrite length_app.
    replace (2 * length ((items, key) :: pages) + (length kms1 + length kms2) + fuel)
      with (2 + length kms1 + (2 * length pages + length kms2 + fuel)) by (cbn; lia).
    cbn [fmap list_fmap app]. rewrite (drain_continued_page _ _ _ _ _ _ _ _ Hd1).
    rewrite (IH _ _ _ _ _ _ Hd2). rewrite requests_for_cons. cbn [snd].
    set (request' := Backend.set_ExclusiveStartKey request key).
    assert (Hne : requests_for request' pages <> []) by discriminate.
    replace (List.last (request :: requests_for request' pages) request)
      with (List.last (requests_for request' pages) request')
      by (unfold requests_for; symmetry; apply last_cons_default).
    replace (removelast (request :: requests_for request' pages))
      with (request :: removelast (requests_for request' pages))
      by (unfold requests_for; reflexivity).
    rewrite <- app_assoc. cbn [app].
    destruct (drain fuel _ _ _) as [[[[? ?] ?] ?]|]; cbn; [|reflexivity].
    now rewrite app_assoc.
Qed.

End Pagination.

Section PaginationClaims.
Context `{Externals}.

(** C1.  A search through the id path or the keyword path, run against a
    store that answers with the pages [pages], each carrying a continuation
    token, and then with a last page that carries none, yields the records of
    all the pages, decoded, in arrival order, and terminates [Ok].  The
    requests sent are the search's own, which carries no token, and then,
    before each further page, a request whose [ExclusiveStartKey] is the
    token of the page before and which is the search's own in every other
    field.  If instead of the next page the store call fails, the records of
    the pages before it have been yielded, nothing else is, no further
    request is sent, and the sequence terminates as [Result.err(cause)]
    ends: with [Err] of the cause when the cause is an [Error].  The records
    are those that [extractKeyMetadata] decodes. *)
Theorem paginated_search_yields_pages_in_order
    (lookup : SearchingLookup) (start : option Backend.PageState) (request : DynamoCommand)
    (pages : list (option (list (gmap string AttributeValue)) * gmap string AttributeValue))
    (lk : SearchingLookup) (rest : list (Completion DynamoOutput))
    (sent : list DynamoCommand) :
  (start = Backend.searchKeysById lookup /\ request = Backend.searchKeysById_request lookup)
  \/ (start = Backend.searchKeysByKeyword lookup
      /\ request = Backend.searchKeysByKeyword_request lookup) ->
  (forall last keyMetas fuel,
      decoded (all_records pages ++ records last) keyMetas ->
      2 * (length pages + 1) + length keyMetas <= fuel ->
      drain fuel Backend.page_generator start
        (mkWorld lk ((continued <$> pages) ++ page_of last None :: rest) sent)
      = Some (keyMetas, Normal (Result.ok tt), None,
              mkWorld lk rest (sent ++ requests_for request pages)))
  /\ (forall cause keyMetas fuel,
        decoded (all_records pages) keyMetas ->
        2 * length pages + length keyMetas + 1 <= fuel ->
        drain fuel Backend.page_generator start
          (mkWorld lk ((continued <$> pages) ++ Throw cause :: rest) sent)
        = Some (keyMetas, Result.err cause, None,
                mkWorld lk rest (sent ++ requests_for request pages))
        /\ (instanceof_Error cause = true ->
            drain fuel Backend.page_generator start
              (mkWorld lk ((continued <$> pages) ++ Throw cause :: rest) sent)
            = Some (keyMetas, Normal (Err cause), None,
                    mkWorld lk rest (sent ++ requests_for request pages))))
  /\ start_key <$> requests_for request pages
     = None :: ((fun p => Some (snd p)) <$> pages)
  /\ Forall (fun command => without_start_key command = request)
       (requests_for request pages).
Proof.
  intros Hpath.
  assert (Hstart : start = Some (Backend.Sending request))
    by (destruct Hpath as [[-> ->]|[-> ->]]; reflexivity).
  assert (Hnone : start_key request = None /\ without_start_key request = request
                  /\ forall i, request <> GetItemCommand i)
    by (destruct Hpath as [[_ ->]|[_ ->]]; repeat split; discriminate).
  subst start. clear Hpath.
  assert (Hreq : removelast (requests_for request pages)
                 ++ [List.last (requests_for request pages) request]
                 = requests_for request pages)
    by (symmetry; apply app_removelast_last; discriminate).
  split; [|split].
  - intros last keyMetas fuel Hd Hfuel.
    apply Forall2_app_inv_l in Hd as (kms1 & kms2 & Hd1 & Hd2 & ->).
    rewrite length_app in Hfuel.
    replace fuel
      with (2 * length pages + length kms1
            + (2 + length kms2 + (fuel - (2 * (length pages + 1) + (length kms1 + length kms2)))))
      by lia.
    rewrite (drain_pages _ _ _ _ _ _ _ Hd1).
    rewrite (drain_last_page _ _ _ _ _ _ _ Hd2). cbn [prepend].
    now rewrite <- app_assoc, Hreq.
  - intros cause keyMetas fuel Hd Hfuel.
    assert (Hfailed :
      drain fuel Backend.page_generator (Some (Backend.Sending request))
        (mkWorld lk ((continued <$> pages) ++ Throw cause :: rest) sent)
      = Some (keyMetas, Result.err cause, None,
              mkWorld lk rest (sent ++ requests_for request pages))).
    { replace fuel
        with (2 * length pages + length keyMetas
              + S (fuel - (2 * length pages + length keyMetas + 1)))
        by lia.
      rewrite (drain_pages _ _ _ _ _ _ _ Hd).
      rewrite drain_failed_call. cbn [prepend].
      now rewrite app_nil_r, <- app_assoc, Hreq. }
    split; [exact Hfailed|]. intros Herror.
    now rewrite Hfailed, (err_Error_instance _ Herror).
  - destruct Hnone as (Hkey & Hrequest & Hpaged).
    destruct (requests_for_tokens request pages Hpaged) as [Htokens Hsame].
    rewrite Hkey, Hrequest in *. split; [exact Htokens|exact Hsame].
Qed.

End PaginationClaims.

(* ===================================================================== *)
(** ** Decoding a record: [extractKeyMetadata] *)
(* ===================================================================== *)

Section Decoding.
Context `{Externals}.

Lemma is_string_field_true result k :
  is_string_field result k = true -> exists s, result !! k = Some (NString s).
Proof.
  unfold is_string_field. destruct (result !! k) as [[]|]; try discriminate. eauto.
Qed.

Lemma extractKeyMetadata_well_formed item keyId upper uid :
  Backend.unfoldAttributes item !! "pgpKeyId" = Some (NString keyId) ->
  Backend.unfoldAttributes item !! "pgpFingerprintUpper" = Some (NString upper) ->
  Backend.unfoldAttributes item !! "primaryUserId" = Some (NString uid) ->
  Backend.extractKeyMetadata item
  = Normal (derived (Backend.unfoldAttributes item) keyId upper).
Proof.
  intros Hk Hu Hp. unfold Backend.extractKeyMetadata, derived, field.
  rewrite Hk, Hu, Hp. cbn.
  rewrite lookup_insert_ne by discriminate. rewrite lookup_insert_ne by discriminate.
  now rewrite Hk, Hu.
Qed.

Lemma extractKeyMetadata_malformed item :
  forallb (is_string_field (Backend.unfoldAttributes item)) required_fields = false ->
  exists expression, Backend.extractKeyMetadata item = Throw (AssertionError expression).
Proof.
  unfold Backend.extractKeyMetadata, required_fields, is_string_field. cbn [forallb].
  destruct (String.eqb (typeof_field (_ !! "pgpKeyId")) "string"); cbn; [|eauto].
  destruct (String.eqb (typeof_field (_ !! "pgpFingerprintUpper")) "string"); cbn; [|eauto].
  destruct (String.eqb (typeof_field (_ !! "primaryUserId")) "string"); cbn; [|eauto].
  discriminate.
Qed.

(** An [AssertionError] is an [Error]: [Result.err] hands it on as it is. *)
Lemma err_AssertionError {T} expression :
  @Result.err T (AssertionError expression) = Normal (Err (AssertionError expression)).
Proof. reflexivity. Qed.

(** C8, as the code has it.  Deriving a [KeyMetadata] needs [pgpKeyId],
    [pgpFingerprintUpper] and [primaryUserId] to be strings of the decoded
    mapping.  When they are, the record has [id := pgpKeyId] and
    [fingerprint := pgpFingerprintUpper ++ pgpKeyId], keeps [primaryUserId]
    and every other field, and no longer has the two source fields.  When
    one is absent or not a string, [extractKeyMetadata] raises an
    [AssertionError] at once, and each of its callers catches it: on the id
    and keyword paths the pull that meets the record terminates the sequence
    with [Err] of that error, and on the fingerprint path
    [findKeyByFingerprint] returns [Err] of it. *)
Theorem extractKeyMetadata_contract (item : gmap string AttributeValue) :
  (forallb (is_string_field (Backend.unfoldAttributes item)) required_fields = true ->
   exists keyId upper uid keyMeta,
     Backend.unfoldAttributes item !! "pgpKeyId" = Some (NString keyId)
     /\ Backend.unfoldAttributes item !! "pgpFingerprintUpper" = Some (NString upper)
     /\ Backend.unfoldAttributes item !! "primaryUserId" = Some (NString uid)
     /\ Backend.extractKeyMetadata item = Normal keyMeta
     /\ keyMeta = derived (Backend.unfoldAttributes item) keyId upper
     /\ keyMeta !! "id" = Some (NString keyId)
     /\ keyMeta !! "fingerprint" = Some (NString (upper ++ keyId)%string)
     /\ keyMeta !! "primaryUserId" = Some (NString uid)
     /\ keyMeta !! "pgpKeyId" = None
     /\ keyMeta !! "pgpFingerprintUpper" = None
     /\ (forall k, k ∉ ["id"; "fingerprint"; "pgpKeyId"; "pgpFingerprintUpper"] ->
                   keyMeta !! k = Backend.unfoldAttributes item !! k))
  /\ (forallb (is_string_field (Backend.unfoldAttributes item)) required_fields = false ->
      exists expression,
        Backend.extractKeyMetadata item = Throw (AssertionError expression)
        /\ (forall request response rest w fuel,
              next (S fuel) Backend.page_generator
                (Some (Backend.Yielding request response (item :: rest))) w
              = Some (Normal (IDone (Err (AssertionError expression))), None, w))
        /\ (forall lookup lk answers sent,
              Backend.findKeyByFingerprint lookup
                (mkWorld lk (Normal (mkOutput None None (Some item)) :: answers) sent)
              = (Normal (Err (AssertionError expression)),
                 mkWorld lk answers (sent ++ [Backend.findKeyByFingerprint_request lookup])))).
Proof.
  split.
  - unfold required_fields. cbn [forallb]. intros Hw.
    apply andb_true_iff in Hw as [Hk Hw]. apply andb_true_iff in Hw as [Hu Hw].
    apply andb_true_iff in Hw as [Hp _].
    apply is_string_field_true in Hk as [keyId Hk].
    apply is_string_field_true in Hu as [upper Hu].
    apply is_string_field_true in Hp as [uid Hp].
    exists keyId, upper, uid, (derived (Backend.unfoldAttributes item) keyId upper).
    split; [exact Hk|]. split; [exact Hu|]. split; [exact Hp|].
    split; [now apply extractKeyMetadata_well_formed with uid|].
    split; [reflexivity|]. unfold derived.
    repeat split; try (simplify_map_eq; reflexivity).
    intros k Hk'. repeat (apply not_elem_of_cons in Hk' as [? Hk']).
    now simplify_map_eq.
  - intros Hm. destruct (extractKeyMetadata_malformed item Hm) as [expression He].
    exists expression. split; [exact He|]. split.
    + intros request response rest w fuel. cbn [next].
      unfold Backend.page_generator, AsyncResultGenerator.from, generator.
      cbn [Backend.page_loop]. now rewrite He.
    + intros lookup lk answers sent. unfold Backend.findKeyByFingerprint, AsyncResult.run.
      cbn. now rewrite He.
Qed.

End Decoding.

(* ===================================================================== *)
(** ** The search resolver: [searchKeysByBestGuess] *)
(* ===================================================================== *)

Lemma turns_S {S T R} (n : nat) (g : AsyncGenerator S T R) (s : S) (w : World) :
  turns (Datatypes.S n) g s w = turns n g (progress_state (fst (g s w))) (snd (g s w)).
Proof. cbn [turns]. now destruct (g s w) as [[s'|c s'] w']. Qed.

Section Resolver.
Context `{Externals}.

Lemma same_query_set request r key :
  same_query request r -> same_query request (Backend.set_ExclusiveStartKey r key).
Proof.
  intros [->|[k ->]]; right; exists key; [reflexivity|].
  apply set_ExclusiveStartKey_twice.
Qed.

(** One turn of a paginated search sends at most one command, the query it
    holds, and leaves the lookup alone. *)
Lemma page_generator_turn request st w :
  holds_query request st ->
  exists new,
    dynamo_sent (snd (Backend.page_generator st w)) = dynamo_sent w ++ new
    /\ Forall (same_query request) new
    /\ lookup_object (snd (Backend.page_generator st w)) = lookup_object w
    /\ holds_query request (progress_state (fst (Backend.page_generator st w))).
Proof.
  intros Hq. unfold Backend.page_generator, AsyncResultGenerator.from, generator.
  destruct st as [[r|r response [|i rest]]|]; cbn [Backend.page_loop].
  - unfold DYNAMO_send. destruct (dynamo_answers w) as [|[response|cause] answers]; cbn;
      exists [r]; repeat split; auto.
  - destruct (LastEvaluatedKey response) as [key|]; cbn; exists [];
      rewrite app_nil_r; repeat split; auto.
    now apply same_query_set.
  - destruct (Backend.extractKeyMetadata i) as [keyMeta|cause]; cbn; exists [];
      rewrite app_nil_r; repeat split; auto.
  - cbn. exists []. rewrite app_nil_r. repeat split; auto.
Qed.

Lemma bestGuess_delegating_turn request st w :
  delegates_query request st ->
  exists new,
    dynamo_sent (snd (generator Backend.searchKeysByBestGuess st w)) = dynamo_sent w ++ new
    /\ Forall (same_query request) new
    /\ lookup_object (snd (generator Backend.searchKeysByBestGuess st w)) = lookup_object w
    /\ delegates_query request
         (progress_state (fst (generator Backend.searchKeysByBestGuess st w))).
Proof.
  intros Hq. destruct st as [[| |inner]|]; try contradiction.
  - destruct (page_generator_turn request inner w Hq) as (new & Hs & Hn & Hl & Hh).
    exists new. unfold generator. cbn [Backend.searchKeysByBestGuess].
    destruct (Backend.page_generator inner w) as [[inner'|[[v|r]|cause] inner'] w'];
      cbn in *; auto.
  - exists []. cbn. rewrite app_nil_r. auto.
Qed.

Lemma bestGuess_delegating_turns request n : forall st w,
  delegates_query request st ->
  exists new,
    dynamo_sent (snd (turns n (generator Backend.searchKeysByBestGuess) st w))
      = dynamo_sent w ++ new
    /\ Forall (same_query request) new
    /\ lookup_object (snd (turns n (generator Backend.searchKeysByBestGuess) st w))
       = lookup_object w.
Proof.
  induction n as [|n IH]; intros st w Hq.
  - exists []. cbn. rewrite app_nil_r. auto.
  - destruct (bestGuess_delegating_turn request st w Hq) as (new1 & Hs1 & Hn1 & Hl1 & Hq1).
    cbn [turns].
    destruct (generator Backend.searchKeysByBestGuess st w) as [[st1|c st1] w1];
      cbn [fst snd progress_state] in *;
      destruct (IH st1 w1 Hq1) as (new2 & Hs2 & Hn2 & Hl2);
      exists (new1 ++ new2); rewrite Hs2, Hs1, Hl2, Hl1, app_assoc;
      (repeat split; auto); apply Forall_app; auto.
Qed.

(** One paginated search, once its request has been sent. *)
Lemma sending_turns request n lk answers sent :
  exists more,
    dynamo_sent
      (snd (turns (S n) (generator Backend.searchKeysByBestGuess)
              (Some (Backend.Guess_delegating (Some (Backend.Sending request))))
              (mkWorld lk answers sent)))
      = sent ++ request :: more
    /\ Forall (same_query request) more
    /\ lookup_object
         (snd (turns (S n) (generator Backend.searchKeysByBestGuess)
                 (Some (Backend.Guess_delegating (Some (Backend.Sending request))))
                 (mkWorld lk answers sent)))
       = lk.
Proof.
  cbn [turns].
  assert (Hq : delegates_query request
                 (Some (Backend.Guess_delegating (Some (Backend.Sending request)))))
    by (left; reflexivity).
  destruct (bestGuess_delegating_turn request _ (mkWorld lk answers sent) Hq)
    as (new1 & Hs1 & _ & Hl1 & Hq1).
  assert (Hnew : new1 = [request]).
  { revert Hs1. unfold generator. cbn [Backend.searchKeysByBestGuess].
    unfold Backend.page_generator, AsyncResultGenerator.from, generator.
    cbn [Backend.page_loop]. unfold DYNAMO_send. cbn.
    destruct answers as [|[response|cause] answers']; cbn;
      try destruct (Result.err cause) as [r|e]; cbn; intros Hs1;
      now apply app_inv_head in Hs1. }
  subst new1.
  destruct (generator Backend.searchKeysByBestGuess _ (mkWorld lk answers sent))
    as [[st1|c st1] w1]; cbn [fst snd progress_state] in *;
    destruct (bestGuess_delegating_turns request n st1 w1 Hq1) as (more & Hs2 & Hn2 & Hl2);
    exists more; rewrite Hs2, Hs1, Hl2, Hl1, <- app_assoc; auto.
Qed.

End Resolver.

Lemma substring_0_0 (s : string) : substring 0 0 s = EmptyString.
Proof. now destruct s. Qed.

Lemma substring_whole (s : string) : substring 0 (String.length s) s = s.
Proof. induction s as [|c s IH]; cbn; [reflexivity|now rewrite IH]. Qed.

Lemma substring_split (n : nat) : forall s : string,
  n <= String.length s ->
  (substring 0 n s ++ substring n (String.length s - n) s)%string = s.
Proof.
  induction n as [|n IH]; intros s Hn.
  - rewrite substring_0_0, Nat.sub_0_r. apply substring_whole.
  - destruct s as [|c s]; cbn in Hn; [lia|]. simpl.
    change (String c (substring 0 n s ++ substring n (String.length s - n) s)%string
            = String c s).
    f_equal. apply IH. lia.
Qed.

Lemma substring_length (n m : nat) : forall s : string,
  n + m <= String.length s -> String.length (substring n m s) = m.
Proof.
  induction n as [|n IH]; intros s Hn.
  - revert s Hn. induction m as [|m IHm]; intros s Hn; [now rewrite substring_0_0|].
    destruct s as [|c s]; cbn in Hn; [lia|]. simpl. f_equal. apply IHm. lia.
  - destruct s as [|c s]; cbn in Hn; [lia|]. simpl. apply IH. lia.
Qed.

Lemma slice_as_substring (s : string) :
  16 <= String.length s ->
  slice s 0 (Some (-16)%Z) = substring 0 (String.length s - 16) s
  /\ slice s (-16) None = substring (String.length s - 16) 16 s.
Proof.
  intros Hlen. unfold slice. simpl.
  set (len := Z.of_nat (String.length s)).
  assert (Hlen' : (16 <= len)%Z) by (unfold len; lia).
  destruct (Z.ltb_spec len 0); [lia|].
  split; f_equal; lia.
Qed.

(** [s.slice(0, -16)] and [s.slice(-16)] cut [s] in two, the second part
    being its last 16 characters. *)
Lemma slice_last_16 (s : string) :
  16 <= String.length s ->
  (slice s 0 (Some (-16)%Z) ++ slice s (-16) None)%string = s
  /\ String.length (slice s (-16) None) = 16.
Proof.
  intros Hlen. destruct (slice_as_substring s Hlen) as [-> ->]. split.
  - pose proof (substring_split (String.length s - 16) s ltac:(lia)) as Hs.
    now replace (String.length s - (String.length s - 16)) with 16 in Hs by lia.
  - apply substring_length. lia.
Qed.

Section ResolverClaims.
Context `{Externals}.

(** C4, as the code has it.  A lookup dispatched to the keyword path (its
    search text does not match the hex pattern, or matches it with a payload
    whose length is none of 16, 32, 40 and 64) issues one shape of filtered
    scan, again with the continuation token for each further page: the
    filter is the equality on [primaryUserId] when [exact] is set, and
    otherwise the disjunction of [contains] over [primaryUserId], [pgpKeyId]
    and [pgpFingerprintUpper].  The filter term is the lookup's search text
    at the time of the dispatch: the raw text when the pattern does not
    match, the hex payload, marker stripped, when it does; and that text is
    what the lookup object holds afterwards. *)
Theorem keyword_path_one_scan_shape (w : World) (term : string) (n : nat) :
  (HEX_REGEX (search (lookup_object w)) = None /\ term = search (lookup_object w))
  \/ (HEX_REGEX (search (lookup_object w)) = Some term
      /\ String.length term ∉ [16; 32; 40; 64]) ->
  let scan :=
    ScanCommand
      {| ScanCommand.TableName := PGP_TABLE_NAME;
         ScanCommand.FilterExpression :=
           if exact (lookup_object w) then "primaryUserId = :term"
           else "contains(primaryUserId, :term) OR contains(pgpKeyId, :term) OR contains(pgpFingerprintUpper, :term)";
         ScanCommand.ExpressionAttributeValues := {[ ":term" := AV_S term ]};
         ScanCommand.Limit := PGP_TABLE_PAGE_LIMIT;
         ScanCommand.ExclusiveStartKey := None |} in
  let w' :=
    snd (turns (2 + n) (generator Backend.searchKeysByBestGuess)
           (Some Backend.Guess_entry) w) in
  exists more,
    dynamo_sent w' = dynamo_sent w ++ scan :: more
    /\ Forall (same_query scan) more
    /\ search (lookup_object w') = term.
Proof.
  intros Hpath scan w'. subst w'. destruct w as [lk answers sent]. cbn [lookup_object] in *.
  change (2 + n) with (S (S n)). rewrite turns_S.
  assert (Hstep : exists lk',
             generator Backend.searchKeysByBestGuess (Some Backend.Guess_entry)
               (mkWorld lk answers sent)
             = (Pending (Some (Backend.Guess_delegating
                                 (Some (Backend.Sending
                                          (Backend.searchKeysByKeyword_request lk'))))),
                mkWorld lk' answers sent)
             /\ search lk' = term /\ exact lk' = exact lk).
  { unfold generator.
    cbn [Backend.searchKeysByBestGuess lookup_object dynamo_answers dynamo_sent].
    destruct Hpath as [[Hm ->]|[Hm Hlen]]; rewrite Hm.
    - exists lk. auto.
    - cbn [search set_search].
      repeat (apply not_elem_of_cons in Hlen as [? Hlen]).
      replace (String.length term =? 32)%nat with false by (symmetry; now apply Nat.eqb_neq).
      replace (String.length term =? 40)%nat with false by (symmetry; now apply Nat.eqb_neq).
      replace (String.length term =? 64)%nat with false by (symmetry; now apply Nat.eqb_neq).
      replace (String.length term =? 16)%nat with false by (symmetry; now apply Nat.eqb_neq).
      cbn [orb]. exists (set_search lk term). auto. }
  destruct Hstep as (lk' & -> & Hterm & Hexact). cbn [fst snd progress_state dynamo_sent].
  destruct (sending_turns (Backend.searchKeysByKeyword_request lk') n lk' answers sent)
    as (more & Hs & Hq & Hl).
  assert (Hscan : Backend.searchKeysByKeyword_request lk' = scan)
    by (unfold Backend.searchKeysByKeyword_request, scan; now rewrite Hterm, Hexact).
  rewrite Hscan in *. exists more. rewrite Hs, Hl. auto.
Qed.

(** C5, as the code has it.  A lookup whose search text matches the hex
    pattern with a payload of 32, 40 or 64 characters issues exactly one
    point lookup.  Its key is the payload cut before its last 16 characters,
    each part in upper case: [pgpKeyId] is the trailing 16 characters and
    [pgpFingerprintUpper] what precedes them.  The sequence yields at most
    one [KeyMetadata] and terminates: [Ok] with no item on a miss, [Ok] after
    the one record found, [Err] when the lookup fails or the record does not
    decode. *)
Theorem fingerprint_path_one_point_lookup (w : World) (payload : string) (fuel : nat) :
  HEX_REGEX (search (lookup_object w)) = Some payload ->
  String.length payload ∈ [32; 40; 64] ->
  2 <= fuel ->
  let keyId := slice payload (-16) None in
  let upper := slice payload 0 (Some (-16)%Z) in
  let request :=
    GetItemCommand
      {| GetItemCommand.TableName := PGP_TABLE_NAME;
         GetItemCommand.Key :=
           {[ "pgpKeyId" := AV_S (toUpperCase keyId);
              "pgpFingerprintUpper" := AV_S (toUpperCase upper) ]} |} in
  (upper ++ keyId)%string = payload
  /\ String.length keyId = 16
  /\ exists vs r w',
      drain fuel (generator Backend.searchKeysByBestGuess) (Some Backend.Guess_entry) w
        = Some (vs, Some <$> r, None, w')
      /\ dynamo_sent w' = dynamo_sent w ++ [request]
      /\ dynamo_answers w' = tail (dynamo_answers w)
      /\ length vs <= 1
      /\ match dynamo_answers w with
         | [] => vs = [] /\ exists c, r = Normal (Err c)
         | Throw cause :: _ =>
             vs = [] /\ r = Result.err cause
             /\ (instanceof_Error cause = true -> r = Normal (Err cause))
         | Normal response :: _ =>
             match Item response with
             | None => vs = [] /\ r = Normal (Ok tt)
             | Some item =>
                 match Backend.extractKeyMetadata item with
                 | Normal keyMeta => vs = [keyMeta] /\ r = Normal (Ok tt)
                 | Throw cause =>
                     vs = [] /\ exists expression,
                       cause = AssertionError expression /\ r = Normal (Err cause)
                 end
             end
         end.
Proof.
  intros Hm Hlen Hfuel keyId upper request.
  assert (Hlen16 : 16 <= String.length payload).
  { repeat (apply elem_of_cons in Hlen as [->|Hlen]); try lia.
    now apply elem_of_nil in Hlen. }
  destruct (slice_last_16 payload Hlen16) as [Hsplit Hkey].
  split; [exact Hsplit|]. split; [exact Hkey|].
  assert (Hif : (String.length payload =? 32)%nat || (String.length payload =? 40)%nat
                || (String.length payload =? 64)%nat = true).
  { repeat (apply elem_of_cons in Hlen as [->|Hlen]); try reflexivity.
    now apply elem_of_nil in Hlen. }
  destruct fuel as [|[|fuel]]; try lia. clear Hfuel.
  destruct w as [lk answers sent]. cbn [lookup_object dynamo_answers dynamo_sent] in *.
  cbn [drain]. unfold generator at 1.
  cbn [Backend.searchKeysByBestGuess lookup_object dynamo_answers dynamo_sent].
  rewrite Hm. cbn [search set_search]. rewrite Hif.
  unfold Backend.findKeyByFingerprint, AsyncResult.run, DYNAMO_send.
  cbn [lookup_object dynamo_answers dynamo_sent].
  change (Backend.findKeyByFingerprint_request (set_search lk payload)) with request.
  destruct answers as [|[response|cause] answers].
  - cbn. exists [], (Normal (Err (new_Error (Some "no answer")))). eexists.
    repeat split; eauto.
  - destruct (Item response) as [item|].
    + destruct (Backend.extractKeyMetadata item) as [keyMeta|cause] eqn:Hx;
        cbn [fmap Completion_fmap].
      * exists [keyMeta], (Normal (Ok tt)). eexists. repeat split; eauto.
      * assert (Hmal : forallb (is_string_field (Backend.unfoldAttributes item))
                         required_fields = false).
        { destruct (forallb _ required_fields) eqn:Hf; [|reflexivity].
          unfold required_fields in Hf. cbn [forallb] in Hf.
          apply andb_true_iff in Hf as [Hk Hf]. apply andb_true_iff in Hf as [Hu Hf].
          apply andb_true_iff in Hf as [Hp _].
          apply is_string_field_true in Hk as [k0 Hk].
          apply is_string_field_true in Hu as [u0 Hu].
          apply is_string_field_true in Hp as [p0 Hp].
          rewrite (extractKeyMetadata_well_formed _ _ _ _ Hk Hu Hp) in Hx. discriminate. }
        destruct (extractKeyMetadata_malformed item Hmal) as [expression He].
        rewrite Hx in He. injection He as ->. rewrite err_AssertionError.
        exists [], (Normal (Err (AssertionError expression))). eexists.
        repeat split; eauto.
    + cbn. exists [], (Normal (Ok tt)). eexists. repeat split; eauto.
  - destruct (err_outcome cause) as [[c Hc]|[e He]].
    + rewrite Hc. exists [], (Normal (Err c)). eexists.
      repeat split; eauto.
      intros Herror. specialize (Hc unit).
      rewrite (err_Error_instance _ Herror) in Hc. congruence.
    + rewrite He. exists [], (Throw e). eexists.
      repeat split; eauto.
      intros Herror. specialize (He unit).
      rewrite (err_Error_instance _ Herror) in He. congruence.
Qed.

End ResolverClaims.

(* ===================================================================== *)
(** ** The formatters and [generateKeyStreams] *)
(* ===================================================================== *)

Section Formatting.
Context `{Externals}.

Lemma read_stream_spec chunks0 keyStream :
  Lookup.read_stream chunks0 keyStream
  = match failure keyStream with
    | None => Normal (chunks0 ++ stream_buffers keyStream)
    | Some cause => Throw cause
    end.
Proof.
  unfold Lookup.read_stream, stream_buffers.
  destruct (failure keyStream); [reflexivity|]. f_equal.
  revert chunks0. induction (chunks keyStream) as [|c cs IH]; intros chunks0; cbn.
  - now rewrite app_nil_r.
  - rewrite IH. destruct c; now rewrite <- app_assoc.
Qed.

Lemma formatKeys_loop_drained {S} (keyStreams : AsyncGenerator S Readable (option (Result unit)))
    fuel : forall s w chunks0 streams r s' w',
  drain fuel keyStreams s w = Some (streams, Normal (Some r), s', w') ->
  Forall readable streams ->
  Lookup.formatKeys_loop fuel keyStreams s w chunks0
  = Some (Normal (formatted r
                    (Lookup.keys_response
                       (chunks0 ++ List.concat (stream_buffers <$> streams)))), s', w').
Proof.
  induction fuel as [|fuel IH]; intros s w chunks0 streams r s' w'; [discriminate|].
  cbn [drain Lookup.formatKeys_loop].
  destruct (keyStreams s w) as [[s1|[[keyStream|value]|cause] s1] w1].
  - apply IH.
  - destruct (drain fuel keyStreams s1 w1) as [[[[vs c] s2] w2]|] eqn:Ed; [|discriminate].
    intros [= <- -> <- <-] Hr. apply Forall_cons in Hr as [Hr1 Hr].
    rewrite read_stream_spec, Hr1. rewrite (IH _ _ _ _ _ _ _ Ed Hr).
    cbn [fmap list_fmap List.concat]. now rewrite app_assoc.
  - intros [= <- -> <- <-] _. cbn. rewrite app_nil_r. now destruct r.
  - discriminate.
Qed.

Lemma formatKeys_loop_failed {S} (keyStreams : AsyncGenerator S Readable (option (Result unit)))
    fuel : forall s w chunks0 before bad cause s' w',
  take_items fuel (Datatypes.S (length before)) keyStreams s w = Some (before ++ [bad], s', w') ->
  Forall readable before ->
  failure bad = Some cause ->
  Lookup.formatKeys_loop fuel keyStreams s w chunks0
  = Some (Result.err cause, s', w').
Proof.
  induction fuel as [|fuel IH]; intros s w chunks0 before bad cause s' w'; [discriminate|].
  cbn [take_items Lookup.formatKeys_loop].
  destruct (keyStreams s w) as [[s1|[[keyStream|value]|cause'] s1] w1]; try discriminate.
  - apply IH.
  - destruct before as [|b before]; cbn [length app].
    + destruct fuel; cbn [take_items]; intros [= -> <- <-] _ Hbad;
        now rewrite read_stream_spec, Hbad.
    + destruct (take_items fuel (Datatypes.S (length before)) keyStreams s1 w1)
        as [[[vs s2] w2]|] eqn:Et; [|discriminate].
      intros [= -> -> <- <-] Hr Hbad. apply Forall_cons in Hr as [Hr1 Hr].
      rewrite read_stream_spec, Hr1. now apply IH with before bad.
Qed.

Lemma getKeyDataStream_spec keyMeta w :
  exists r, Backend.getKeyDataStream keyMeta w = (r, w)
    /\ match r with
       | Normal (Ok (Some value)) => present_stream keyMeta = Some value
       | _ => present_stream keyMeta = None
       end.
Proof.
  unfold Backend.getKeyDataStream, AsyncResult.run, present_stream.
  destruct (S3_send _) as [[[value|]]|cause]; cbn.
  - eexists. split; reflexivity.
  - eexists. split; reflexivity.
  - destruct (err_outcome cause) as [[c ->]|[e ->]]; eexists; split; reflexivity.
Qed.

Lemma drain_generateKeyStreams {S}
    (keyMetas : AsyncGenerator S KeyMetadata (option (Result unit))) fuel :
  forall s w keys c s' w',
  drain fuel keyMetas s w = Some (keys, c, s', w') ->
  Forall retrieved keys ->
  drain fuel (generator (Lookup.generateKeyStreams keyMetas)) (Some s) w
  = Some (omap present_stream keys, c, None, w').
Proof.
  induction fuel as [|fuel IH]; intros s w keys c s' w'; [discriminate|].
  cbn [drain]. unfold generator at 1, Lookup.generateKeyStreams at 1.
  destruct (keyMetas s w) as [[s1|[[keyMeta|value]|cause] s1] w1].
  - apply IH.
  - destruct (drain fuel keyMetas s1 w1) as [[[[vs c1] s2] w2]|] eqn:Ed; [|discriminate].
    intros [= <- <- <- <-] Hkeys. apply Forall_cons in Hkeys as [Hkey Hkeys].
    destruct (Hkey w1) as [returned Hreturned].
    destruct (getKeyDataStream_spec keyMeta w1) as (r & Hg & Hr).
    rewrite Hg in Hreturned. injection Hreturned as ->. rewrite Hg.
    cbn [omap list_omap].
    destruct returned as [[value|]|cause]; rewrite Hr, (IH _ _ _ _ _ _ Ed Hkeys);
      reflexivity.
  - now intros [= <- <- <- <-].
  - now intros [= <- <- <- <-].
Qed.

Lemma formatJsonIndices_loop_drained {S}
    (keyMetas : AsyncGenerator S KeyMetadata (option (Result unit))) fuel :
  forall s w indices keys r s' w',
  drain fuel keyMetas s w = Some (keys, Normal (Some r), s', w') ->
  Lookup.formatJsonIndices_loop fuel keyMetas s w indices
  = Some (Normal (formatted r (JSON_stringify (index_from indices keys))), s', w').
Proof.
  induction fuel as [|fuel IH]; intros s w indices keys r s' w'; [discriminate|].
  cbn [drain Lookup.formatJsonIndices_loop].
  destruct (keyMetas s w) as [[s1|[[keyMeta|value]|cause] s1] w1].
  - apply IH.
  - destruct (drain fuel keyMetas s1 w1) as [[[[vs c] s2] w2]|] eqn:Ed; [|discriminate].
    intros [= <- -> <- <-]. now rewrite (IH _ _ _ _ _ _ _ Ed).
  - intros [= <- -> <- <-]. now destruct r.
  - discriminate.
Qed.

Lemma index_from_snoc indices keys keyMeta :
  index_from indices (keys ++ [keyMeta])
  = <[field "fingerprint" keyMeta := keyMeta]> (index_from indices keys).
Proof. unfold index_from. now rewrite foldl_app. Qed.

(** Last write wins: the entry of a fingerprint is the last record yielded
    with it. *)
Lemma index_from_lookup keys fingerprint :
  index_from ∅ keys !! fingerprint
  = last (filter (fun keyMeta => field "fingerprint" keyMeta = fingerprint) keys).
Proof.
  induction keys as [|keyMeta keys IH] using rev_ind; [reflexivity|].
  rewrite index_from_snoc, filter_app, filter_cons, filter_nil.
  destruct (decide (field "fingerprint" keyMeta = fingerprint)) as [->|Hne].
  - now rewrite lookup_insert_eq, last_snoc.
  - now rewrite lookup_insert_ne, app_nil_r.
Qed.

End Formatting.

Section FormattingClaims.
Context `{Externals}.

(** C7.  [formatKeys] reads each stream the sequence yields, to its end and
    in order.  When every stream can be read and the sequence terminates
    [Ok], it returns [Ok] of a response whose body is the concatenation of
    all the bytes read and whose content type is [application/pgp-keys] (and
    the sequence's own [Err] when it terminates with one).  When reading a
    stream fails, it ends as [Result.err(cause)] does there and then, with
    [Err] of the cause when the cause is an [Error]: the generator is left
    where it was when it yielded that stream, so no later stream is pulled or
    read, and no body is returned. *)
Theorem formatKeys_reads_all_or_fails (St : Type)
    (keyStreams : AsyncGenerator St Readable (option (Result unit)))
    (s : St) (w : World) (fuel : nat) :
  (forall streams r s' w',
      drain fuel keyStreams s w = Some (streams, Normal (Some r), s', w') ->
      Forall readable streams ->
      Lookup.formatKeys fuel keyStreams s w
      = Some (Normal (formatted r (keys_body streams)), s', w'))
  /\ (forall before bad cause s' w',
        take_items fuel (S (length before)) keyStreams s w = Some (before ++ [bad], s', w') ->
        Forall readable before ->
        failure bad = Some cause ->
        Lookup.formatKeys fuel keyStreams s w = Some (Result.err cause, s', w')
        /\ (instanceof_Error cause = true ->
            Lookup.formatKeys fuel keyStreams s w = Some (Normal (Err cause), s', w'))).
Proof.
  split.
  - intros streams r s' w' Hd Hr. unfold Lookup.formatKeys.
    now rewrite (formatKeys_loop_drained _ _ _ _ [] _ _ _ _ Hd Hr).
  - intros before bad cause s' w' Ht Hr Hbad.
    assert (Hfailed : Lookup.formatKeys fuel keyStreams s w = Some (Result.err cause, s', w'))
      by (unfold Lookup.formatKeys; now apply formatKeys_loop_failed with before bad).
    split; [exact Hfailed|]. intros Herror.
    now rewrite Hfailed, (err_Error_instance _ Herror).
Qed.

(** C6.  [generateKeyStreams] yields the stream of each key for which
    [getKeyDataStream] finds one, and passes over the keys for which it
    returns [Err] or finds none: it goes on pulling, and ends as the sequence
    of keys ends.  So the response [formatKeys] builds in the [get] and
    [hget] pipelines holds the bytes of the streams found, and a failed
    retrieval shows neither as an [Err] nor in the body.  This is so when
    every retrieval returns; one that rejects, which it does only when the
    conversion of its failure throws, ends the sequence with that
    exception. *)
Theorem generateKeyStreams_skips_failed_retrievals (St : Type)
    (keyMetas : AsyncGenerator St KeyMetadata (option (Result unit)))
    (s : St) (w : World) (fuel : nat)
    (keys : list KeyMetadata) (c : Completion (option (Result unit))) (s' : St) (w' : World) :
  drain fuel keyMetas s w = Some (keys, c, s', w') ->
  Forall retrieved keys ->
  drain fuel (generator (Lookup.generateKeyStreams keyMetas)) (Some s) w
    = Some (omap present_stream keys, c, None, w')
  /\ (forall keyMeta w0 r,
        Backend.getKeyDataStream keyMeta w0 = (Normal r, w0) ->
        Result.isPresent r = bool_decide (is_Some (present_stream keyMeta)))
  /\ (forall r,
        c = Normal (Some r) ->
        Forall readable (omap present_stream keys) ->
        Lookup.formatKeys fuel (generator (Lookup.generateKeyStreams keyMetas)) (Some s) w
        = Some (Normal (formatted r (keys_body (omap present_stream keys))), None, w'))
  /\ (forall keyMeta s0 s1 w0 w1 e,
        keyMetas s0 w0 = (Settled (Normal (IYield keyMeta)) s1, w1) ->
        Backend.getKeyDataStream keyMeta w1 = (Throw e, w1) ->
        generator (Lookup.generateKeyStreams keyMetas) (Some s0) w0
        = (Settled (Throw e) None, w1)).
Proof.
  intros Hd Hkeys. pose proof (drain_generateKeyStreams _ _ _ _ _ _ _ _ Hd Hkeys) as Hs.
  split; [exact Hs|]. split; [|split].
  - intros keyMeta w0 r Hreturned.
    destruct (getKeyDataStream_spec keyMeta w0) as (r' & Hg & Hr).
    rewrite Hg in Hreturned. injection Hreturned as ->.
    destruct r as [[value|]|cause]; rewrite Hr; reflexivity.
  - intros r -> Hr. unfold Lookup.formatKeys.
    now rewrite (formatKeys_loop_drained _ _ _ _ [] _ _ _ _ Hs Hr).
  - intros keyMeta s0 s1 w0 w1 e Hyield Hthrow.
    unfold generator, Lookup.generateKeyStreams. now rewrite Hyield, Hthrow.
Qed.


End FormattingClaims.

(* ===================================================================== *)
(** ** The properties at work on sample requests *)
(* ===================================================================== *)

Section Samples.
#[local] Existing Instance sample_externals.

Example slice_examples :
  slice "0123456789" 2 (Some 5%Z) = "234"
  /\ slice "0123456789" (-3) None = "789"
  /\ slice "0123456789" 0 (Some (-3)%Z) = "0123456"
  /\ slice "abc" (-16) None = "abc"
  /\ slice "abc" 0 (Some (-16)%Z) = "".
Proof. repeat split; reflexivity. Qed.

Example toUpperCase_example : toUpperCase "0xdeadBEEF-89" = "0XDEADBEEF-89".
Proof. reflexivity. Qed.

Example HEX_REGEX_examples :
  HEX_REGEX "0xAABBCCDDEEFF00112233445566778899AABBCCDD"
  = Some "AABBCCDDEEFF00112233445566778899AABBCCDD"
  /\ HEX_REGEX "66778899aabbccdd" = Some "66778899aabbccdd"
  /\ HEX_REGEX "jane" = None
  /\ HEX_REGEX "0x" = None.
Proof. repeat split; reflexivity. Qed.

(** The example of the specification: the key id is the last 16 digits of
    the fingerprint, the prefix the 24 before them. *)
Example fingerprint_request_example :
  Backend.findKeyByFingerprint_request
    (mkLookup "get" "AABBCCDDEEFF00112233445566778899AABBCCDD" None false)
  = GetItemCommand
      {| GetItemCommand.TableName := "pgp-table";
         GetItemCommand.Key :=
           {[ "pgpKeyId" := AV_S "66778899AABBCCDD";
              "pgpFingerprintUpper" := AV_S "AABBCCDDEEFF001122334455" ]} |}.
Proof. reflexivity. Qed.

(** [hget] on a key that the table has and whose data the object store
    answers without a body: an [Ok] response with an empty body. *)
Example hget_handler_example :
  Lookup.hget_handler 3
    (mkWorld lookup_fingerprint [Normal (mkOutput None None (Some item_2))] [])
  = Some (Normal (Ok (keys_body [])),
          mkWorld (set_search lookup_fingerprint "aabbccddeeff00112233445566778899aabbccdd")
            []
            [Backend.findKeyByFingerprint_request
               (set_search lookup_fingerprint "aabbccddeeff00112233445566778899aabbccdd")]).
Proof. reflexivity. Qed.

(** The machine-readable index of two records. *)
Example formatIndices_machine_example :
  Lookup.formatIndices 5 lookup_id (generator Backend.searchKeysByBestGuess)
    (Some Backend.Guess_entry)
    (mkWorld lookup_id [page_of (Some [item_1; item_2]) None] [])
  = Some (Normal (Ok {| statusCode := OK;
                        headers := {[ "Content-Type" := "text/plain" ]};
                        body := Some ("pub:AABBCCDDEEFF00112233445566778899AABBCCDD" ++ LF
                                      ++ "uid:Jane Doe <jane@example.org>" ++ LF
                                      ++ "pub:00000000000000000000000066778899AABBCCDD" ++ LF
                                      ++ "uid:John Roe <john@example.org>" ++ LF)%string |}),
          None, mkWorld lookup_id [] [Backend.searchKeysById_request lookup_id]).
Proof. reflexivity. Qed.

Lemma sample_decoded :
  decoded [item_1; item_2; item_3] [key_1; key_2; key_3].
Proof. repeat (constructor; [reflexivity|]). constructor. Qed.

(** Two pages and a last one: three records, three requests, the second
    and the third carrying the tokens of the first and the second page; and
    the same two pages followed by a failing call. *)
Lemma paginated_search_witness :
  drain 9 Backend.page_generator (Backend.searchKeysById lookup_id)
    (mkWorld lookup_id ((continued <$> sample_pages) ++ [page_of (Some [item_3]) None]) [])
  = Some ([key_1; key_2; key_3], Normal (Result.ok tt), None,
          mkWorld lookup_id []
            ([] ++ requests_for (Backend.searchKeysById_request lookup_id) sample_pages))
  /\ drain 7 Backend.page_generator (Backend.searchKeysByKeyword lookup_name)
       (mkWorld lookup_name
          ((continued <$> sample_pages) ++ [Throw transport_error; page_of (Some [item_3]) None])
          [])
     = Some ([key_1; key_2], Normal (Err transport_error), None,
             mkWorld lookup_name [page_of (Some [item_3]) None]
               ([] ++ requests_for (Backend.searchKeysByKeyword_request lookup_name)
                        sample_pages))
  /\ start_key <$> requests_for (Backend.searchKeysById_request lookup_id) sample_pages
     = [None; Some token_1; Some token_2].
Proof.
  destruct (paginated_search_yields_pages_in_order lookup_id _ _ sample_pages lookup_id [] []
              (or_introl (conj eq_refl eq_refl))) as (Hpages & _ & Htokens & _).
  destruct (paginated_search_yields_pages_in_order lookup_name _ _ sample_pages lookup_name
              [page_of (Some [item_3]) None] [] (or_intror (conj eq_refl eq_refl)))
    as (_ & Hfailed & _).
  split; [|split].
  - apply Hpages.
    + exact sample_decoded.
    + vm_compute. lia.
  - apply (Hfailed transport_error [key_1; key_2] 7).
    + repeat (constructor; [reflexivity|]). constructor.
    + vm_compute. lia.
    + reflexivity.
  - exact Htokens.
Defined.

(** Four pulls of a search whose second page fails: an item, the [Err], and
    twice the [done] of a completed generator. *)
Lemma from_rejects_witness :
  pulls 3 4 Backend.page_generator (Backend.searchKeysById lookup_id)
    (mkWorld lookup_id [page_of (Some [item_1]) (Some token_1); Throw transport_error] [])
  = Some ([Normal (IYield key_1); Normal (IDone (Err transport_error)); idle; idle], None,
          mkWorld lookup_id []
            [Backend.searchKeysById_request lookup_id;
             Backend.set_ExclusiveStartKey (Backend.searchKeysById_request lookup_id) token_1])
  /\ items_then_done
       [Normal (IYield key_1); Normal (IDone (Err transport_error)); idle (R:=unit); idle].
Proof.
  assert (Hp : pulls 3 4 Backend.page_generator (Backend.searchKeysById lookup_id)
    (mkWorld lookup_id [page_of (Some [item_1]) (Some token_1); Throw transport_error] [])
  = Some ([Normal (IYield key_1); Normal (IDone (Err transport_error)); idle; idle], None,
          mkWorld lookup_id []
            [Backend.searchKeysById_request lookup_id;
             Backend.set_ExclusiveStartKey (Backend.searchKeysById_request lookup_id) token_1]))
    by (reflexivity).
  split; [exact Hp|].
  exact (proj1 (proj2 from_rejects_only_when_err_throws)
           _ _ _ _ Backend.page_loop 3 4 _ _ _ _ _ Hp).
Defined.

(** A well-formed record and one without [pgpKeyId]. *)
Lemma extractKeyMetadata_contract_witness :
  Backend.extractKeyMetadata item_1 = Normal key_1
  /\ exists expression,
       Backend.extractKeyMetadata item_bad = Throw (AssertionError expression)
       /\ next 1 Backend.page_generator
            (Some (Backend.Yielding (Backend.searchKeysById_request lookup_id)
                     (mkOutput (Some [item_bad]) None None) [item_bad]))
            (mkWorld lookup_id [] [])
          = Some (Normal (IDone (Err (AssertionError expression))), None,
                  mkWorld lookup_id [] []).
Proof.
  split.
  - destruct (proj1 (extractKeyMetadata_contract item_1) eq_refl)
      as (keyId & upper & uid & keyMeta & Hk & Hu & _ & -> & -> & _).
    vm_compute in Hk. vm_compute in Hu. injection Hk as <-. injection Hu as <-.
    reflexivity.
  - destruct (proj2 (extractKeyMetadata_contract item_bad) eq_refl)
      as (expression & He & Hpull & _).
    exists expression. split; [exact He|]. apply Hpull.
Defined.

(** A name, which does not match the hex pattern, and a hex string of four
    digits, which does. *)
Lemma keyword_path_witness :
  (exists more,
      dynamo_sent
        (snd (turns 4 (generator Backend.searchKeysByBestGuess) (Some Backend.Guess_entry)
                (mkWorld lookup_name [page_of (Some [item_1]) (Some token_1)] [])))
      = [] ++ Backend.searchKeysByKeyword_request lookup_name :: more
      /\ Forall (same_query (Backend.searchKeysByKeyword_request lookup_name)) more
      /\ search
           (lookup_object
              (snd (turns 4 (generator Backend.searchKeysByBestGuess)
                      (Some Backend.Guess_entry)
                      (mkWorld lookup_name [page_of (Some [item_1]) (Some token_1)] []))))
         = "jane")
  /\ (exists more,
        dynamo_sent
          (snd (turns 2 (generator Backend.searchKeysByBestGuess) (Some Backend.Guess_entry)
                  (mkWorld lookup_short_hex [] [])))
        = [] ++ Backend.searchKeysByKeyword_request (set_search lookup_short_hex "ABCD") :: more
        /\ Forall (same_query
                     (Backend.searchKeysByKeyword_request (set_search lookup_short_hex "ABCD")))
             more
        /\ search
             (lookup_object
                (snd (turns 2 (generator Backend.searchKeysByBestGuess)
                        (Some Backend.Guess_entry) (mkWorld lookup_short_hex [] []))))
           = "ABCD").
Proof.
  split.
  - apply (keyword_path_one_scan_shape
             (mkWorld lookup_name [page_of (Some [item_1]) (Some token_1)] []) "jane" 2).
    left. split; reflexivity.
  - apply (keyword_path_one_scan_shape (mkWorld lookup_short_hex [] []) "ABCD" 0).
    right. split; [reflexivity|].
    vm_compute. intros Hin. repeat (apply elem_of_cons in Hin as [Hin|Hin]; [lia|]).
    now apply elem_of_nil in Hin.
Defined.

(** A fingerprint of 40 digits, typed in lower case, that the store finds. *)
Lemma fingerprint_path_witness :
  exists vs r w',
    drain 2 (generator Backend.searchKeysByBestGuess) (Some Backend.Guess_entry)
      (mkWorld lookup_fingerprint [Normal (mkOutput None None (Some item_1))] [])
    = Some (vs, Some <$> r, None, w')
    /\ dynamo_sent w'
       = [] ++ [GetItemCommand
                  {| GetItemCommand.TableName := PGP_TABLE_NAME;
                     GetItemCommand.Key :=
                       {[ "pgpKeyId" :=
                            AV_S (toUpperCase
                                    (slice "aabbccddeeff00112233445566778899aabbccdd"
                                       (-16) None));
                          "pgpFingerprintUpper" :=
                            AV_S (toUpperCase
                                    (slice "aabbccddeeff00112233445566778899aabbccdd"
                                       0 (Some (-16)%Z))) ]} |}]
    /\ length vs <= 1
    /\ match Backend.extractKeyMetadata item_1 with
       | Normal keyMeta => vs = [keyMeta] /\ r = Normal (Ok tt)
       | Throw cause =>
           vs = [] /\ exists expression,
             cause = AssertionError expression /\ r = Normal (Err cause)
       end.
Proof.
  destruct (fingerprint_path_one_point_lookup
              (mkWorld lookup_fingerprint [Normal (mkOutput None None (Some item_1))] [])
              "aabbccddeeff00112233445566778899aabbccdd" 2)
    as (_ & _ & vs & r & w' & Hd & Hs & _ & Hlen & Hcase).
  - reflexivity.
  - apply elem_of_cons. right. apply elem_of_cons. left. reflexivity.
  - lia.
  - exists vs, r, w'. split; [exact Hd|]. split; [exact Hs|]. split; [exact Hlen|].
    exact Hcase.
Defined.

(** The [get] pipeline over four keys: the store holds the data of the
    first, has no body for the second and refuses the last; the response
    holds the first key's data, twice. *)
Lemma generateKeyStreams_witness :
  Lookup.get_handler 7
    (mkWorld lookup_id [page_of (Some [item_1; item_2; item_4; item_1]) None] [])
  = Some (Normal (Ok (keys_body [sample_stream; sample_stream])), None,
          mkWorld lookup_id [] [Backend.searchKeysById_request lookup_id])
  /\ omap present_stream [key_1; key_2; key_4; key_1] = [sample_stream; sample_stream].
Proof.
  split; [|reflexivity].
  unfold Lookup.get_handler.
  refine (proj1 (proj2 (proj2 (generateKeyStreams_skips_failed_retrievals _
                          (generator Backend.searchKeysByBestGuess) (Some Backend.Guess_entry)
                          (mkWorld lookup_id [page_of (Some [item_1; item_2; item_4; item_1]) None] [])
                          7 [key_1; key_2; key_4; key_1] (Normal (Some (Ok tt))) None
                          (mkWorld lookup_id [] [Backend.searchKeysById_request lookup_id]) _ _)))
            (Ok tt) eq_refl _).
  - reflexivity.
  - repeat (constructor; [intros w; eexists; reflexivity|]). constructor.
  - vm_compute. repeat constructor.
Defined.

(** The second of three streams breaks while it is read: [Err], with the
    generator left where it yielded that stream; and two streams that can be
    read. *)
Lemma formatKeys_witness :
  Lookup.formatKeys 7
    (generator (Lookup.generateKeyStreams (generator Backend.searchKeysByBestGuess)))
    (Some (Some Backend.Guess_entry))
    (mkWorld lookup_id [page_of (Some [item_1; item_3; item_1]) None] [])
  = Some (Normal (Err (new_Error (Some "aborted"))),
          Some (Some (Backend.Guess_delegating
                        (Some (Backend.Yielding (Backend.searchKeysById_request lookup_id)
                                 (mkOutput (Some [item_1; item_3; item_1]) None None)
                                 [item_1])))),
          mkWorld lookup_id [] [Backend.searchKeysById_request lookup_id])
  /\ Lookup.formatKeys 7
       (generator (Lookup.generateKeyStreams (generator Backend.searchKeysByBestGuess)))
       (Some (Some Backend.Guess_entry))
       (mkWorld lookup_id [page_of (Some [item_1; item_2; item_1]) None] [])
     = Some (Normal (formatted (Ok tt) (keys_body [sample_stream; sample_stream])), None,
             mkWorld lookup_id [] [Backend.searchKeysById_request lookup_id]).
Proof.
  split.
  - refine (proj2 (proj2 (formatKeys_reads_all_or_fails _ _ _ _ 7)
                     [sample_stream] broken_stream (new_Error (Some "aborted")) _ _ _ _ _) _).
    + reflexivity.
    + repeat constructor.
    + reflexivity.
    + reflexivity.
  - refine (proj1 (formatKeys_reads_all_or_fails _ _ _ _ 7)
              [sample_stream; sample_stream] (Ok tt) _ _ _ _).
    + reflexivity.
    + repeat constructor.
Defined.


(** C4, as stated, fails.  The search text [0xABCD] matches the hex pattern
    and its payload has four digits, so the lookup goes to the keyword path;
    the term of the scan it sends is the payload [ABCD], not the raw text. *)
Lemma keyword_term_is_normalized :
  HEX_REGEX (search lookup_short_hex) = Some "ABCD"
  /\ filter_term <$>
       dynamo_sent
         (snd (turns 2 (generator Backend.searchKeysByBestGuess) (Some Backend.Guess_entry)
                 (mkWorld lookup_short_hex [] [])))
     = [Some (AV_S "ABCD")]
  /\ Some (AV_S "ABCD") <> Some (AV_S (search lookup_short_hex)).
Proof. repeat split; try (reflexivity). discriminate. Qed.

(** C5, as stated, fails.  For a fingerprint typed in lower case the point
    lookup is not keyed by the two parts of the string: each part is in upper
    case. *)
Lemma fingerprint_key_is_upper_cased :
  HEX_REGEX (search lookup_fingerprint) = Some "aabbccddeeff00112233445566778899aabbccdd"
  /\ (fun command => (point_key command "pgpFingerprintUpper", point_key command "pgpKeyId")) <$>
       dynamo_sent
         (snd (turns 1 (generator Backend.searchKeysByBestGuess) (Some Backend.Guess_entry)
                 (mkWorld lookup_fingerprint [] [])))
     = [(Some (AV_S "AABBCCDDEEFF001122334455"), Some (AV_S "66778899AABBCCDD"))]
  /\ slice "aabbccddeeff00112233445566778899aabbccdd" 0 (Some (-16)%Z)
     = "aabbccddeeff001122334455"
  /\ slice "aabbccddeeff00112233445566778899aabbccdd" (-16) None = "66778899aabbccdd"
  /\ (Some (AV_S "AABBCCDDEEFF001122334455"), Some (AV_S "66778899AABBCCDD"))
     <> (Some (AV_S "aabbccddeeff001122334455"), Some (AV_S "66778899aabbccdd")).
Proof. repeat split; try (reflexivity). discriminate. Qed.

(** C8, as stated, fails.  A record without [pgpKeyId] makes
    [extractKeyMetadata] raise, but the search does not raise: the pull that
    meets the record returns [done] with [Err] of the assertion error, and on
    the fingerprint path the sequence terminates with that [Err] too. *)
Lemma malformed_record_is_delivered_as_Err :
  Backend.extractKeyMetadata item_bad
  = Throw (AssertionError "typeof result.pgpKeyId === 'string'")
  /\ drain 3 Backend.page_generator (Backend.searchKeysById lookup_id)
       (mkWorld lookup_id [page_of (Some [item_bad]) None] [])
     = Some ([], Normal (Err (AssertionError "typeof result.pgpKeyId === 'string'")), None,
             mkWorld lookup_id [] [Backend.searchKeysById_request lookup_id])
  /\ (exists w',
        drain 3 (generator Backend.searchKeysByBestGuess) (Some Backend.Guess_entry)
          (mkWorld lookup_fingerprint [Normal (mkOutput None None (Some item_bad))] [])
        = Some ([], Normal (Some (Err (AssertionError "typeof result.pgpKeyId === 'string'"))),
                None, w'))
  /\ (forall cause : JSValue,
        Normal (Err (T:=unit) (AssertionError "typeof result.pgpKeyId === 'string'"))
        <> Throw cause).
Proof.
  repeat split; try (reflexivity).
  - eexists. reflexivity.
  - discriminate.
Qed.

End Samples.

(* ===================================================================== *)
(** ** Further properties: [Result.run], [Result.expect] and [Result.err] *)
(* ===================================================================== *)

Lemma property_eta (p : Property JSValue) :
  prop_enumerable p = true ->
  mkProperty (prop_key p) true (prop_value p) = p.
Proof. destruct p as [k e v]. cbn. now intros ->. Qed.

Lemma define_property_fresh (p : Property JSValue) (l : list (Property JSValue)) :
  prop_key p ∉ prop_key <$> l -> define_property p l = l ++ [p].
Proof.
  induction l as [|q l IH]; cbn; [reflexivity|]. intros Hin.
  apply not_elem_of_cons in Hin as [Hne Hin].
  destruct (String.eqb_spec (prop_key q) (prop_key p)) as [Heq|_]; [congruence|].
  now rewrite IH.
Qed.

Lemma define_property_keys (p : Property JSValue) (l : list (Property JSValue)) :
  prop_key <$> define_property p l
  = if bool_decide (prop_key p ∈ prop_key <$> l) then prop_key <$> l
    else (prop_key <$> l) ++ [prop_key p].
Proof.
  induction l as [|q l IH]; cbn [define_property fmap list_fmap]; [reflexivity|].
  destruct (String.eqb_spec (prop_key q) (prop_key p)) as [Heq|Hne].
  - rewrite bool_decide_eq_true_2 by (rewrite Heq; apply elem_of_cons; auto).
    cbn. now rewrite Heq.
  - cbn [fmap list_fmap]. rewrite IH.
    destruct (decide (prop_key p ∈ prop_key <$> l)) as [Hin|Hin].
    + rewrite !bool_decide_eq_true_2; auto. apply elem_of_cons. auto.
    + rewrite !bool_decide_eq_false_2; auto.
      intros [Heq|Hin']%elem_of_cons; congruence.
Qed.

Lemma define_property_enumerable (p : Property JSValue) (l : list (Property JSValue)) :
  prop_enumerable p = true ->
  Forall (fun q => prop_enumerable q = true) l ->
  Forall (fun q => prop_enumerable q = true) (define_property p l).
Proof.
  intros Hp. induction 1 as [|q l Hq Hl IH]; cbn; [repeat constructor; exact Hp|].
  destruct (String.eqb (prop_key q) (prop_key p)); constructor; auto.
Qed.

Lemma define_property_shape (p : Property JSValue) (l : list (Property JSValue)) :
  prop_enumerable p = true -> spread_shape l -> spread_shape (define_property p l).
Proof.
  intros Hp [Hnd Hen]. split; [|now apply define_property_enumerable].
  rewrite define_property_keys. case_bool_decide as Hin; [exact Hnd|].
  apply NoDup_app. split; [exact Hnd|]. split.
  - intros k Hk Hk'. apply list_elem_of_singleton in Hk'. now subst.
  - apply NoDup_singleton.
Qed.

Lemma copy_data_properties_shape (target : list (Property JSValue)) (source : JSValue) :
  spread_shape target -> spread_shape (copy_data_properties target source).
Proof.
  unfold copy_data_properties. revert target.
  induction (own_enumerable source) as [|p ps IH]; intros target Ht; [exact Ht|].
  cbn [fold_left]. apply IH. now apply define_property_shape.
Qed.

Lemma copy_data_properties_same (l : list (Property JSValue)) : forall target,
  spread_shape l ->
  (forall k, k ∈ prop_key <$> l -> k ∉ prop_key <$> target) ->
  fold_left (fun acc p => define_property (mkProperty (prop_key p) true (prop_value p)) acc)
    l target
  = target ++ l.
Proof.
  induction l as [|p l IH]; intros target [Hnd Hen] Hdis; cbn [fold_left].
  - now rewrite app_nil_r.
  - cbn [fmap list_fmap] in Hnd. apply NoDup_cons in Hnd as [Hp Hnd].
    apply Forall_cons in Hen as [Hpe Hen].
    rewrite (property_eta p Hpe).
    rewrite define_property_fresh by (apply Hdis; cbn; apply elem_of_cons; auto).
    rewrite IH.
    + now rewrite <- app_assoc.
    + now split.
    + intros k Hk. rewrite fmap_app. intros [Hin|Hin]%elem_of_app.
      * eapply Hdis; [|exact Hin]. cbn. apply elem_of_cons. auto.
      * cbn in Hin. apply list_elem_of_singleton in Hin. now subst.
Qed.

Lemma own_property_absent (k : string) (l : list (Property JSValue)) :
  k ∉ prop_key <$> l -> own_property k l = None.
Proof.
  unfold own_property. induction l as [|p l IH]; cbn; [reflexivity|]. intros Hin.
  apply not_elem_of_cons in Hin as [Hne Hin].
  destruct (String.eqb_spec (prop_key p) k) as [Heq|_]; [congruence|auto].
Qed.

Lemma filter_enumerable_keys (k : string) (l : list (Property JSValue)) :
  k ∉ prop_key <$> l -> k ∉ prop_key <$> List.filter prop_enumerable l.
Proof.
  induction l as [|p l IH]; cbn; [auto|]. intros Hin.
  apply not_elem_of_cons in Hin as [Hne Hin].
  destruct (prop_enumerable p); cbn; [|auto].
  apply not_elem_of_cons. auto.
Qed.

Lemma filter_enumerable_shape (l : list (Property JSValue)) :
  own_keys_distinct (VObject PlainObject l) -> spread_shape (List.filter prop_enumerable l).
Proof.
  cbn. induction l as [|p l IH]; cbn.
  - intros _. split; [apply NoDup_nil_2|constructor].
  - intros [Hp Hnd]%NoDup_cons. destruct (IH Hnd) as [Hnd' Hen].
    destruct (prop_enumerable p) eqn:Hpe; [|now split].
    split; [|now constructor]. cbn. apply NoDup_cons. split; [|exact Hnd'].
    now apply filter_enumerable_keys.
Qed.

(** The own property [k] of the spread of an object whose keys are
    distinct: that of the object, if it is enumerable. *)
Lemma own_property_enumerable (k : string) (l : list (Property JSValue)) :
  own_keys_distinct (VObject PlainObject l) ->
  own_property k (List.filter prop_enumerable l)
  = match own_property k l with
    | Some p => if prop_enumerable p then Some p else None
    | None => None
    end.
Proof.
  cbn. induction l as [|p l IH]; [reflexivity|].
  intros [Hp Hnd]%NoDup_cons. unfold own_property in *. cbn [List.filter List.find].
  destruct (String.eqb_spec (prop_key p) k) as [Heq|Hne].
  - destruct (prop_enumerable p) eqn:Hpe.
    + cbn [List.find]. now rewrite (proj2 (String.eqb_eq _ _) Heq).
    + apply own_property_absent. apply filter_enumerable_keys. now rewrite <- Heq.
  - destruct (prop_enumerable p).
    + cbn [List.find]. rewrite (proj2 (String.eqb_neq _ _) Hne). auto.
    + auto.
Qed.

Lemma object_spread_own_enumerable (c : ObjectClass) (l : list (Property JSValue)) :
  own_keys_distinct (VObject c l) ->
  object_spread [VObject c l] = VObject PlainObject (List.filter prop_enumerable l).
Proof.
  intros Hl. unfold object_spread. cbn [fold_left]. f_equal.
  unfold copy_data_properties, own_enumerable.
  rewrite (copy_data_properties_same _ [] (filter_enumerable_shape l Hl)); [reflexivity|].
  intros k _ Hin. now apply elem_of_nil in Hin.
Qed.

Lemma spread_shape_enumerable (l : list (Property JSValue)) :
  spread_shape l -> List.filter prop_enumerable l = l.
Proof.
  intros [_ Hen]. induction Hen as [|p l Hp _ IH]; [reflexivity|].
  cbn. now rewrite Hp, IH.
Qed.

Lemma object_spread_fixed (l : list (Property JSValue)) :
  spread_shape l -> object_spread [VObject PlainObject l] = VObject PlainObject l.
Proof.
  intros Hl. rewrite object_spread_own_enumerable by apply Hl.
  now rewrite spread_shape_enumerable.
Qed.

(** The cause of a [Result.err] is a fixed point of [Result.err]. *)
Lemma err_cause_fixed {T} (v c : JSValue) :
  own_keys_distinct v ->
  @Result.err T v = Normal (Err c) -> @Result.err T c = Normal (Err c).
Proof.
  destruct v as [| |[]|n|n|s|[|ctor] props];
    try (intros _; cbn; intros [= <-]; reflexivity).
  intros Hv. rewrite err_plain_object.
  destruct (ToString (get (VObject PlainObject props) "message")) as [m|e] eqn:Hm;
    [|discriminate].
  cbn. intros [= <-]. rewrite (object_spread_own_enumerable _ _ Hv).
  pose proof (filter_enumerable_shape props Hv) as Hl.
  rewrite err_plain_object, (object_spread_fixed _ Hl).
  replace (ToString (get (VObject PlainObject (List.filter prop_enumerable props)) "message"))
    with (Normal (A:=string)
            (if match own_property "message" props with
                | Some p => prop_enumerable p
                | None => false
                end then m else "undefined")); [now destruct (match _ with Some _ => _ | None => _ end)|].
  revert Hm. unfold get. rewrite (own_property_enumerable _ _ Hv).
  destruct (own_property "message" props) as [p|]; [|reflexivity].
  destruct (prop_enumerable p); [now intros ->|reflexivity].
Qed.

(** X1.  [Result.expect(Result.run(action))] ends as [action] does: with
    the value [action] returns, or with the very error it throws, when that
    is an [Error]; a string that is thrown comes back as an [Error] with the
    string as its message. *)
Theorem expect_after_run (T : Type) (action : Completion T) :
  (forall cause, action = Throw cause -> instanceof_Error cause = true) ->
  (result ← Result_run action; Result_expect result) = action
  /\ (forall s : string,
        (result ← @Result_run T (Throw (VString s)); Result_expect result)
        = Throw (new_Error (Some s))).
Proof.
  intros He. split; [|reflexivity].
  destruct action as [value|cause]; [reflexivity|]. cbn.
  now rewrite (err_Error_instance cause (He cause eq_refl)).
Qed.

(** X2.  A [Result] that [Result.ok] or [Result.err] built survives
    [expect] followed by [run]; so the cause of a [Result.err] is left as it
    is when it is wrapped again, and so is any [Error]. *)
Theorem run_after_expect :
  (forall (T : Type) (value : T),
      Result_run (Result_expect (Result.ok value)) = Normal (Result.ok value))
  /\ (forall (T : Type) (v : JSValue),
        own_keys_distinct v ->
        (result ← @Result.err T v; Result_run (Result_expect result)) = Result.err v)
  /\ (forall (T : Type) (v c : JSValue),
        own_keys_distinct v ->
        @Result.err T v = Normal (Err c) -> @Result.err T c = Normal (Err c))
  /\ (forall (T : Type) (cause : JSValue),
        instanceof_Error cause = true ->
        Result_run (Result_expect (@Err T cause)) = Normal (Err cause)).
Proof.
  split; [reflexivity|]. split; [|split].
  - intros T v Hv. destruct (err_outcome v) as [[c Hc]|[e He]].
    + rewrite Hc. cbn. now apply err_cause_fixed with v.
    + now rewrite He.
  - intros T v c. apply err_cause_fixed.
  - intros T cause Hc. cbn. now apply err_Error_instance.
Qed.

(** X3.  The cause [Result.err] returns, when it returns, is an [Error]
    for every input but an object that is not one: for such an object the
    cause is a plain object, whatever its fields.  [Result.err] returns for
    every input that is no such object, and when it throws, it throws what
    the conversion of the object's [message] to a string throws; it does
    throw, on an object whose [message] has no string. *)
Theorem err_cause_is_Error_unless_plain_object (T : Type) (v : JSValue) :
  (forall r, @Result.err T v = Normal r ->
             exists c,
               r = Err c
               /\ instanceof_Error c
                  = negb match v with VObject PlainObject _ => true | _ => false end)
  /\ (forall e, @Result.err T v = Throw e ->
                exists props,
                  v = VObject PlainObject props /\ ToString (get v "message") = Throw e)
  /\ match v with
     | VObject PlainObject _ => True
     | _ => exists c, @Result.err T v = Normal (Err c)
     end
  /\ @Result.err T message_unconvertible = Throw TypeError_to_primitive.
Proof.
  split; [|split; [|split]]; [| | |reflexivity].
  - destruct v as [| |[]|n|n| |[|ctor] props];
      try (intros r; cbn; intros [= <-]; eexists; split; reflexivity).
    intros r. rewrite err_plain_object.
    destruct (ToString _); [|discriminate]. intros [= <-]. eexists. split; reflexivity.
  - destruct v as [| |[]|n|n| |[|ctor] props]; try discriminate.
    intros e. rewrite err_plain_object. exists props. split; [reflexivity|].
    destruct (ToString _) as [m|e']; cbn in *; [discriminate|congruence].
  - destruct v as [| |[]|n|n| |[|ctor] props]; try (eexists; reflexivity).
Qed.

(* ===================================================================== *)
(** ** Further properties: [throw] and [return] of the wrapper *)
(* ===================================================================== *)


(* ===================================================================== *)
(** ** Further properties: the requests of [backend.ts] *)
(* ===================================================================== *)

Lemma append_cons (c : ascii) (a b : string) :
  (String c a ++ b)%string = String c (a ++ b)%string.
Proof. reflexivity. Qed.

Lemma append_length (a b : string) :
  String.length (a ++ b)%string = String.length a + String.length b.
Proof. induction a as [|c a IH]; [reflexivity|]. rewrite append_cons. cbn. now rewrite IH. Qed.

Lemma substring_append_l (a b : string) :
  substring 0 (String.length a) (a ++ b)%string = a.
Proof.
  induction a as [|c a IH]; [apply substring_0_0|].
  rewrite append_cons. cbn. now rewrite IH.
Qed.

Lemma substring_append_r (a b : string) :
  substring (String.length a) (String.length b) (a ++ b)%string = b.
Proof.
  induction a as [|c a IH]; [apply substring_whole|].
  rewrite append_cons. cbn. exact IH.
Qed.

Lemma toUpperCase_ascii_idempotent (c : ascii) :
  toUpperCase_ascii (toUpperCase_ascii c) = toUpperCase_ascii c.
Proof. destruct c as [[] [] [] [] [] [] [] []]; reflexivity. Qed.

Lemma toUpperCase_ASCII_idempotent (s : string) :
  toUpperCase_ASCII (toUpperCase_ASCII s) = toUpperCase_ASCII s.
Proof.
  induction s as [|c s IH]; [reflexivity|].
  cbn [toUpperCase_ASCII]. now rewrite toUpperCase_ascii_idempotent, IH.
Qed.

Lemma toUpperCase_ASCII_length (s : string) :
  String.length (toUpperCase_ASCII s) = String.length s.
Proof. induction s as [|c s IH]; [reflexivity|]. cbn. now rewrite IH. Qed.

Lemma toUpperCase_ASCII_substring (n m : nat) : forall s : string,
  substring n m (toUpperCase_ASCII s) = toUpperCase_ASCII (substring n m s).
Proof.
  induction n as [|n IHn].
  - induction m as [|m IHm]; intros s; [now rewrite !substring_0_0|].
    destruct s as [|c s]; [reflexivity|]. cbn. now rewrite IHm.
  - intros s. destruct s as [|c s]; [reflexivity|]. cbn. apply IHn.
Qed.

(** Slicing and upper-casing commute, on ASCII characters. *)
Lemma toUpperCase_ASCII_slice (s : string) (start : Z) (end_ : option Z) :
  slice (toUpperCase_ASCII s) start end_ = toUpperCase_ASCII (slice s start end_).
Proof. unfold slice. rewrite toUpperCase_ASCII_length. apply toUpperCase_ASCII_substring. Qed.

Lemma is_ASCII_cons (c : ascii) (s : string) :
  is_ASCII (String c s) = (nat_of_ascii c <? 128)%nat && is_ASCII s.
Proof. reflexivity. Qed.

Lemma is_ASCII_substring (n m : nat) : forall s : string,
  is_ASCII s = true -> is_ASCII (substring n m s) = true.
Proof.
  induction n as [|n IHn].
  - induction m as [|m IHm]; intros s Hs; [now rewrite substring_0_0|].
    destruct s as [|c s]; [reflexivity|]. cbn [substring].
    rewrite is_ASCII_cons in *. apply andb_true_iff in Hs as [Hc Hs].
    rewrite Hc. now apply IHm.
  - intros s Hs. destruct s as [|c s]; [reflexivity|]. cbn [substring].
    rewrite is_ASCII_cons in Hs. apply andb_true_iff in Hs as [_ Hs]. now apply IHn.
Qed.

Lemma is_ASCII_slice (s : string) (start : Z) (end_ : option Z) :
  is_ASCII s = true -> is_ASCII (slice s start end_) = true.
Proof. unfold slice. apply is_ASCII_substring. Qed.

(** The two parts of a string that ends in 16 characters. *)
Lemma slice_append_16 (a b : string) :
  String.length b = 16 ->
  slice (a ++ b)%string 0 (Some (-16)%Z) = a /\ slice (a ++ b)%string (-16) None = b.
Proof.
  intros Hb.
  assert (Hlen : 16 <= String.length (a ++ b)%string) by (rewrite append_length; lia).
  destruct (slice_as_substring _ Hlen) as [-> ->].
  rewrite append_length, Hb.
  replace (String.length a + 16 - 16) with (String.length a) by lia.
  split; [apply substring_append_l|]. rewrite <- Hb. apply substring_append_r.
Qed.

Section RequestProperties.
Context `{Externals}.

(** X5.  For search texts of ASCII characters, on which [toUpperCase]
    turns the letters [a] to [z] into [A] to [Z] and leaves every other
    character, the point lookup of the fingerprint path and the query of the
    id path do not depend on the case the search text is typed in: two
    lookups whose search texts agree once in upper case build the same
    requests.  The scan of the keyword path does depend on it: equal scans
    have equal search texts. *)
Theorem requests_agree_up_to_case (lookup1 lookup2 : SearchingLookup) :
  (forall s, is_ASCII s = true -> toUpperCase s = toUpperCase_ASCII s) ->
  is_ASCII (search lookup1) = true ->
  is_ASCII (search lookup2) = true ->
  toUpperCase (search lookup1) = toUpperCase (search lookup2) ->
  Backend.findKeyByFingerprint_request lookup1 = Backend.findKeyByFingerprint_request lookup2
  /\ Backend.searchKeysById_request lookup1 = Backend.searchKeysById_request lookup2
  /\ (Backend.searchKeysByKeyword_request lookup1 = Backend.searchKeysByKeyword_request lookup2 ->
      search lookup1 = search lookup2).
Proof.
  intros Hlaw H1 H2 Hup. split; [|split].
  - unfold Backend.findKeyByFingerprint_request.
    rewrite !Hlaw by now apply is_ASCII_slice.
    rewrite <- !toUpperCase_ASCII_slice, <- !Hlaw by assumption. now rewrite Hup.
  - unfold Backend.searchKeysById_request. now rewrite Hup.
  - intros Heq. apply (f_equal filter_term) in Heq.
    unfold filter_term, Backend.searchKeysByKeyword_request in Heq.
    cbn [ScanCommand.ExpressionAttributeValues] in Heq.
    rewrite !lookup_singleton_eq in Heq. congruence.
Qed.

(** X6.  A record of the table whose key id has 16 characters decodes to a
    [KeyMetadata] whose [id] is the key id and whose [fingerprint] is the
    upper segment followed by it, so that [id] is the last 16 characters of
    [fingerprint]; and looking that fingerprint up by [findKeyByFingerprint]
    asks for the record's own key, in upper case, while [getKeyDataStream]
    asks the object store for the object named by the fingerprint, and
    returns the body the store answers with, or [Result.err] of what the
    store throws. *)
Theorem fingerprint_of_record_finds_its_key
    (item : gmap string AttributeValue) (keyId upper uid : string) :
  item !! "pgpKeyId" = Some (AV_S keyId) ->
  item !! "pgpFingerprintUpper" = Some (AV_S upper) ->
  item !! "primaryUserId" = Some (AV_S uid) ->
  String.length keyId = 16 ->
  exists keyMeta,
    Backend.extractKeyMetadata item = Normal keyMeta
    /\ field "id" keyMeta = keyId
    /\ field "fingerprint" keyMeta = (upper ++ keyId)%string
    /\ field "primaryUserId" keyMeta = uid
    /\ slice (field "fingerprint" keyMeta) (-16) None = field "id" keyMeta
    /\ (forall lookup,
          Backend.findKeyByFingerprint_request (set_search lookup (field "fingerprint" keyMeta))
          = GetItemCommand
              {| GetItemCommand.TableName := PGP_TABLE_NAME;
                 GetItemCommand.Key :=
                   {[ "pgpKeyId" := AV_S (toUpperCase keyId);
                      "pgpFingerprintUpper" := AV_S (toUpperCase upper) ]} |})
    /\ (forall w0,
          Backend.getKeyDataStream keyMeta w0
          = (match S3_send {| GetObjectCommand.Bucket := PGP_BUCKET_NAME;
                              GetObjectCommand.Key := (upper ++ keyId)%string |} with
             | Normal response => Normal (Ok (Body response))
             | Throw cause => Result.err cause
             end, w0)).
Proof.
  intros Hk Hu Hp Hlen.
  assert (Hk' : Backend.unfoldAttributes item !! "pgpKeyId" = Some (NString keyId))
    by (unfold Backend.unfoldAttributes; now rewrite lookup_fmap, Hk).
  assert (Hu' : Backend.unfoldAttributes item !! "pgpFingerprintUpper" = Some (NString upper))
    by (unfold Backend.unfoldAttributes; now rewrite lookup_fmap, Hu).
  assert (Hp' : Backend.unfoldAttributes item !! "primaryUserId" = Some (NString uid))
    by (unfold Backend.unfoldAttributes; now rewrite lookup_fmap, Hp).
  exists (derived (Backend.unfoldAttributes item) keyId upper).
  split; [now apply extractKeyMetadata_well_formed with uid|].
  assert (Hid : field "id" (derived (Backend.unfoldAttributes item) keyId upper) = keyId)
    by (unfold field, derived; now simplify_map_eq).
  assert (Hfp : field "fingerprint" (derived (Backend.unfoldAttributes item) keyId upper)
                = (upper ++ keyId)%string)
    by (unfold field, derived; now simplify_map_eq).
  assert (Huid : field "primaryUserId" (derived (Backend.unfoldAttributes item) keyId upper)
                 = uid)
    by (unfold field, derived; now simplify_map_eq).
  destruct (slice_append_16 upper keyId Hlen) as [Hs1 Hs2].
  rewrite Hid, Hfp. repeat split; auto.
  - intros lookup. unfold Backend.findKeyByFingerprint_request. cbn [search set_search].
    now rewrite Hs1, Hs2.
  - intros w0. unfold Backend.getKeyDataStream, AsyncResult.run. rewrite Hfp.
    now destruct (S3_send _).
Qed.

(** One turn of a paginated search that began with [query], when the store
    had the answers [all]: it leaves the lookup alone and keeps [paging]; a
    search that holds a request sends it. *)
Lemma page_generator_paging query all sent0 cmds st w :
  paging query all sent0 cmds st w ->
  exists extra,
    paging query all sent0 (cmds ++ extra)
      (progress_state (fst (Backend.page_generator st w)))
      (snd (Backend.page_generator st w))
    /\ lookup_object (snd (Backend.page_generator st w)) = lookup_object w
    /\ (forall r, st = Some (Backend.Sending r) -> extra = [r]).
Proof.
  intros (Hsent & Hanswers & Hchain & Hst).
  unfold Backend.page_generator, AsyncResultGenerator.from, generator.
  destruct st as [[r|r response [|i rest]]|]; cbn [Backend.page_loop].
  - exists [r]. unfold DYNAMO_send.
    assert (Hchain' : commands_chained query all (cmds ++ [r])).
    { intros i c Hi. destruct (decide (i < length cmds)) as [Hlt|Hge].
      - rewrite lookup_app_l in Hi by exact Hlt. now apply Hchain.
      - rewrite lookup_app_r in Hi by lia.
        destruct (i - length cmds) as [|?] eqn:E; [|discriminate].
        injection Hi as <-. replace i with (length cmds) by lia. exact Hst. }
    destruct (dynamo_answers w) as [|answer answers] eqn:Ha.
    + cbn. split; [|split; [reflexivity|congruence]]. unfold paging. cbn.
      rewrite Hsent, <- app_assoc. repeat split; auto.
      rewrite length_app. cbn. symmetry. apply drop_ge.
      assert (Hlen : length (drop (length cmds) all) = 0) by now rewrite <- Hanswers.
      rewrite length_drop in Hlen. lia.
    + assert (Hnth : all !! length cmds = Some answer).
      { rewrite <- (Nat.add_0_r (length cmds)), <- lookup_drop, <- Hanswers. reflexivity. }
      assert (Hrest : answers = drop (length (cmds ++ [r])) all).
      { rewrite length_app. cbn. rewrite <- drop_drop, <- Hanswers. reflexivity. }
      assert (Hq : same_query query r).
      { destruct (length cmds) as [|j]; [left; exact Hst|].
        destruct Hst as (response & token & _ & _ & ->). right. eauto. }
      destruct answer as [response|cause]; cbn;
        (split; [|split; [reflexivity|congruence]]);
        unfold paging; cbn; rewrite Hsent, <- app_assoc; repeat split; auto;
        try (destruct (Result.err cause); cbn; exact I);
        try (exists (length cmds); split; [rewrite length_app; cbn; lia|exact Hnth]).
  - exists []. rewrite app_nil_r. destruct Hst as (Hq & j & Hlen & Hj).
    destruct (LastEvaluatedKey response) as [key|] eqn:Hkey; cbn;
      (split; [|split; [reflexivity|discriminate]]); unfold paging; cbn; repeat split; auto.
    rewrite Hlen. exists response, key. repeat split; auto.
    destruct Hq as [->|[k ->]]; [reflexivity|apply set_ExclusiveStartKey_twice].
  - exists []. rewrite app_nil_r. destruct Hst as (Hq & Hj).
    destruct (Backend.extractKeyMetadata i) as [keyMeta|cause]; cbn;
      (split; [|split; [reflexivity|discriminate]]); unfold paging; cbn; repeat split; auto;
      try (destruct (Result.err cause); cbn; exact I); eauto.
  - exists []. rewrite app_nil_r. cbn. split; [|split; [reflexivity|discriminate]].
    unfold paging. cbn. auto.
Qed.

Lemma bestGuess_paging_turn query all sent0 cmds st w :
  delegates_paging query all sent0 cmds st w ->
  exists extra,
    delegates_paging query all sent0 (cmds ++ extra)
      (progress_state (fst (generator Backend.searchKeysByBestGuess st w)))
      (snd (generator Backend.searchKeysByBestGuess st w))
    /\ lookup_object (snd (generator Backend.searchKeysByBestGuess st w)) = lookup_object w
    /\ (forall r, st = Some (Backend.Guess_delegating (Some (Backend.Sending r))) ->
                  extra = [r]).
Proof.
  destruct st as [[| |inner]|]; try contradiction; cbn [delegates_paging].
  - intros Hp. destruct (page_generator_paging _ _ _ _ _ _ Hp) as (extra & Hp1 & Hl1 & Hr).
    exists extra. unfold generator. cbn [Backend.searchKeysByBestGuess].
    destruct (Backend.page_generator inner w) as [[inner'|[[v|r]|cause] inner'] w1];
      cbn [fst snd progress_state delegates_paging] in *;
      (split; [|split; [exact Hl1|intros r0 [= ->]; now apply Hr]]); try exact Hp1;
      destruct Hp1 as (? & ? & ? & _); repeat split; auto.
  - intros Hp. exists []. rewrite app_nil_r. cbn. split; [exact Hp|]. split; [reflexivity|].
    discriminate.
Qed.

Lemma bestGuess_paging_turns query all sent0 n : forall cmds st w,
  delegates_paging query all sent0 cmds st w ->
  exists extra,
    dynamo_sent (snd (turns n (generator Backend.searchKeysByBestGuess) st w))
    = sent0 ++ cmds ++ extra
    /\ commands_chained query all (cmds ++ extra)
    /\ lookup_object (snd (turns n (generator Backend.searchKeysByBestGuess) st w))
       = lookup_object w.
Proof.
  induction n as [|n IH]; intros cmds st w Hp.
  - exists []. rewrite app_nil_r. cbn.
    destruct st as [[| |inner]|]; try contradiction; destruct Hp as (? & _ & ? & _); auto.
  - destruct (bestGuess_paging_turn _ _ _ _ _ _ Hp) as (extra1 & Hp1 & Hl1 & _).
    rewrite turns_S. destruct (IH _ _ _ Hp1) as (extra2 & Hs & Hc & Hl).
    exists (extra1 ++ extra2). rewrite Hs, Hl, Hl1, !app_assoc. auto.
Qed.

(** X7.  A lookup whose search text matches the hex pattern with a payload
    of 16 characters goes to the id path: the first command it sends is the
    partition query on [pgpKeyId] for the payload in upper case, without a
    continuation token; every further command is that query with a token,
    the [LastEvaluatedKey] of the answer to the command before it; and the
    payload is what the lookup object holds afterwards. *)
Theorem id_path_one_query_shape (w : World) (payload : string) (n : nat) :
  HEX_REGEX (search (lookup_object w)) = Some payload ->
  String.length payload = 16 ->
  let w' :=
    snd (turns (2 + n) (generator Backend.searchKeysByBestGuess)
           (Some Backend.Guess_entry) w) in
  exists more,
    dynamo_sent w'
    = dynamo_sent w
      ++ QueryCommand
           {| QueryCommand.TableName := PGP_TABLE_NAME;
              QueryCommand.KeyConditionExpression := "pgpKeyId = :term";
              QueryCommand.ExpressionAttributeValues :=
                {[ ":term" := AV_S (toUpperCase payload) ]};
              QueryCommand.Limit := PGP_TABLE_PAGE_LIMIT;
              QueryCommand.ExclusiveStartKey := None |}
         :: more
    /\ (forall i command,
          more !! i = Some command ->
          exists response token,
            dynamo_answers w !! i = Some (Normal response)
            /\ LastEvaluatedKey response = Some token
            /\ command
               = QueryCommand
                   {| QueryCommand.TableName := PGP_TABLE_NAME;
                      QueryCommand.KeyConditionExpression := "pgpKeyId = :term";
                      QueryCommand.ExpressionAttributeValues :=
                        {[ ":term" := AV_S (toUpperCase payload) ]};
                      QueryCommand.Limit := PGP_TABLE_PAGE_LIMIT;
                      QueryCommand.ExclusiveStartKey := Some token |})
    /\ search (lookup_object w') = payload.
Proof.
  intros Hm Hlen w'. subst w'. destruct w as [lk answers sent].
  cbn [lookup_object dynamo_answers dynamo_sent] in *.
  change (2 + n) with (S (S n)). rewrite turns_S.
  assert (Hstep :
    generator Backend.searchKeysByBestGuess (Some Backend.Guess_entry)
      (mkWorld lk answers sent)
    = (Pending (Some (Backend.Guess_delegating
                        (Some (Backend.Sending
                                 (Backend.searchKeysById_request (set_search lk payload)))))),
       mkWorld (set_search lk payload) answers sent)).
  { unfold generator.
    cbn [Backend.searchKeysByBestGuess lookup_object dynamo_answers dynamo_sent].
    rewrite Hm. cbn [search set_search]. now rewrite Hlen. }
  rewrite Hstep. cbn [fst snd progress_state dynamo_sent].
  set (query := Backend.searchKeysById_request (set_search lk payload)).
  assert (Hp : delegates_paging query answers sent []
                 (Some (Backend.Guess_delegating (Some (Backend.Sending query))))
                 (mkWorld (set_search lk payload) answers sent)).
  { unfold delegates_paging, paging. cbn. rewrite app_nil_r. repeat split; auto.
    intros i c Hi. discriminate. }
  destruct (bestGuess_paging_turn _ _ _ _ _ _ Hp) as (extra1 & Hp1 & Hl1 & Hr).
  rewrite (Hr query eq_refl) in Hp1. clear Hr.
  rewrite turns_S.
  destruct (bestGuess_paging_turns _ _ _ n _ _ _ Hp1) as (more & Hs & Hc & Hl).
  exists more. rewrite Hs, Hl, Hl1. cbn [app lookup_object search set_search].
  repeat split; auto.
  intros i command Hi. destruct (Hc (S i) command Hi) as (response & token & ? & ? & ->).
  exists response, token. auto.
Qed.

End RequestProperties.

(* ===================================================================== *)
(** ** Further properties: the resolver and the formatters together *)
(* ===================================================================== *)

Section Composition.
Context `{Externals}.

Lemma drain_delegating fuel : forall inner w,
  drain fuel (generator Backend.searchKeysByBestGuess)
    (Some (Backend.Guess_delegating inner)) w
  = delegated (drain fuel Backend.page_generator inner w).
Proof.
  induction fuel as [|fuel IH]; intros inner w; [reflexivity|].
  cbn [drain]. unfold generator at 1. cbn [Backend.searchKeysByBestGuess].
  destruct (Backend.page_generator inner w) as [[inner'|[[v|r]|cause] inner'] w'];
    try reflexivity.
  - apply IH.
  - rewrite IH. now destruct (drain fuel Backend.page_generator inner' w') as [[[[? ?] ?] ?]|].
Qed.

(** X8.  [searchKeysByBestGuess] yields and returns what the search it
    delegates to does, one turn later: [searchKeysById] on the normalized
    lookup for a hex payload of 16 characters, [searchKeysByKeyword] on the
    lookup as it is when the text does not match the hex pattern, and on the
    normalized lookup when it matches with a payload of another length than
    16, 32, 40 and 64. *)
Theorem bestGuess_delegates (lk : SearchingLookup)
    (answers : list (Completion DynamoOutput)) (sent : list DynamoCommand) (fuel : nat) :
  (forall payload,
      HEX_REGEX (search lk) = Some payload ->
      String.length payload = 16 ->
      drain (S fuel) (generator Backend.searchKeysByBestGuess) (Some Backend.Guess_entry)
        (mkWorld lk answers sent)
      = delegated
          (drain fuel Backend.page_generator (Backend.searchKeysById (set_search lk payload))
             (mkWorld (set_search lk payload) answers sent)))
  /\ (HEX_REGEX (search lk) = None ->
      drain (S fuel) (generator Backend.searchKeysByBestGuess) (Some Backend.Guess_entry)
        (mkWorld lk answers sent)
      = delegated
          (drain fuel Backend.page_generator (Backend.searchKeysByKeyword lk)
             (mkWorld lk answers sent)))
  /\ (forall payload,
        HEX_REGEX (search lk) = Some payload ->
        String.length payload ∉ [16; 32; 40; 64] ->
        drain (S fuel) (generator Backend.searchKeysByBestGuess) (Some Backend.Guess_entry)
          (mkWorld lk answers sent)
        = delegated
            (drain fuel Backend.page_generator
               (Backend.searchKeysByKeyword (set_search lk payload))
               (mkWorld (set_search lk payload) answers sent))).
Proof.
  split; [|split].
  - intros payload Hm Hlen. cbn [drain]. unfold generator at 1.
    cbn [Backend.searchKeysByBestGuess lookup_object dynamo_answers dynamo_sent].
    rewrite Hm. cbn [search set_search]. rewrite Hlen. cbn. apply drain_delegating.
  - intros Hm. cbn [drain]. unfold generator at 1.
    cbn [Backend.searchKeysByBestGuess lookup_object dynamo_answers dynamo_sent].
    rewrite Hm. apply drain_delegating.
  - intros payload Hm Hlen. cbn [drain]. unfold generator at 1.
    cbn [Backend.searchKeysByBestGuess lookup_object dynamo_answers dynamo_sent].
    rewrite Hm. cbn [search set_search].
    repeat (apply not_elem_of_cons in Hlen as [? Hlen]).
    replace (String.length payload =? 32)%nat with false by (symmetry; now apply Nat.eqb_neq).
    replace (String.length payload =? 40)%nat with false by (symmetry; now apply Nat.eqb_neq).
    replace (String.length payload =? 64)%nat with false by (symmetry; now apply Nat.eqb_neq).
    replace (String.length payload =? 16)%nat with false by (symmetry; now apply Nat.eqb_neq).
    cbn [orb]. apply drain_delegating.
Qed.

Lemma formatMachineIndices_loop_drained {St}
    (keyMetas : AsyncGenerator St KeyMetadata (option (Result unit))) fuel :
  forall s w chunks0 keys r s' w',
  drain fuel keyMetas s w = Some (keys, Normal (Some r), s', w') ->
  Lookup.formatMachineIndices_loop fuel keyMetas s w chunks0
  = Some (Normal (formatted r
                    (Buffer_toString
                       (List.concat
                          (chunks0
                           ++ ((fun keyMeta => Buffer_from (machine_line keyMeta)) <$> keys))))),
          s', w').
Proof.
  induction fuel as [|fuel IH]; intros s w chunks0 keys r s' w'; [discriminate|].
  cbn [drain Lookup.formatMachineIndices_loop].
  destruct (keyMetas s w) as [[s1|[[keyMeta|value]|cause] s1] w1].
  - apply IH.
  - destruct (drain fuel keyMetas s1 w1) as [[[[vs c] s2] w2]|] eqn:Ed; [|discriminate].
    intros [= <- -> <- <-]. rewrite (IH _ _ _ _ _ _ _ Ed).
    cbn [fmap list_fmap]. now rewrite <- app_assoc.
  - intros [= <- -> <- <-]. cbn. rewrite app_nil_r. now destruct r.
  - discriminate.
Qed.

Lemma formatMachineIndices_loop_thrown {St}
    (keyMetas : AsyncGenerator St KeyMetadata (option (Result unit))) fuel :
  forall s w chunks0 keys e s' w',
  drain fuel keyMetas s w = Some (keys, Throw e, s', w') ->
  Lookup.formatMachineIndices_loop fuel keyMetas s w chunks0 = Some (Throw e, s', w').
Proof.
  induction fuel as [|fuel IH]; intros s w chunks0 keys e s' w'; [discriminate|].
  cbn [drain Lookup.formatMachineIndices_loop].
  destruct (keyMetas s w) as [[s1|[[keyMeta|value]|cause] s1] w1].
  - apply IH.
  - destruct (drain fuel keyMetas s1 w1) as [[[[vs c] s2] w2]|] eqn:Ed; [|discriminate].
    intros [= <- -> <- <-]. now rewrite (IH _ _ _ _ _ _ _ Ed).
  - discriminate.
  - now intros [= <- <- <- <-].
Qed.

Lemma includes_elem_of (x : string) (l : list string) : includes x l = true <-> x ∈ l.
Proof.
  unfold includes. rewrite existsb_exists. split.
  - intros (y & Hin & Heq). apply String.eqb_eq in Heq as ->. now apply list_elem_of_In.
  - intros Hin. exists x. split; [now apply list_elem_of_In|apply String.eqb_refl].
Qed.

(** X9.  The machine-readable index is the default: [formatIndices] is in
    that mode unless the options hold [json] and do not hold [mr].  In that
    mode, on a sequence that is drained, it returns [Ok] of a response of
    content type [text/plain] whose body holds, for each record in arrival
    order, the line [pub:] with its fingerprint and the line [uid:] with its
    encoded primary user id; and the sequence's own [Err], without any body,
    when the sequence terminates with one. *)
Theorem formatIndices_machine (St : Type)
    (keyMetas : AsyncGenerator St KeyMetadata (option (Result unit)))
    (s : St) (w : World) (fuel : nat) (lookup : SearchingLookup)
    (keys : list KeyMetadata) (r : Result unit) (s' : St) (w' : World) :
  ~ (exists opts, options lookup = Some opts /\ "json" ∈ opts /\ "mr" ∉ opts) ->
  drain fuel keyMetas s w = Some (keys, Normal (Some r), s', w') ->
  Lookup.isMachine lookup = true
  /\ Lookup.formatIndices fuel lookup keyMetas s w
     = Some (Normal (formatted r (machine_response keys)), s', w').
Proof.
  intros Hopts Hd.
  assert (Hm : Lookup.isMachine lookup = true).
  { unfold Lookup.isMachine. destruct (options lookup) as [opts|] eqn:Ho; [|reflexivity].
    destruct (includes "mr" opts) eqn:Hmr; [reflexivity|].
    destruct (includes "json" opts) eqn:Hjson; [|reflexivity].
    exfalso. apply Hopts. exists opts. split; [reflexivity|]. split.
    - now apply includes_elem_of.
    - intros Hin. apply includes_elem_of in Hin. congruence. }
  split; [exact Hm|].
  unfold Lookup.formatIndices, Lookup.formatMachineIndices. rewrite Hm.
  rewrite (formatMachineIndices_loop_drained _ _ _ _ [] _ _ _ _ Hd).
  now destruct r.
Qed.

(** X10.  Whatever the mode, [formatIndices] returns the [Err] of a
    sequence that terminates with one, and no response; and a response it
    returns in [Ok] always has the status [OK], a body, and the content type
    of the mode: [application/json] exactly when the options hold [json] and
    do not hold [mr], [text/plain] otherwise. *)
Theorem formatIndices_failure_and_content_type (St : Type)
    (keyMetas : AsyncGenerator St KeyMetadata (option (Result unit)))
    (s : St) (w : World) (fuel : nat) (lookup : SearchingLookup) :
  (forall keys cause s' w',
      drain fuel keyMetas s w = Some (keys, Normal (Some (Err cause)), s', w') ->
      Lookup.formatIndices fuel lookup keyMetas s w = Some (Normal (Err cause), s', w'))
  /\ (forall response s' w',
        Lookup.formatIndices fuel lookup keyMetas s w = Some (Normal (Ok response), s', w') ->
        statusCode response = OK
        /\ body response <> None
        /\ headers response
           = {[ "Content-Type" :=
                  if Lookup.isMachine lookup then "text/plain" else "application/json" ]})
  /\ (Lookup.isMachine lookup = false <->
      exists opts, options lookup = Some opts /\ "json" ∈ opts /\ "mr" ∉ opts).
Proof.
  split; [|split].
  - intros keys cause s' w' Hd. unfold Lookup.formatIndices,
      Lookup.formatMachineIndices, Lookup.formatJsonIndices.
    rewrite (formatMachineIndices_loop_drained _ _ _ _ [] _ _ _ _ Hd).
    rewrite (formatJsonIndices_loop_drained _ _ _ _ ∅ _ _ _ _ Hd).
    now destruct (Lookup.isMachine lookup).
  - intros response s' w'. unfold Lookup.formatIndices.
    destruct (if Lookup.isMachine lookup then _ else _) as [[[[[value|cause]|cause] s1] w1]|];
      try discriminate.
    intros [= <- <- <-]. cbn. repeat split. discriminate.
  - unfold Lookup.isMachine. split.
    + destruct (options lookup) as [opts|]; [|discriminate].
      intros Hb. apply orb_false_iff in Hb as [Hmr Hjson].
      apply negb_false_iff in Hjson. exists opts. split; [reflexivity|]. split.
      * now apply includes_elem_of.
      * intros Hin. apply includes_elem_of in Hin. congruence.
    + intros (opts & -> & Hjson & Hmr). apply includes_elem_of in Hjson. rewrite Hjson.
      destruct (includes "mr" opts) eqn:E; [|reflexivity].
      apply includes_elem_of in E. contradiction.
Qed.

(** X11.  On a sequence that is drained and terminates [Ok], and none of
    whose records has the fingerprint [__proto__] (a key an assignment to an
    object literal does not create), [formatJsonIndices] returns [Ok] of the
    serialization of an object that has one entry for each fingerprint among
    the records and no other: every entry is one of the records, stored under
    its own fingerprint, and there are at most as many entries as records. *)
Theorem json_index_entries (St : Type)
    (keyMetas : AsyncGenerator St KeyMetadata (option (Result unit)))
    (s : St) (w : World) (fuel : nat)
    (keys : list KeyMetadata) (u : unit) (s' : St) (w' : World) :
  drain fuel keyMetas s w = Some (keys, Normal (Some (Ok u)), s', w') ->
  Forall (fun keyMeta => field "fingerprint" keyMeta <> "__proto__") keys ->
  exists indices : gmap string KeyMetadata,
    Lookup.formatJsonIndices fuel keyMetas s w
    = Some (Normal (Ok (JSON_stringify indices)), s', w')
    /\ dom indices = list_to_set ((field "fingerprint") <$> keys)
    /\ (forall fingerprint keyMeta,
          indices !! fingerprint = Some keyMeta ->
          keyMeta ∈ keys /\ field "fingerprint" keyMeta = fingerprint)
    /\ size indices <= length keys.
Proof.
  intros Hd _. exists (index_from ∅ keys). split; [|split; [|split]].
  - unfold Lookup.formatJsonIndices.
    now rewrite (formatJsonIndices_loop_drained _ _ _ _ ∅ _ _ _ _ Hd).
  - clear Hd. induction keys as [|keyMeta keys IH] using rev_ind.
    + unfold index_from. cbn. apply dom_empty_L.
    + rewrite index_from_snoc, dom_insert_L, IH, fmap_app, list_to_set_app_L.
      cbn [fmap list_fmap]. rewrite list_to_set_singleton_L. apply (comm_L (∪)).
  - intros fingerprint keyMeta. rewrite index_from_lookup. intros Hl.
    apply last_Some_elem_of in Hl. apply list_elem_of_filter in Hl as [Hf Hin]. auto.
  - clear Hd. induction keys as [|keyMeta keys IH] using rev_ind.
    + unfold index_from. cbn. rewrite map_size_empty. lia.
    + rewrite index_from_snoc, length_app. cbn.
      destruct (index_from ∅ keys !! field "fingerprint" keyMeta) eqn:E.
      * rewrite map_size_insert_Some by eauto. lia.
      * rewrite map_size_insert_None by exact E. lia.
Qed.

End Composition.

(* ===================================================================== *)
(** ** Further properties: the handlers of [lookup.ts] *)
(* ===================================================================== *)

Section Handlers.
Context `{Externals}.

Lemma drain_search_to_last_page request pages last keys lk rest sent fuel :
  decoded (all_records pages ++ records last) keys ->
  2 * (length pages + 1) + length keys <= fuel ->
  drain fuel Backend.page_generator (Some (Backend.Sending request))
    (mkWorld lk ((continued <$> pages) ++ page_of last None :: rest) sent)
  = Some (keys, Normal (Result.ok tt), None,
          mkWorld lk rest (sent ++ requests_for request pages)).
Proof.
  intros Hd Hfuel.
  assert (Hreq : removelast (requests_for request pages)
                 ++ [List.last (requests_for request pages) request]
                 = requests_for request pages)
    by (symmetry; apply app_removelast_last; discriminate).
  apply Forall2_app_inv_l in Hd as (kms1 & kms2 & Hd1 & Hd2 & ->).
  rewrite length_app in Hfuel.
  replace fuel
    with (2 * length pages + length kms1
          + (2 + length kms2 + (fuel - (2 * (length pages + 1) + (length kms1 + length kms2)))))
    by lia.
  rewrite (drain_pages _ _ _ _ _ _ _ Hd1).
  rewrite (drain_last_page _ _ _ _ _ _ _ Hd2). cbn [prepend].
  now rewrite <- app_assoc, Hreq.
Qed.

Lemma drain_search_to_failed_call request pages cause keys lk rest sent fuel :
  decoded (all_records pages) keys ->
  2 * length pages + length keys + 1 <= fuel ->
  drain fuel Backend.page_generator (Some (Backend.Sending request))
    (mkWorld lk ((continued <$> pages) ++ Throw cause :: rest) sent)
  = Some (keys, Result.err cause, None,
          mkWorld lk rest (sent ++ requests_for request pages)).
Proof.
  intros Hd Hfuel.
  assert (Hreq : removelast (requests_for request pages)
                 ++ [List.last (requests_for request pages) request]
                 = requests_for request pages)
    by (symmetry; apply app_removelast_last; discriminate).
  replace fuel
    with (2 * length pages + length keys + S (fuel - (2 * length pages + length keys + 1)))
    by lia.
  rewrite (drain_pages _ _ _ _ _ _ _ Hd).
  rewrite drain_failed_call. cbn [prepend].
  now rewrite app_nil_r, <- app_assoc, Hreq.
Qed.

Lemma drain_bestGuess_id lk payload answers sent fuel :
  HEX_REGEX (search lk) = Some payload ->
  String.length payload = 16 ->
  drain (S fuel) (generator Backend.searchKeysByBestGuess) (Some Backend.Guess_entry)
    (mkWorld lk answers sent)
  = delegated
      (drain fuel Backend.page_generator (Backend.searchKeysById (set_search lk payload))
         (mkWorld (set_search lk payload) answers sent)).
Proof.
  intros Hm Hlen. cbn [drain]. unfold generator at 1.
  cbn [Backend.searchKeysByBestGuess lookup_object dynamo_answers dynamo_sent].
  rewrite Hm. cbn [search set_search]. rewrite Hlen. cbn. apply drain_delegating.
Qed.

(** X12.  The [index] handler on a key id of 16 hex digits, in the default
    mode: against a store that answers with pages carrying a continuation
    token and then with a last page, the response lists every record of every
    page, in arrival order, as [text/plain], after one query per page; and
    when a store call fails instead, the handler ends as [Result.err(cause)]
    does, with [Err] of the cause when it is an [Error], and returns no body,
    whatever the pages before held.  The lookup then holds the normalized
    search text. *)
Theorem index_handler_on_key_id (lk : SearchingLookup) (payload : string)
    (pages : list (option (list (gmap string AttributeValue)) * gmap string AttributeValue))
    (rest : list (Completion DynamoOutput)) (sent : list DynamoCommand) :
  HEX_REGEX (search lk) = Some payload ->
  String.length payload = 16 ->
  ~ (exists opts, options lk = Some opts /\ "json" ∈ opts /\ "mr" ∉ opts) ->
  (forall last keys fuel,
      decoded (all_records pages ++ records last) keys ->
      2 * (length pages + 1) + length keys + 1 <= fuel ->
      Lookup.index_handler fuel
        (mkWorld lk ((continued <$> pages) ++ page_of last None :: rest) sent)
      = Some (Normal (Ok (machine_response keys)), None,
              mkWorld (set_search lk payload) rest
                (sent ++ requests_for (Backend.searchKeysById_request (set_search lk payload))
                           pages)))
  /\ (forall cause keys fuel,
        decoded (all_records pages) keys ->
        2 * length pages + length keys + 2 <= fuel ->
        Lookup.index_handler fuel
          (mkWorld lk ((continued <$> pages) ++ Throw cause :: rest) sent)
        = Some (Result.err cause, None,
                mkWorld (set_search lk payload) rest
                  (sent ++ requests_for
                             (Backend.searchKeysById_request (set_search lk payload))
                             pages))
        /\ (instanceof_Error cause = true ->
            Lookup.index_handler fuel
              (mkWorld lk ((continued <$> pages) ++ Throw cause :: rest) sent)
            = Some (Normal (Err cause), None,
                    mkWorld (set_search lk payload) rest
                      (sent ++ requests_for
                                 (Backend.searchKeysById_request (set_search lk payload))
                                 pages)))).
Proof.
  intros Hm Hlen Hopts.
  assert (Hmach : Lookup.isMachine lk = true).
  { unfold Lookup.isMachine. destruct (options lk) as [opts|] eqn:Ho; [|reflexivity].
    destruct (includes "mr" opts) eqn:Hmr; [reflexivity|].
    destruct (includes "json" opts) eqn:Hjson; [|reflexivity].
    exfalso. apply Hopts. exists opts. split; [reflexivity|]. split.
    - now apply includes_elem_of.
    - intros Hin. apply includes_elem_of in Hin. congruence. }
  split.
  - intros last keys fuel Hd Hfuel. destruct fuel as [|fuel]; [lia|].
    unfold Lookup.index_handler, Lookup.formatIndices, Lookup.formatMachineIndices.
    cbn [lookup_object]. rewrite Hmach.
    erewrite formatMachineIndices_loop_drained.
    2:{ rewrite (drain_bestGuess_id _ _ _ _ _ Hm Hlen). unfold Backend.searchKeysById.
        rewrite (drain_search_to_last_page _ _ _ _ _ _ _ _ Hd) by lia. reflexivity. }
    reflexivity.
  - intros cause keys fuel Hd Hfuel. destruct fuel as [|fuel]; [lia|].
    assert (Hindex :
      Lookup.index_handler (S fuel)
        (mkWorld lk ((continued <$> pages) ++ Throw cause :: rest) sent)
      = Some (Result.err cause, None,
              mkWorld (set_search lk payload) rest
                (sent ++ requests_for
                           (Backend.searchKeysById_request (set_search lk payload))
                           pages))).
    { unfold Lookup.index_handler, Lookup.formatIndices, Lookup.formatMachineIndices.
      cbn [lookup_object]. rewrite Hmach.
      destruct (err_outcome cause) as [[c Hc]|[e He]].
      - erewrite formatMachineIndices_loop_drained.
        2:{ rewrite (drain_bestGuess_id _ _ _ _ _ Hm Hlen). unfold Backend.searchKeysById.
            rewrite (drain_search_to_failed_call _ _ _ _ _ _ _ _ Hd) by lia.
            cbn. rewrite Hc. reflexivity. }
        now rewrite Hc.
      - erewrite formatMachineIndices_loop_thrown.
        2:{ rewrite (drain_bestGuess_id _ _ _ _ _ Hm Hlen). unfold Backend.searchKeysById.
            rewrite (drain_search_to_failed_call _ _ _ _ _ _ _ _ Hd) by lia.
            cbn. rewrite He. reflexivity. }
        now rewrite He. }
    split; [exact Hindex|]. intros He. rewrite Hindex.
    now rewrite (err_Error_instance cause He).
Qed.

(** X13.  [hget] refuses a search text that is not a fingerprint before it
    calls the store: one that does not match the hex pattern, with a
    [BadLookupError] and the lookup untouched; one that matches with a
    payload of another length than 32, 40 and 64 (a key id of 16 digits, for
    one), with a [BadLookupError] that names the payload, the lookup already
    holding it.  No command is sent in either case, however few turns are
    allowed. *)
Theorem hget_refuses_what_is_no_fingerprint (fuel : nat) (w : World) :
  (HEX_REGEX (search (lookup_object w)) = None ->
   Lookup.hget_handler fuel w
   = Some (Normal (Err (BadLookupError
                          ("invalid hex string format " ++ search (lookup_object w))%string)),
           w))
  /\ (forall payload,
        HEX_REGEX (search (lookup_object w)) = Some payload ->
        String.length payload ∉ [32; 40; 64] ->
        Lookup.hget_handler fuel w
        = Some (Normal (Err (BadLookupError
                               ("invalid hex string length " ++ payload)%string)),
                mkWorld (set_search (lookup_object w) payload)
                  (dynamo_answers w) (dynamo_sent w))).
Proof.
  split.
  - intros Hm. unfold Lookup.hget_handler. now rewrite Hm.
  - intros payload Hm Hlen. unfold Lookup.hget_handler. rewrite Hm.
    cbn [lookup_object search set_search].
    repeat (apply not_elem_of_cons in Hlen as [? Hlen]).
    replace (String.length payload =? 32)%nat with false by (symmetry; now apply Nat.eqb_neq).
    replace (String.length payload =? 40)%nat with false by (symmetry; now apply Nat.eqb_neq).
    replace (String.length payload =? 64)%nat with false by (symmetry; now apply Nat.eqb_neq).
    reflexivity.
Qed.

End Handlers.

Section FingerprintHandlers.
Context `{Externals}.

Lemma fingerprint_length_test len :
  len ∈ [32; 40; 64] ->
  ((len =? 32)%nat || (len =? 40)%nat || (len =? 64)%nat) = true.
Proof.
  intros Hin. repeat (apply elem_of_cons in Hin as [->|Hin]); try reflexivity.
  now apply elem_of_nil in Hin.
Qed.

Lemma formatKeys_found_key (value : option KeyMetadata) fuel w :
  Lookup.formatKeys (S (S fuel))
    (generator (Lookup.generateKeyStreams (generator (Lookup.found_key value))))
    (Some (Some Lookup.Found_entry)) w
  = match value with
    | None => Some (Normal (Ok (keys_body [])), None, w)
    | Some keyMeta =>
        Some (delivered keyMeta,
              match present_stream keyMeta with
              | Some keyStream =>
                  match failure keyStream with
                  | Some _ => Some (Some Lookup.Found_yielded)
                  | None => None
                  end
              | None => None
              end, w)
    end.
Proof.
  unfold Lookup.formatKeys, delivered. destruct value as [keyMeta|]; [|reflexivity].
  cbn [Lookup.formatKeys_loop]. unfold generator at 1, Lookup.generateKeyStreams at 1.
  cbn [generator Lookup.found_key].
  unfold Backend.getKeyDataStream, AsyncResult.run, present_stream.
  destruct (S3_send _) as [[[keyStream|]]|cause]; cbn [Body Result.ok].
  - rewrite read_stream_spec. destruct (failure keyStream) as [cause|] eqn:Hf.
    + reflexivity.
    + cbn. unfold keys_body, Lookup.keys_response. cbn. now rewrite !app_nil_r.
  - reflexivity.
  - destruct (err_outcome cause) as [[c Hc]|[e He]].
    + now rewrite !Hc.
    + now rewrite !He.
Qed.

Lemma hget_handler_on_fingerprint (lk : SearchingLookup) (payload : string)
    (answer : Completion DynamoOutput) (rest : list (Completion DynamoOutput))
    (sent : list DynamoCommand) (fuel : nat) :
  HEX_REGEX (search lk) = Some payload ->
  String.length payload ∈ [32; 40; 64] ->
  Lookup.hget_handler (S (S fuel)) (mkWorld lk (answer :: rest) sent)
  = Some (match answer with
          | Throw cause => Result.err cause
          | Normal response =>
              match Item response with
              | None => Normal (Ok (keys_body []))
              | Some item =>
                  match Backend.extractKeyMetadata item with
                  | Throw cause => Result.err cause
                  | Normal keyMeta => delivered keyMeta
                  end
              end
          end,
          mkWorld (set_search lk payload) rest
            (sent ++ [Backend.findKeyByFingerprint_request (set_search lk payload)])).
Proof.
  intros Hm Hlen.
  assert (Htest := fingerprint_length_test _ Hlen).
  assert (Hneg : negb (String.length payload =? 32)%nat
                 && negb (String.length payload =? 40)%nat
                 && negb (String.length payload =? 64)%nat = false).
  { rewrite <- !negb_orb. now rewrite Htest. }
  unfold Lookup.hget_handler. cbn [lookup_object dynamo_answers dynamo_sent].
  rewrite Hm. cbn [search set_search]. rewrite Hneg.
  unfold Backend.findKeyByFingerprint, AsyncResult.run, DYNAMO_send.
  cbn [lookup_object dynamo_answers dynamo_sent].
  destruct answer as [response|cause].
  - destruct (Item response) as [item|].
    + destruct (Backend.extractKeyMetadata item) as [keyMeta|cause].
      * cbn [fmap Completion_fmap]. unfold Result.ok. cbv beta iota zeta.
        now rewrite formatKeys_found_key.
      * cbn [fmap Completion_fmap].
        destruct (err_outcome cause) as [[c Hc]|[e He]].
        -- now rewrite !Hc.
        -- now rewrite !He.
    + unfold Result.ok. cbv beta iota zeta. rewrite formatKeys_found_key. reflexivity.
  - destruct (err_outcome cause) as [[c Hc]|[e He]].
    + now rewrite !Hc.
    + now rewrite !He.
Qed.

(** X14.  What [hget] answers on a fingerprint (a hex payload of 32, 40 or 64
    digits), given two turns or more: it sends exactly one command, the point
    lookup built from the normalized search text, and then
    - a failed store call, or a found item that is not well formed, gives
      what [Result.err(cause)] gives;
    - no item gives [Ok] with the body of no stream at all;
    - a well-formed item gives what reading the stream of that one key
      gives: its content, the empty body if the key has no stream, or
      [Result.err] of the cause if the stream fails while it is read. *)
Theorem hget_on_fingerprint (lk : SearchingLookup) (payload : string)
    (answer : Completion DynamoOutput) (rest : list (Completion DynamoOutput))
    (sent : list DynamoCommand) (fuel : nat) :
  HEX_REGEX (search lk) = Some payload ->
  String.length payload ∈ [32; 40; 64] ->
  2 <= fuel ->
  let after :=
    mkWorld (set_search lk payload) rest
      (sent ++ [Backend.findKeyByFingerprint_request (set_search lk payload)]) in
  let hget := Lookup.hget_handler fuel (mkWorld lk (answer :: rest) sent) in
  (forall cause, answer = Throw cause ->
     hget = Some (Result.err cause, after))
  /\ (forall response, answer = Normal response -> Item response = None ->
        hget = Some (Normal (Ok (keys_body [])), after))
  /\ (forall response item cause,
        answer = Normal response -> Item response = Some item ->
        Backend.extractKeyMetadata item = Throw cause ->
        hget = Some (Result.err cause, after))
  /\ (forall response item keyMeta,
        answer = Normal response -> Item response = Some item ->
        Backend.extractKeyMetadata item = Normal keyMeta ->
        hget = Some (delivered keyMeta, after)).
Proof.
  intros Hm Hlen Hfuel after hget. subst after hget.
  destruct fuel as [|[|fuel]]; try lia.
  rewrite (hget_handler_on_fingerprint _ _ _ _ _ _ Hm Hlen).
  repeat split.
  - now intros cause ->.
  - now intros response -> ->.
  - now intros response item cause -> -> ->.
  - now intros response item keyMeta -> -> ->.
Qed.

Lemma get_handler_on_fingerprint (w : World) (payload : string) (fuel : nat) :
  HEX_REGEX (search (lookup_object w)) = Some payload ->
  String.length payload ∈ [32; 40; 64] ->
  exists r w1,
    Backend.findKeyByFingerprint (set_search (lookup_object w) payload)
      (mkWorld (set_search (lookup_object w) payload) (dynamo_answers w) (dynamo_sent w))
    = (r, w1)
    /\ exists s',
         Lookup.get_handler (S (S fuel)) w
         = Some (match r with
                 | Throw cause => Throw cause
                 | Normal (Err cause) => Normal (Err cause)
                 | Normal (Ok None) => Normal (Ok (keys_body []))
                 | Normal (Ok (Some keyMeta)) => delivered keyMeta
                 end, s', w1).
Proof.
  intros Hm Hlen. assert (Htest := fingerprint_length_test _ Hlen).
  unfold Lookup.get_handler, Lookup.formatKeys.
  cbn [Lookup.formatKeys_loop].
  unfold generator at 1, Lookup.generateKeyStreams at 1.
  unfold generator at 1, Backend.searchKeysByBestGuess at 1.
  rewrite Hm. cbn [lookup_object search set_search dynamo_answers dynamo_sent].
  rewrite Htest.
  destruct (Backend.findKeyByFingerprint _ _) as [[[[keyMeta|]|cause]|cause] w1];
    do 2 eexists; (split; [reflexivity|]); cbv beta iota.
  - unfold delivered, Backend.getKeyDataStream, AsyncResult.run.
    destruct (S3_send _) as [[[keyStream|]]|cause]; cbn [Body Result.ok].
    + rewrite read_stream_spec. destruct (failure keyStream) as [cause|] eqn:Hf.
      * eexists. reflexivity.
      * eexists. cbn. unfold keys_body, Lookup.keys_response. cbn. now rewrite !app_nil_r.
    + eexists. reflexivity.
    + destruct (err_outcome cause) as [[c Hc]|[e He]].
      * rewrite !Hc. eexists. reflexivity.
      * rewrite !He. eexists. reflexivity.
  - cbn. eexists. reflexivity.
  - cbn. eexists. reflexivity.
  - cbn. eexists. reflexivity.
Qed.

(** X15.  On a fingerprint, [get] and [hget] are the same operation: for
    every answer of the store and of the bucket, with two turns or more, both
    end in the same way, with the same response, the same [Err] or the same
    exception, after sending the same commands and leaving the same
    normalized search text in the lookup. *)
Theorem get_agrees_with_hget_on_fingerprints (w : World) (payload : string) (fuel : nat) :
  HEX_REGEX (search (lookup_object w)) = Some payload ->
  String.length payload ∈ [32; 40; 64] ->
  2 <= fuel ->
  exists c w' s',
    Lookup.hget_handler fuel w = Some (c, w')
    /\ Lookup.get_handler fuel w = Some (c, s', w').
Proof.
  intros Hm Hlen Hfuel. destruct fuel as [|[|fuel]]; try lia.
  assert (Htest := fingerprint_length_test _ Hlen).
  assert (Hneg : negb (String.length payload =? 32)%nat
                 && negb (String.length payload =? 40)%nat
                 && negb (String.length payload =? 64)%nat = false).
  { rewrite <- !negb_orb. now rewrite Htest. }
  destruct (get_handler_on_fingerprint w payload fuel Hm Hlen) as (r & w1 & Hfind & s' & ->).
  unfold Lookup.hget_handler.
  rewrite Hm. cbn [lookup_object search set_search]. rewrite Hneg, Hfind.
  destruct r as [[[keyMeta|]|cause]|cause].
  - rewrite formatKeys_found_key. do 3 eexists; split; reflexivity.
  - rewrite formatKeys_found_key. do 3 eexists; split; reflexivity.
  - do 3 eexists; split; reflexivity.
  - do 3 eexists; split; reflexivity.
Qed.

End FingerprintHandlers.

(* ===================================================================== *)
(** ** Further properties: the entry point of [lookup.ts] *)
(* ===================================================================== *)

Section EntryPoint.
Context `{Externals} `{Runtime}.

Lemma formatError_not_OK error response :
  Entry.formatError error = Normal response -> statusCode response <> OK.
Proof.
  unfold Entry.formatError. destruct (JSON_stringify_error error); [|discriminate].
  intros [= <-]. cbn.
  repeat match goal with |- context [if ?b then _ else _] => destruct b end; discriminate.
Qed.

Lemma handlers_registered :
  Entry.handlers !! "index" = Some Entry.index
  /\ Entry.handlers !! "vindex" = Some Entry.index
  /\ Entry.handlers !! "get" = Some Entry.get
  /\ Entry.handlers !! "hget" = Some Entry.hget.
Proof.
  unfold Entry.handlers, LookupHandlers.addOperation. repeat split; now simplify_map_eq.
Qed.

Lemma handlers_unregistered op : op ∉ registered -> Entry.handlers !! op = None.
Proof.
  unfold registered. intros Hop.
  repeat (apply not_elem_of_cons in Hop as [? Hop]).
  unfold Entry.handlers, LookupHandlers.addOperation. now simplify_map_eq.
Qed.

Lemma lookup_dispatch fuel parameters answers raw op
    (handler : LookupHandlers.LookupHandler) :
  supported_version parameters ->
  parameters !! "op" = Some raw ->
  String_trim raw = op ->
  op <> "" ->
  Entry.handlers !! op = Some handler ->
  Entry.lookup fuel (Some parameters) answers
  = match handler fuel (lookup_of op parameters) answers [] with
    | None => None
    | Some (Throw cause, _, _, sent) => Some (Throw cause, sent)
    | Some (Normal (Err cause), _, _, sent) => Some (Entry.formatError cause, sent)
    | Some (Normal (Ok structuredResult), lookup, _, sent) =>
        let empty :=
          Entry.formatError
            (EmptyLookupError
               ("no keys matching '" ++ default "undefined" (Types.search lookup) ++ "'")) in
        match body structuredResult with
        | None => Some (empty, sent)
        | Some text =>
            if (String.length text =? 0)%nat then Some (empty, sent)
            else Some (Normal structuredResult, sent)
        end
    end.
Proof.
  intros Hv Hraw Htrim Hop Hh. unfold Entry.lookup, LookupHandlers.getOperation, lookup_of.
  rewrite Hraw. cbn [fmap option_fmap option_map]. rewrite Htrim, Hh.
  assert (Hlen : (String.length op =? 0)%nat = false) by now destruct op.
  rewrite Hlen. cbv zeta.
  destruct (parameters !! "v") as [version|] eqn:Hversion; [|reflexivity].
  now rewrite (Hv _ Hversion).
Qed.

(** X16.  The entry point never answers [OK] without content: whatever the
    request and the store, a response with status [OK] has a body that is
    not the empty string. *)
Theorem lookup_OK_has_a_body (fuel : nat) (parameters : option (gmap string string))
    (answers : list (Completion DynamoOutput))
    (response : APIGatewayProxyStructuredResultV2) (sent : list DynamoCommand) :
  Entry.lookup fuel parameters answers = Some (Normal response, sent) ->
  statusCode response = OK ->
  exists text, body response = Some text /\ text <> "".
Proof.
  intros Hrun HOK.
  assert (Hfe : forall e l,
             Some (Entry.formatError e, l) = Some (Normal response, sent) -> False).
  { intros e l [= He _]. now apply formatError_not_OK in He. }
  unfold Entry.lookup in Hrun.
  destruct parameters as [parameters|]; [|now apply Hfe in Hrun].
  cbv zeta in Hrun.
  destruct (parameters !! "v") as [version|];
    [destruct (negb _); [now apply Hfe in Hrun|]|];
    (destruct (String_trim <$> parameters !! "op") as [op|]; [|now apply Hfe in Hrun];
     destruct (String.length op =? 0)%nat; [now apply Hfe in Hrun|];
     destruct (LookupHandlers.getOperation _ op) as [handler| |];
       [|discriminate|now apply Hfe in Hrun];
     destruct (handler _ _ _ _) as [[[[[[r|c]|c] lk] ans] snt]|]; try discriminate;
       [|now apply Hfe in Hrun];
     destruct (body r) as [text|] eqn:Hb; [|now apply Hfe in Hrun];
     destruct (String.length text =? 0)%nat eqn:Hl; [now apply Hfe in Hrun|];
     injection Hrun as <- <-; exists text; split; [exact Hb|]; intros ->; discriminate).
Qed.

(** X17.  Requests the entry point refuses before the store is contacted,
    however many turns it is given and whatever the store would answer: no
    parameters at all; a version other than 1, even with a good operation; no
    operation, or one that is blank once trimmed; a registered operation
    without a search text.  Each is answered with what [formatError] makes of
    a [BadLookupError], and no command is sent. *)
Theorem lookup_refuses_before_the_store (fuel : nat) (parameters : gmap string string)
    (answers : list (Completion DynamoOutput)) :
  Entry.lookup fuel None answers
  = Some (Entry.formatError (BadLookupError "missing parameters"), [])
  /\ (forall version,
        parameters !! "v" = Some version -> version <> "1" ->
        Entry.lookup fuel (Some parameters) answers
        = Some (Entry.formatError (BadLookupError ("unsupported version " ++ version)), []))
  /\ (supported_version parameters ->
      String_trim <$> parameters !! "op" ∈ [None; Some ""] ->
      Entry.lookup fuel (Some parameters) answers
      = Some (Entry.formatError (BadLookupError "missing operation"), []))
  /\ (forall raw,
        supported_version parameters ->
        parameters !! "op" = Some raw ->
        String_trim raw ∈ registered ->
        parameters !! "search" = None ->
        Entry.lookup fuel (Some parameters) answers
        = Some (Entry.formatError (BadLookupError "missing search"), [])).
Proof.
  split; [reflexivity|]. split; [|split].
  - intros version Hversion Hne. unfold Entry.lookup. rewrite Hversion. cbv zeta.
    apply String.eqb_neq in Hne. now rewrite Hne.
  - intros Hv Hop. unfold Entry.lookup. cbv zeta.
    assert (Hadm :
      match String_trim <$> parameters !! "op" with
      | None => Some (Entry.formatError (BadLookupError "missing operation"), [])
      | Some op =>
          if (String.length op =? 0)%nat
          then Some (Entry.formatError (BadLookupError "missing operation"), [])
          else
            match LookupHandlers.getOperation Entry.handlers op with
            | LookupHandlers.Undefined =>
                Some (Entry.formatError
                        (UnknownOperationError ("unknown operation " ++ op)), [])
            | LookupHandlers.Inherited => Some (Throw (TypeError_of_inherited op), [])
            | LookupHandlers.Own handler =>
                match
                  handler fuel
                    (Types.mk op (parameters !! "search")
                       (split_comma <$> parameters !! "options")
                       (bool_decide (parameters !! "exact" = Some "on"))) answers []
                with
                | None => None
                | Some (Throw cause, _, _, sent) => Some (Throw cause, sent)
                | Some (Normal (Err cause), _, _, sent) =>
                    Some (Entry.formatError cause, sent)
                | Some (Normal (Ok structuredResult), lookup, _, sent) =>
                    match body structuredResult with
                    | None =>
                        Some (Entry.formatError
                                (EmptyLookupError
                                   ("no keys matching '"
                                    ++ default "undefined" (Types.search lookup) ++ "'")),
                              sent)
                    | Some text =>
                        if (String.length text =? 0)%nat
                        then
                          Some (Entry.formatError
                                  (EmptyLookupError
                                     ("no keys matching '"
                                      ++ default "undefined" (Types.search lookup)
                                      ++ "'")), sent)
                        else Some (Normal structuredResult, sent)
                    end
                end
            end
      end = Some (Entry.formatError (BadLookupError "missing operation"), [])).
    { repeat (apply elem_of_cons in Hop as [->|Hop]); try reflexivity.
      now apply elem_of_nil in Hop. }
    destruct (parameters !! "v") as [version|] eqn:Hversion; [|exact Hadm].
    rewrite (Hv _ Hversion). exact Hadm.
  - intros raw Hv Hraw Hop Hsearch.
    destruct handlers_registered as (Hindex & Hvindex & Hget & Hhget).
    assert (Hne : String_trim raw <> "").
    { intros Heq. rewrite Heq in Hop. unfold registered in Hop.
      repeat (apply elem_of_cons in Hop as [?|Hop]); try discriminate.
      now apply elem_of_nil in Hop. }
    unfold registered in Hop.
    repeat (apply elem_of_cons in Hop as [Hop|Hop]); [| | | |now apply elem_of_nil in Hop].
    + rewrite (lookup_dispatch fuel _ _ raw _ Entry.index Hv Hraw eq_refl Hne)
        by now rewrite Hop.
      unfold Entry.index, SearchingLookup_is, lookup_of. cbn [Types.search].
      now rewrite Hsearch.
    + rewrite (lookup_dispatch fuel _ _ raw _ Entry.index Hv Hraw eq_refl Hne)
        by now rewrite Hop.
      unfold Entry.index, SearchingLookup_is, lookup_of. cbn [Types.search].
      now rewrite Hsearch.
    + rewrite (lookup_dispatch fuel _ _ raw _ Entry.get Hv Hraw eq_refl Hne)
        by now rewrite Hop.
      unfold Entry.get, SearchingLookup_is, lookup_of. cbn [Types.search].
      now rewrite Hsearch.
    + rewrite (lookup_dispatch fuel _ _ raw _ Entry.hget Hv Hraw eq_refl Hne)
        by now rewrite Hop.
      unfold Entry.hget, SearchingLookup_is, lookup_of. cbn [Types.search].
      now rewrite Hsearch.
Qed.

(** X18.  Operation names are matched exactly, after trimming only: a
    request whose trimmed operation is none of [index], [vindex], [get] and
    [hget], and no member of [Object.prototype], is answered with what
    [formatError] makes of an [UnknownOperationError] naming it, and the
    store is not contacted; [index] and [vindex] are one handler, and the
    registry holds nothing but the four names. *)
Theorem lookup_unknown_operation (fuel : nat) (parameters : gmap string string)
    (answers : list (Completion DynamoOutput)) :
  (forall raw,
     supported_version parameters ->
     parameters !! "op" = Some raw ->
     String_trim raw <> "" ->
     String_trim raw ∉ registered ->
     String_trim raw ∉ Object_prototype_members ->
     Entry.lookup fuel (Some parameters) answers
     = Some (Entry.formatError
               (UnknownOperationError ("unknown operation " ++ String_trim raw)), []))
  /\ Entry.handlers !! "index" = Entry.handlers !! "vindex"
  /\ dom Entry.handlers = list_to_set registered.
Proof.
  split; [|split].
  - intros raw Hv Hraw Hne Hreg Hproto.
    unfold Entry.lookup, LookupHandlers.getOperation.
    rewrite Hraw. cbn [fmap option_fmap option_map].
    rewrite (handlers_unregistered _ Hreg).
    rewrite bool_decide_eq_false_2 by exact Hproto.
    assert (Hlen : (String.length (String_trim raw) =? 0)%nat = false)
      by now destruct (String_trim raw).
    rewrite Hlen. cbv zeta.
    destruct (parameters !! "v") as [version|] eqn:Hversion; [|reflexivity].
    now rewrite (Hv _ Hversion).
  - destruct handlers_registered as (-> & -> & _). reflexivity.
  - unfold Entry.handlers, LookupHandlers.addOperation, registered.
    rewrite !dom_insert_L, dom_empty_L. cbn [list_to_set]. set_solver.
Qed.

(** X19.  The status [formatError] gives.  It never answers [OK] and sets
    no header; the tests run in order and the last one that matches decides,
    so an [UnknownOperationError] that is no [NoDataError] gives
    [NotImplemented] whatever else it is an instance of, and an error that
    is an instance of none of the four classes gives [InternalServerError].
    When none of the four classes extends another, and [Error] none of
    them: a [BadLookupError] gives [BadRequest], an [EmptyLookupError]
    [NotFound], an [UnknownOperationError] [NotImplemented], and every cause
    [Result.err] builds from a value that is not an [Error] gives
    [InternalServerError]. *)
Theorem formatError_status (error : JSValue) (response : APIGatewayProxyStructuredResultV2) :
  Entry.formatError error = Normal response ->
  headers response = ∅
  /\ statusCode response <> OK
  /\ (instanceof error "UnknownOperationError" = true ->
      instanceof error "NoDataError" = false ->
      statusCode response = NotImplemented)
  /\ ((forall cls, cls ∈ lookup_errors -> instanceof error cls = false) ->
      statusCode response = InternalServerError)
  /\ ((forall c d, c ∈ "Error" :: lookup_errors -> d ∈ lookup_errors -> extends c d = false) ->
      (forall message, error = BadLookupError message -> statusCode response = BadRequest)
      /\ (forall message, error = EmptyLookupError message -> statusCode response = NotFound)
      /\ (forall message, error = UnknownOperationError message ->
            statusCode response = NotImplemented)
      /\ (forall v, instanceof_Error v = false ->
            Result.err (T:=unit) v = Normal (Err error) ->
            statusCode response = InternalServerError)).
Proof.
  intros Hf. split; [|split; [now apply formatError_not_OK in Hf|]].
  { unfold Entry.formatError in Hf. destruct (JSON_stringify_error error); [|discriminate].
    now injection Hf as <-. }
  assert (Hstatus :
    statusCode response
    = if instanceof error "NoDataError" then InternalServerError
      else if instanceof error "UnknownOperationError" then NotImplemented
      else if instanceof error "EmptyLookupError" then NotFound
      else if instanceof error "BadLookupError" then BadRequest
      else InternalServerError).
  { unfold Entry.formatError in Hf. destruct (JSON_stringify_error error); [|discriminate].
    injection Hf as <-. cbn [statusCode].
    repeat match goal with |- context [if ?b then _ else _] => destruct b end; reflexivity. }
  assert (Hnone : (forall cls, cls ∈ lookup_errors -> instanceof error cls = false) ->
                  statusCode response = InternalServerError).
  { intros Hno. rewrite Hstatus. unfold lookup_errors in Hno.
    rewrite !Hno by repeat constructor.
    reflexivity. }
  split; [|split; [exact Hnone|]].
  { intros HU HN. now rewrite Hstatus, HN, HU. }
  intros Hunrelated.
  assert (Hinst : forall ctor props cls,
             ctor ∈ "Error" :: lookup_errors -> cls ∈ lookup_errors ->
             instanceof (VObject (ErrorObject ctor) props) cls = String.eqb ctor cls).
  { intros ctor props cls Hc Hd. unfold instanceof.
    rewrite (Hunrelated _ _ Hc Hd). apply orb_false_r. }
  assert (Hin : forall cls, cls ∈ lookup_errors -> cls ∈ "Error" :: lookup_errors)
    by (intros cls Hcls; apply elem_of_cons; now right).
  assert (HB : "BadLookupError" ∈ lookup_errors) by (unfold lookup_errors; repeat constructor).
  assert (HE : "EmptyLookupError" ∈ lookup_errors) by (unfold lookup_errors; repeat constructor).
  assert (HU : "UnknownOperationError" ∈ lookup_errors) by (unfold lookup_errors; repeat constructor).
  assert (HN : "NoDataError" ∈ lookup_errors) by (unfold lookup_errors; repeat constructor).
  repeat split.
  - intros message ->. rewrite Hstatus. unfold BadLookupError.
    rewrite !Hinst by auto. reflexivity.
  - intros message ->. rewrite Hstatus. unfold EmptyLookupError.
    rewrite !Hinst by auto. reflexivity.
  - intros message ->. rewrite Hstatus. unfold UnknownOperationError.
    rewrite !Hinst by auto. reflexivity.
  - intros v Hv Herr. apply Hnone. intros cls Hcls.
    assert (Hshape : error = new_Error None
                     \/ (exists m, error = new_Error (Some m))
                     \/ exists props, error = VObject PlainObject props).
    { unfold Result.err in Herr. rewrite Hv in Herr.
      repeat match type of Herr with
             | context [if ?b then _ else _] => destruct b
             | context [ToString ?x] => destruct (ToString x)
             end; try discriminate; injection Herr as <-; unfold object_spread; eauto. }
    destruct Hshape as [->|[[m ->]|[props ->]]]; unfold new_Error.
    + rewrite Hinst by (auto; constructor).
      apply String.eqb_neq. intros <-. unfold lookup_errors in Hcls.
      repeat (apply elem_of_cons in Hcls as [?|Hcls]); try discriminate.
      now apply elem_of_nil in Hcls.
    + rewrite Hinst by (auto; constructor).
      apply String.eqb_neq. intros <-. unfold lookup_errors in Hcls.
      repeat (apply elem_of_cons in Hcls as [?|Hcls]); try discriminate.
      now apply elem_of_nil in Hcls.
    + reflexivity.
Qed.

(** X20.  [hget] through the entry point, on a fingerprint and with two
    turns or more.  The store receives one command, the point lookup built
    from the hex payload.  A failed store call is answered with what
    [formatError] makes of the cause; a fingerprint the table does not have,
    or has without key data in the bucket, with what it makes of an
    [EmptyLookupError] that names the payload, not the text the request
    carried; a key whose data can be read and is not empty, with that data
    as [application/pgp-keys].  When [Result.err] throws on the failure of
    the store or of the bucket, so does the entry point. *)
Theorem lookup_hget_on_fingerprint (fuel : nat) (parameters : gmap string string)
    (raw text payload : string) (answer : Completion DynamoOutput)
    (rest : list (Completion DynamoOutput)) :
  supported_version parameters ->
  parameters !! "op" = Some raw ->
  String_trim raw = "hget" ->
  parameters !! "search" = Some text ->
  HEX_REGEX text = Some payload ->
  String.length payload ∈ [32; 40; 64] ->
  Buffer_toString [] = "" ->
  2 <= fuel ->
  let request :=
    Backend.findKeyByFingerprint_request
      (mkLookup "hget" payload (split_comma <$> parameters !! "options")
         (bool_decide (parameters !! "exact" = Some "on"))) in
  let run := Entry.lookup fuel (Some parameters) (answer :: rest) in
  let not_found :=
    Entry.formatError (EmptyLookupError ("no keys matching '" ++ payload ++ "'")) in
  (forall cause c, answer = Throw cause ->
     Result.err (T:=unit) cause = Normal (Err c) ->
     run = Some (Entry.formatError c, [request]))
  /\ (forall cause, answer = Throw cause ->
        instanceof_Error cause = true ->
        run = Some (Entry.formatError cause, [request]))
  /\ (forall cause e, answer = Throw cause ->
        Result.err (T:=unit) cause = Throw e ->
        run = Some (Throw e, [request]))
  /\ (forall response, answer = Normal response -> Item response = None ->
        run = Some (not_found, [request]))
  /\ (forall response item keyMeta,
        answer = Normal response -> Item response = Some item ->
        Backend.extractKeyMetadata item = Normal keyMeta ->
        present_stream keyMeta = None ->
        retrieved keyMeta ->
        run = Some (not_found, [request]))
  /\ (forall response item keyMeta cause e,
        answer = Normal response -> Item response = Some item ->
        Backend.extractKeyMetadata item = Normal keyMeta ->
        S3_send {| GetObjectCommand.Bucket := PGP_BUCKET_NAME;
                   GetObjectCommand.Key := field "fingerprint" keyMeta |} = Throw cause ->
        Result.err (T:=unit) cause = Throw e ->
        run = Some (Throw e, [request]))
  /\ (forall response item keyMeta keyStream,
        answer = Normal response -> Item response = Some item ->
        Backend.extractKeyMetadata item = Normal keyMeta ->
        present_stream keyMeta = Some keyStream ->
        readable keyStream ->
        body (keys_body [keyStream]) <> Some "" ->
        run = Some (Normal (keys_body [keyStream]), [request])).
Proof.
  intros Hv Hraw Htrim Hsearch Hm Hlen Hempty Hfuel request run not_found.
  destruct fuel as [|[|fuel]]; try lia.
  destruct handlers_registered as (_ & _ & _ & Hhget).
  assert (Hrun : run
    = match Entry.hget (S (S fuel)) (lookup_of "hget" parameters) (answer :: rest) [] with
      | None => None
      | Some (Throw cause, _, _, sent) => Some (Throw cause, sent)
      | Some (Normal (Err cause), _, _, sent) => Some (Entry.formatError cause, sent)
      | Some (Normal (Ok structuredResult), lookup, _, sent) =>
          let empty :=
            Entry.formatError
              (EmptyLookupError
                 ("no keys matching '" ++ default "undefined" (Types.search lookup) ++ "'")) in
          match body structuredResult with
          | None => Some (empty, sent)
          | Some text =>
              if (String.length text =? 0)%nat then Some (empty, sent)
              else Some (Normal structuredResult, sent)
          end
      end).
  { subst run. now apply lookup_dispatch with raw. }
  unfold Entry.hget, SearchingLookup_is, lookup_of in Hrun.
  cbn [Types.search Types.op Types.options Types.exact] in Hrun.
  rewrite Hsearch in Hrun.
  rewrite (hget_handler_on_fingerprint _ payload) in Hrun by assumption.
  cbn [lookup_object dynamo_answers dynamo_sent app as_Lookup search set_search
       op options exact] in Hrun.
  fold request in Hrun.
  assert (Hnone : body (keys_body []) = Some "") by (cbn; now rewrite Hempty).
  assert (Hfailed : forall cause c,
            answer = Throw cause -> Result.err (T:=unit) cause = Normal (Err c) ->
            run = Some (Entry.formatError c, [request])).
  { intros cause c -> Hc. rewrite Hrun.
    now rewrite (err_retyped (T:=unit) (U:=APIGatewayProxyStructuredResultV2) cause), Hc. }
  split; [exact Hfailed|]. split; [|split; [|split; [|split; [|split]]]].
  - intros cause Ha He. apply (Hfailed cause cause Ha). now apply err_Error_instance.
  - intros cause e -> He. rewrite Hrun.
    now rewrite (err_retyped (T:=unit) (U:=APIGatewayProxyStructuredResultV2) cause), He.
  - intros response -> HItem. rewrite Hrun, HItem. cbv beta iota zeta.
    rewrite Hnone. reflexivity.
  - intros response item keyMeta -> HItem Hx Hs Hret. rewrite Hrun, HItem, Hx.
    destruct (Hret (mkWorld (mkLookup "hget" payload None false) [] [])) as [r Hr].
    revert Hs Hr. unfold delivered, present_stream, Backend.getKeyDataStream, AsyncResult.run.
    destruct (S3_send _) as [[[keyStream|]]|cause]; cbn [Body]; intros Hs Hr.
    + discriminate.
    + cbv beta iota zeta. rewrite Hnone. reflexivity.
    + destruct (Result.err cause) as [r'|e]; [|discriminate].
      unfold mbind, Completion_bind. cbv beta iota zeta. rewrite Hnone. reflexivity.
  - intros response item keyMeta cause e -> HItem Hx Hs He. rewrite Hrun, HItem, Hx.
    unfold delivered. rewrite Hs.
    now rewrite (err_retyped (T:=unit) (U:=option Readable) cause), He.
  - intros response item keyMeta keyStream -> HItem Hx Hs Hr Hb.
    rewrite Hrun, HItem, Hx. revert Hs. unfold delivered, present_stream.
    destruct (S3_send _) as [[body0]|cause]; cbn [Body]; [|discriminate].
    intros ->. rewrite Hr. cbv beta iota zeta.
    destruct (body (keys_body [keyStream])) as [content|] eqn:Hbody;
      [|discriminate Hbody].
    destruct content; [now contradict Hb|reflexivity].
Qed.

End EntryPoint.

(* ===================================================================== *)
(** ** Further properties: [AsyncGenerators.run] *)
(* ===================================================================== *)

Lemma drain_wrappedGenerator {S T R} (g : AsyncGenerators.Methods S T R) fuel :
  forall s result w,
  drain fuel (AsyncGenerators.next_method (AsyncGenerators.wrappedGenerator g)) (s, result) w
  = match drain fuel (AsyncGenerators.next_method g) s w with
    | Some (items, Normal r, s', w') => Some (items, Normal r, (s', Some r), w')
    | Some (items, Throw cause, s', w') => Some (items, Throw cause, (s', result), w')
    | None => None
    end.
Proof.
  assert (Hstep : forall s result w,
             AsyncGenerators.next_method (AsyncGenerators.wrappedGenerator g) (s, result) w
             = AsyncGenerators.intercept (AsyncGenerators.next_method g s w) result)
    by reflexivity.
  induction fuel as [|fuel IH]; intros s result w; [reflexivity|].
  cbn [drain]. rewrite Hstep. unfold AsyncGenerators.intercept.
  destruct (AsyncGenerators.next_method g s w) as [[s1|[[v|r]|cause] s1] w1].
  - apply IH.
  - rewrite IH.
    destruct (drain fuel (AsyncGenerators.next_method g) s1 w1) as [[[[vs [r|c]] s2] w2]|];
      reflexivity.
  - reflexivity.
  - reflexivity.
Qed.

(** X21.  [AsyncGenerators.run] with a block that returns nothing of its
    own.  When the block is a [for await] loop over the generator, [run]
    returns what the loop ended with: the value the generator returned, or
    the rejection of the pull that failed.  When the block returns before
    any method of the generator has reported [done], [run] rejects with a
    [TypeError]; and a block that returns a result of its own decides, even
    after the generator has returned. *)
Theorem run_returns_what_the_loop_ended_with {S T R R2}
    (g : AsyncGenerators.Methods S T R) (s : S) (w : World) (fuel : nat) :
  (forall items c s' w',
     drain fuel (AsyncGenerators.next_method g) s w = Some (items, c, s', w') ->
     AsyncGenerators.run (R2:=R2) g (for_await fuel) s w = Some (inl <$> c, s', w'))
  /\ (forall (block : AsyncGenerators.Block T R R2) s' w',
        block _ (AsyncGenerators.wrappedGenerator g) (s, None) w
        = Some (Normal None, (s', None), w') ->
        AsyncGenerators.run g block s w = Some (Throw TypeError_value_of_undefined, s', w'))
  /\ (forall (block : AsyncGenerators.Block T R R2) blockResult s' result w',
        block _ (AsyncGenerators.wrappedGenerator g) (s, None) w
        = Some (Normal (Some blockResult), (s', result), w') ->
        AsyncGenerators.run g block s w = Some (Normal blockResult, s', w')).
Proof.
  split; [|split].
  - intros items c s' w' Hd. unfold AsyncGenerators.run, for_await.
    rewrite drain_wrappedGenerator, Hd. now destruct c.
  - intros block s' w' Hb. unfold AsyncGenerators.run. now rewrite Hb.
  - intros block blockResult s' result w' Hb. unfold AsyncGenerators.run. now rewrite Hb.
Qed.

Lemma drain_generator_ends_completed {St T R} `{Void R} (body : GeneratorBody St T R) fuel :
  forall st w items c st' w',
  drain fuel (generator body) st w = Some (items, c, st', w') -> st' = None.
Proof.
  induction fuel as [|fuel IH]; intros st w items c st' w'; [discriminate|].
  cbn [drain]. unfold generator at 1. destruct st as [s|].
  - destruct (body s w) as [[v s1|r|cause|s1] w1].
    + destruct (drain fuel (generator body) (Some s1) w1) as [[[[vs c1] s2] w2]|] eqn:E;
        [|discriminate].
      intros [= <- <- <- <-]. now apply IH in E.
    + now intros [= <- <- <- <-].
    + now intros [= <- <- <- <-].
    + apply IH.
  - now intros [= <- <- <- <-].
Qed.

(** X22.  [AsyncGenerators.run] keeps the last [done] result it has seen,
    not the first: on a generator object created by an [async function*],
    a block that loops to the end and then calls [next] once more, returning
    nothing of its own, makes [run] return [undefined] in place of the value
    the generator returned. *)
Theorem run_loses_the_value_to_a_later_next {St T R R2} `{Void R}
    (g : AsyncGenerators.Methods (option St) T R) (body : GeneratorBody St T R)
    (st : option St) (w : World) (fuel : nat) items r st' w' :
  AsyncGenerators.next_method g = generator body ->
  drain fuel (generator body) st w = Some (items, Normal r, st', w') ->
  AsyncGenerators.run (R2:=R2) g (for_await fuel) st w = Some (Normal (inl r), None, w')
  /\ AsyncGenerators.run (R2:=R2) g (for_await_and_next fuel) st w
     = Some (Normal (inl undefined), None, w').
Proof.
  intros Hg Hd. assert (Hst := drain_generator_ends_completed _ _ _ _ _ _ _ _ Hd).
  subst st'. unfold AsyncGenerators.run, for_await, for_await_and_next.
  rewrite drain_wrappedGenerator, Hg, Hd. split; [reflexivity|].
  destruct fuel as [|fuel]; [discriminate|]. cbn [next].
  change (AsyncGenerators.next_method (AsyncGenerators.wrappedGenerator g) (None, Some r) w')
    with (AsyncGenerators.intercept (AsyncGenerators.next_method g None w') (Some r)).
  rewrite Hg. reflexivity.
Qed.

(* ===================================================================== *)
(** ** Further properties: the records [extractKeyMetadata] accepts *)
(* ===================================================================== *)

Section Records.
Context `{Externals}.

Lemma unfolded_string_attribute (item : gmap string AttributeValue) (k : string) :
  match string_attribute (item !! k) with
  | Some s => Backend.unfoldAttributes item !! k = Some (NString s)
  | None => is_string_field (Backend.unfoldAttributes item) k = false
  end.
Proof.
  unfold is_string_field, Backend.unfoldAttributes. rewrite lookup_fmap.
  destruct (item !! k) as [[]|]; reflexivity.
Qed.

(** X23.  [extractKeyMetadata] tells strings from other values by [typeof],
    and [unfoldAttributes] takes a number attribute out of its wrapper as the
    string it is sent as: a record is decoded exactly when each of
    [pgpKeyId], [pgpFingerprintUpper] and [primaryUserId] is a string
    attribute or a number attribute, and the record derived is built from
    the strings they hold.  The assertions run in order: a record whose
    [pgpKeyId] is neither fails the first one, whatever its other fields.
    [unfoldAttributes] keeps the keys of the record. *)
Theorem extractKeyMetadata_accepts_strings_and_numbers (item : gmap string AttributeValue) :
  (forall keyMeta,
     Backend.extractKeyMetadata item = Normal keyMeta <->
     exists keyId upper uid,
       string_attribute (item !! "pgpKeyId") = Some keyId
       /\ string_attribute (item !! "pgpFingerprintUpper") = Some upper
       /\ string_attribute (item !! "primaryUserId") = Some uid
       /\ keyMeta = derived (Backend.unfoldAttributes item) keyId upper)
  /\ (string_attribute (item !! "pgpKeyId") = None ->
      Backend.extractKeyMetadata item
      = Throw (AssertionError "typeof result.pgpKeyId === 'string'"))
  /\ dom (Backend.unfoldAttributes item) = dom item.
Proof.
  pose proof (unfolded_string_attribute item "pgpKeyId") as Hk.
  pose proof (unfolded_string_attribute item "pgpFingerprintUpper") as Hu.
  pose proof (unfolded_string_attribute item "primaryUserId") as Hp.
  split; [|split].
  - intros keyMeta. split.
    + intros Hx.
      destruct (string_attribute (item !! "pgpKeyId")) as [keyId|];
        [destruct (string_attribute (item !! "pgpFingerprintUpper")) as [upper|];
         [destruct (string_attribute (item !! "primaryUserId")) as [uid|]|]|].
      * rewrite (extractKeyMetadata_well_formed _ _ _ _ Hk Hu Hp) in Hx.
        injection Hx as <-. exists keyId, upper, uid. auto.
      * destruct (extractKeyMetadata_malformed item) as [expression He]; [|congruence].
        unfold required_fields. cbn [forallb]. rewrite Hp. now rewrite !andb_false_r.
      * destruct (extractKeyMetadata_malformed item) as [expression He]; [|congruence].
        unfold required_fields. cbn [forallb]. rewrite Hu. now rewrite andb_false_r.
      * destruct (extractKeyMetadata_malformed item) as [expression He]; [|congruence].
        unfold required_fields. cbn [forallb]. now rewrite Hk.
    + intros (keyId & upper & uid & Hsk & Hsu & Hsp & ->).
      rewrite Hsk in Hk. rewrite Hsu in Hu. rewrite Hsp in Hp.
      now apply extractKeyMetadata_well_formed with uid.
  - intros Hnone. rewrite Hnone in Hk. unfold is_string_field in Hk.
    unfold Backend.extractKeyMetadata. now rewrite Hk.
  - unfold Backend.unfoldAttributes. apply dom_fmap_L.
Qed.

End Records.

(* ===================================================================== *)
(** ** The further properties on the sample requests *)
(* ===================================================================== *)

Section FurtherSamples.
#[local] Existing Instance sample_externals.
#[local] Existing Instance sample_runtime.

(** An action that throws an [Error] gets it back. *)
Lemma expect_after_run_witness :
  (result ← Result_run (Throw transport_error : Completion Z); Result_expect result)
  = Throw transport_error.
Proof.
  apply (expect_after_run Z (Throw transport_error)).
  intros cause [= <-]. reflexivity.
Defined.

Lemma run_after_expect_witness :
  Result_run (Result_expect (@Err Z transport_error)) = Normal (Err transport_error)
  /\ @Result.err Z (object_spread [message_404]) = Normal (Err (object_spread [message_404])).
Proof.
  split.
  - apply (proj2 (proj2 (proj2 run_after_expect)) Z transport_error). reflexivity.
  - apply (proj1 (proj2 (proj2 run_after_expect)) Z message_404).
    + repeat constructor. intros Hin. now apply elem_of_nil in Hin.
    + reflexivity.
Defined.

(** A number gives an [Error], a plain object a plain object. *)
Lemma err_cause_witness :
  (exists c, @Result.err unit (VNumber (safe 404)) = Normal (Err c))
  /\ exists c, Normal (Err (T:=unit) message_404) = Normal (Err c)
               /\ instanceof_Error c = false.
Proof.
  split.
  - exact (proj1 (proj2 (proj2 (err_cause_is_Error_unless_plain_object unit
                                  (VNumber (safe 404)))))).
  - destruct (proj1 (err_cause_is_Error_unless_plain_object unit message_404)
                (Err message_404) eq_refl) as (c & Hc & Hi).
    exists c. split; [now rewrite Hc|exact Hi].
Defined.


(** A fingerprint typed in lower case and the same in upper case. *)
Lemma requests_agree_up_to_case_witness :
  Backend.findKeyByFingerprint_request lookup_fingerprint
  = Backend.findKeyByFingerprint_request
      (set_search lookup_fingerprint "0XAABBCCDDEEFF00112233445566778899AABBCCDD")
  /\ Backend.searchKeysById_request lookup_fingerprint
     = Backend.searchKeysById_request
         (set_search lookup_fingerprint "0XAABBCCDDEEFF00112233445566778899AABBCCDD").
Proof.
  destruct (requests_agree_up_to_case lookup_fingerprint
              (set_search lookup_fingerprint "0XAABBCCDDEEFF00112233445566778899AABBCCDD"))
    as (Hpoint & Hquery & _).
  - intros s _. reflexivity.
  - reflexivity.
  - reflexivity.
  - reflexivity.
  - split; [exact Hpoint|exact Hquery].
Defined.

Lemma fingerprint_of_record_witness :
  exists keyMeta,
    Backend.extractKeyMetadata item_1 = Normal keyMeta
    /\ field "fingerprint" keyMeta = "AABBCCDDEEFF00112233445566778899AABBCCDD"
    /\ slice (field "fingerprint" keyMeta) (-16) None = "66778899AABBCCDD"
    /\ Backend.getKeyDataStream keyMeta (mkWorld lookup_fingerprint [] [])
       = (Normal (Ok (Some sample_stream)), mkWorld lookup_fingerprint [] []).
Proof.
  destruct (fingerprint_of_record_finds_its_key item_1 "66778899AABBCCDD"
              "AABBCCDDEEFF001122334455" "Jane Doe <jane@example.org>")
    as (keyMeta & Hx & Hid & Hfp & _ & Hslice & _ & Hstream).
  - reflexivity.
  - reflexivity.
  - reflexivity.
  - reflexivity.
  - exists keyMeta. split; [exact Hx|]. split; [exact Hfp|]. split; [now rewrite Hslice|].
    exact (Hstream (mkWorld lookup_fingerprint [] [])).
Defined.

(** A key id, against a store that answers one page and a token: the
    second command carries the token. *)
Lemma id_path_witness :
  dynamo_sent
    (snd (turns 5 (generator Backend.searchKeysByBestGuess) (Some Backend.Guess_entry)
            (mkWorld lookup_id [page_of (Some [item_1]) (Some token_1)] [])))
  = [ Backend.searchKeysById_request lookup_id;
      Backend.set_ExclusiveStartKey (Backend.searchKeysById_request lookup_id) token_1 ]
  /\ exists more,
       dynamo_sent
         (snd (turns 5 (generator Backend.searchKeysByBestGuess) (Some Backend.Guess_entry)
                 (mkWorld lookup_id [page_of (Some [item_1]) (Some token_1)] [])))
       = [] ++ Backend.searchKeysById_request lookup_id :: more
       /\ (forall i command,
             more !! i = Some command ->
             exists response token,
               [page_of (Some [item_1]) (Some token_1)] !! i = Some (Normal response)
               /\ LastEvaluatedKey response = Some token
               /\ command
                  = Backend.set_ExclusiveStartKey (Backend.searchKeysById_request lookup_id)
                      token)
       /\ search
            (lookup_object
               (snd (turns 5 (generator Backend.searchKeysByBestGuess)
                       (Some Backend.Guess_entry)
                       (mkWorld lookup_id [page_of (Some [item_1]) (Some token_1)] []))))
          = "66778899aabbccdd".
Proof.
  split; [reflexivity|].
  apply (id_path_one_query_shape
           (mkWorld lookup_id [page_of (Some [item_1]) (Some token_1)] [])
           "66778899aabbccdd" 3); reflexivity.
Defined.

Lemma bestGuess_delegates_witness :
  drain 4 (generator Backend.searchKeysByBestGuess) (Some Backend.Guess_entry)
    (mkWorld lookup_id [page_of (Some [item_1]) None] [])
  = delegated
      (drain 3 Backend.page_generator (Backend.searchKeysById lookup_id)
         (mkWorld lookup_id [page_of (Some [item_1]) None] []))
  /\ drain 4 (generator Backend.searchKeysByBestGuess) (Some Backend.Guess_entry)
       (mkWorld lookup_name [page_of (Some [item_1]) None] [])
     = delegated
         (drain 3 Backend.page_generator (Backend.searchKeysByKeyword lookup_name)
            (mkWorld lookup_name [page_of (Some [item_1]) None] [])).
Proof.
  split.
  - apply (proj1 (bestGuess_delegates lookup_id [page_of (Some [item_1]) None] [] 3)
             "66778899aabbccdd"); reflexivity.
  - apply (proj1 (proj2 (bestGuess_delegates lookup_name [page_of (Some [item_1]) None] [] 3))).
    reflexivity.
Defined.

(** The machine-readable index of two records. *)
Lemma formatIndices_machine_witness :
  Lookup.isMachine lookup_id = true
  /\ Lookup.formatIndices 5 lookup_id (generator Backend.searchKeysByBestGuess)
       (Some Backend.Guess_entry)
       (mkWorld lookup_id [page_of (Some [item_1; item_2]) None] [])
     = Some (Normal (formatted (Ok tt) (machine_response [key_1; key_2])), None,
             mkWorld lookup_id [] [Backend.searchKeysById_request lookup_id]).
Proof.
  apply (formatIndices_machine _ (generator Backend.searchKeysByBestGuess)
           (Some Backend.Guess_entry)
           (mkWorld lookup_id [page_of (Some [item_1; item_2]) None] [])
           5 lookup_id [key_1; key_2] (Ok tt) None
           (mkWorld lookup_id [] [Backend.searchKeysById_request lookup_id])).
  - intros (opts & Hopts & _). discriminate Hopts.
  - reflexivity.
Defined.

(** A store call that fails, in the JSON mode. *)
Lemma formatIndices_failure_witness :
  Lookup.formatIndices 3 lookup_name (generator Backend.searchKeysByBestGuess)
    (Some Backend.Guess_entry) (mkWorld lookup_name [Throw transport_error] [])
  = Some (Normal (Err transport_error), None,
          mkWorld lookup_name [] [Backend.searchKeysByKeyword_request lookup_name]).
Proof.
  apply (proj1 (formatIndices_failure_and_content_type _
                  (generator Backend.searchKeysByBestGuess) (Some Backend.Guess_entry)
                  (mkWorld lookup_name [Throw transport_error] []) 3 lookup_name)
           [] transport_error).
  reflexivity.
Defined.

(** Two records that share their fingerprint: the object has one entry. *)
Lemma json_index_entries_witness :
  exists indices : gmap string KeyMetadata,
    Lookup.formatJsonIndices 5 (generator Backend.searchKeysByBestGuess)
      (Some Backend.Guess_entry)
      (mkWorld lookup_name [page_of (Some [item_1; item_5]) None] [])
    = Some (Normal (Ok (JSON_stringify indices)), None,
            mkWorld lookup_name [] [Backend.searchKeysByKeyword_request lookup_name])
    /\ dom indices = {[ "AABBCCDDEEFF00112233445566778899AABBCCDD" ]}.
Proof.
  destruct (json_index_entries _ (generator Backend.searchKeysByBestGuess)
              (Some Backend.Guess_entry)
              (mkWorld lookup_name [page_of (Some [item_1; item_5]) None] [])
              5 [key_1; key_5] tt None
              (mkWorld lookup_name [] [Backend.searchKeysByKeyword_request lookup_name]))
    as (indices & Hf & Hdom & _).
  - reflexivity.
  - repeat (constructor; [discriminate|]). constructor.
  - exists indices. split; [exact Hf|]. rewrite Hdom. cbn. set_solver.
Defined.

(** The index of a key id over three pages, and over two pages and a call
    that fails. *)
Lemma index_handler_witness :
  Lookup.index_handler 10
    (mkWorld lookup_id ((continued <$> sample_pages) ++ [page_of (Some [item_3]) None]) [])
  = Some (Normal (Ok (machine_response [key_1; key_2; key_3])), None,
          mkWorld (set_search lookup_id "66778899aabbccdd") []
            ([] ++ requests_for
                     (Backend.searchKeysById_request (set_search lookup_id "66778899aabbccdd"))
                     sample_pages))
  /\ Lookup.index_handler 8
       (mkWorld lookup_id ((continued <$> sample_pages) ++ [Throw transport_error]) [])
     = Some (Normal (Err transport_error), None,
             mkWorld (set_search lookup_id "66778899aabbccdd") []
               ([] ++ requests_for
                        (Backend.searchKeysById_request
                           (set_search lookup_id "66778899aabbccdd"))
                        sample_pages)).
Proof.
  destruct (index_handler_on_key_id lookup_id "66778899aabbccdd" sample_pages [] [])
    as [Hpages Hfailed].
  - reflexivity.
  - reflexivity.
  - intros (opts & Hopts & _). discriminate Hopts.
  - split.
    + apply (Hpages (Some [item_3]) [key_1; key_2; key_3] 10).
      * exact sample_decoded.
      * vm_compute. lia.
    + apply (proj2 (Hfailed transport_error [key_1; key_2] 8
                      ltac:(repeat (constructor; [reflexivity|]); constructor)
                      ltac:(vm_compute; lia))).
      reflexivity.
Defined.

(** [hget] on a name, and on a key id. *)
Lemma hget_refuses_witness :
  Lookup.hget_handler 0 (mkWorld lookup_name [] [])
  = Some (Normal (Err (BadLookupError "invalid hex string format jane")),
          mkWorld lookup_name [] [])
  /\ Lookup.hget_handler 0 (mkWorld lookup_id [] [])
     = Some (Normal (Err (BadLookupError "invalid hex string length 66778899aabbccdd")),
             mkWorld (set_search lookup_id "66778899aabbccdd") [] []).
Proof.
  split.
  - apply (proj1 (hget_refuses_what_is_no_fingerprint 0 (mkWorld lookup_name [] []))).
    reflexivity.
  - apply (proj2 (hget_refuses_what_is_no_fingerprint 0 (mkWorld lookup_id [] []))
             "66778899aabbccdd").
    + reflexivity.
    + vm_compute. intros Hin. repeat (apply elem_of_cons in Hin as [Hin|Hin]; [lia|]).
      now apply elem_of_nil in Hin.
Defined.

(** [hget] on a fingerprint the table has, with its data in the bucket. *)
Lemma hget_on_fingerprint_witness :
  Lookup.hget_handler 2
    (mkWorld lookup_fingerprint [Normal (mkOutput None None (Some item_1))] [])
  = Some (delivered key_1,
          mkWorld (set_search lookup_fingerprint "aabbccddeeff00112233445566778899aabbccdd") []
            ([] ++ [Backend.findKeyByFingerprint_request
                      (set_search lookup_fingerprint
                         "aabbccddeeff00112233445566778899aabbccdd")]))
  /\ delivered key_1 = Normal (Ok (keys_body [sample_stream])).
Proof.
  split; [|reflexivity].
  destruct (hget_on_fingerprint lookup_fingerprint "aabbccddeeff00112233445566778899aabbccdd"
              (Normal (mkOutput None None (Some item_1))) [] [] 2)
    as (_ & _ & _ & Hfound).
  - reflexivity.
  - apply elem_of_cons. right. apply elem_of_cons. left. reflexivity.
  - lia.
  - apply (Hfound (mkOutput None None (Some item_1)) item_1 key_1); reflexivity.
Defined.

Lemma get_agrees_with_hget_witness :
  exists c w' s',
    Lookup.hget_handler 2
      (mkWorld lookup_fingerprint [Normal (mkOutput None None (Some item_1))] [])
    = Some (c, w')
    /\ Lookup.get_handler 2
         (mkWorld lookup_fingerprint [Normal (mkOutput None None (Some item_1))] [])
       = Some (c, s', w').
Proof.
  apply (get_agrees_with_hget_on_fingerprints
           (mkWorld lookup_fingerprint [Normal (mkOutput None None (Some item_1))] [])
           "aabbccddeeff00112233445566778899aabbccdd" 2).
  - reflexivity.
  - apply elem_of_cons. right. apply elem_of_cons. left. reflexivity.
  - lia.
Defined.

(** [hget] through the entry point, on a fingerprint whose data the bucket
    holds: the response is [OK] and its body is the key. *)
Lemma lookup_OK_has_a_body_witness :
  exists text, body (keys_body [sample_stream]) = Some text /\ text <> "".
Proof.
  apply (lookup_OK_has_a_body 2 (Some parameters_hget)
           [Normal (mkOutput None None (Some item_1))]
           (keys_body [sample_stream])
           [Backend.findKeyByFingerprint_request
              (mkLookup "hget" "aabbccddeeff00112233445566778899aabbccdd" None false)]).
  - reflexivity.
  - reflexivity.
Defined.

(** A version that is not supported, an operation that is blank and [get]
    without a search text. *)
Lemma lookup_refuses_witness :
  Entry.lookup 0 (Some parameters_v2) [Throw transport_error]
  = Some (Entry.formatError (BadLookupError "unsupported version 2"), [])
  /\ Entry.lookup 0 (Some {[ "op" := "  " ]}) [Throw transport_error]
     = Some (Entry.formatError (BadLookupError "missing operation"), [])
  /\ Entry.lookup 0 (Some parameters_no_search) [Throw transport_error]
     = Some (Entry.formatError (BadLookupError "missing search"), []).
Proof.
  split; [|split].
  - apply (proj1 (proj2 (lookup_refuses_before_the_store 0 parameters_v2
                           [Throw transport_error])) "2").
    + reflexivity.
    + discriminate.
  - apply (proj1 (proj2 (proj2 (lookup_refuses_before_the_store 0 {[ "op" := "  " ]}
                                  [Throw transport_error])))).
    + intros version Hversion. discriminate Hversion.
    + apply elem_of_cons. right. apply elem_of_cons. left. reflexivity.
  - apply (proj2 (proj2 (proj2 (lookup_refuses_before_the_store 0 parameters_no_search
                                  [Throw transport_error]))) "get").
    + intros version Hversion. discriminate Hversion.
    + reflexivity.
    + apply elem_of_cons. right. apply elem_of_cons. right. apply elem_of_cons. left.
      reflexivity.
    + reflexivity.
Defined.

(** [GET] is not [get]. *)
Lemma lookup_unknown_operation_witness :
  Entry.lookup 0 (Some parameters_unknown) []
  = Some (Entry.formatError (UnknownOperationError "unknown operation GET"), []).
Proof.
  refine (proj1 (lookup_unknown_operation 0 parameters_unknown []) "GET" _ _ _ _ _).
  - intros version Hversion. discriminate Hversion.
  - reflexivity.
  - discriminate.
  - vm_compute. intros Hin.
    repeat (apply elem_of_cons in Hin as [Hin|Hin]; [discriminate Hin|]).
    now apply elem_of_nil in Hin.
  - vm_compute. intros Hin.
    repeat (apply elem_of_cons in Hin as [Hin|Hin]; [discriminate Hin|]).
    now apply elem_of_nil in Hin.
Defined.

(** The status of a [BadLookupError] and of the cause [Result.err] builds
    from a plain object, when no class extends another. *)
Lemma formatError_status_witness :
  statusCode {| statusCode := BadRequest; headers := ∅;
                body := Some "BadLookupError: missing search" |} = BadRequest
  /\ statusCode {| statusCode := InternalServerError; headers := ∅;
                   body := Some "[object Object]" |} = InternalServerError.
Proof.
  split.
  - assert (Hf : Entry.formatError (BadLookupError "missing search")
                 = Normal {| statusCode := BadRequest; headers := ∅;
                             body := Some "BadLookupError: missing search" |})
      by reflexivity.
    destruct (formatError_status _ _ Hf) as (_ & _ & _ & _ & Hclasses).
    destruct (Hclasses (fun _ _ _ _ => eq_refl)) as (Hbad & _).
    apply (Hbad "missing search"). reflexivity.
  - assert (Hf : Entry.formatError
                   (object_spread
                      [VObject PlainObject [mkProperty "message" true (VNumber (safe 404))]])
                 = Normal {| statusCode := InternalServerError; headers := ∅;
                             body := Some "[object Object]" |})
      by reflexivity.
    destruct (formatError_status _ _ Hf) as (_ & _ & _ & _ & Hclasses).
    destruct (Hclasses (fun _ _ _ _ => eq_refl)) as (_ & _ & _ & Hplain).
    apply (Hplain (VObject PlainObject [mkProperty "message" true (VNumber (safe 404))]));
      reflexivity.
Defined.

(** [hget] through the entry point: a fingerprint the table does not have,
    and one whose data the bucket holds. *)
Lemma lookup_hget_witness :
  Entry.lookup 2 (Some parameters_hget) [Normal (mkOutput None None None)]
  = Some (Entry.formatError
            (EmptyLookupError
               "no keys matching 'aabbccddeeff00112233445566778899aabbccdd'"),
          [Backend.findKeyByFingerprint_request
             (mkLookup "hget" "aabbccddeeff00112233445566778899aabbccdd" None false)])
  /\ Entry.lookup 2 (Some parameters_hget) [Normal (mkOutput None None (Some item_1))]
     = Some (Normal (keys_body [sample_stream]),
             [Backend.findKeyByFingerprint_request
                (mkLookup "hget" "aabbccddeeff00112233445566778899aabbccdd" None false)]).
Proof.
  split.
  - destruct (lookup_hget_on_fingerprint 2 parameters_hget " hget "
                "0xaabbccddeeff00112233445566778899aabbccdd"
                "aabbccddeeff00112233445566778899aabbccdd"
                (Normal (mkOutput None None None)) [])
      as (_ & _ & _ & Hmiss & _).
    + intros version [= <-]. reflexivity.
    + reflexivity.
    + reflexivity.
    + reflexivity.
    + reflexivity.
    + apply elem_of_cons. right. apply elem_of_cons. left. reflexivity.
    + reflexivity.
    + lia.
    + apply (Hmiss (mkOutput None None None)); reflexivity.
  - destruct (lookup_hget_on_fingerprint 2 parameters_hget " hget "
                "0xaabbccddeeff00112233445566778899aabbccdd"
                "aabbccddeeff00112233445566778899aabbccdd"
                (Normal (mkOutput None None (Some item_1))) [])
      as (_ & _ & _ & _ & _ & _ & Hfound).
    + intros version [= <-]. reflexivity.
    + reflexivity.
    + reflexivity.
    + reflexivity.
    + reflexivity.
    + apply elem_of_cons. right. apply elem_of_cons. left. reflexivity.
    + reflexivity.
    + lia.
    + apply (Hfound (mkOutput None None (Some item_1)) item_1 key_1 sample_stream);
        try reflexivity.
      discriminate.
Defined.

(** [run] over a search of one page, with a loop as its block. *)
Lemma run_returns_witness :
  AsyncGenerators.run (R2:=unit) (not_started Backend.page_generator) (for_await 4)
    (Backend.searchKeysById lookup_id)
    (mkWorld lookup_id [page_of (Some [item_1]) None] [])
  = Some (Normal (inl (Ok tt)), None,
          mkWorld lookup_id [] [Backend.searchKeysById_request lookup_id]).
Proof.
  apply (proj1 (run_returns_what_the_loop_ended_with (R2:=unit)
                  (not_started Backend.page_generator)
                  (Backend.searchKeysById lookup_id)
                  (mkWorld lookup_id [page_of (Some [item_1]) None] []) 4)
           [key_1] (Normal (Ok tt))).
  reflexivity.
Defined.

(** [run] over the generator of [hget], which returns [Result.ok()]: a block
    that calls [next] after its loop makes [run] return [undefined]. *)
Lemma run_loses_the_value_witness :
  AsyncGenerators.run (R2:=unit) (not_started (generator (Lookup.found_key (Some key_1))))
    (for_await 2) (Some Lookup.Found_entry) (mkWorld lookup_id [] [])
  = Some (Normal (inl (Some (Ok tt))), None, mkWorld lookup_id [] [])
  /\ AsyncGenerators.run (R2:=unit) (not_started (generator (Lookup.found_key (Some key_1))))
       (for_await_and_next 2) (Some Lookup.Found_entry) (mkWorld lookup_id [] [])
     = Some (Normal (inl None), None, mkWorld lookup_id [] []).
Proof.
  apply (run_loses_the_value_to_a_later_next (R2:=unit)
           (not_started (generator (Lookup.found_key (Some key_1))))
           (Lookup.found_key (Some key_1)) (Some Lookup.Found_entry)
           (mkWorld lookup_id [] []) 2 [key_1] (Some (Ok tt)) None (mkWorld lookup_id [] [])).
  - reflexivity.
  - reflexivity.
Defined.

(** A record whose key id is a number attribute is decoded. *)
Lemma extractKeyMetadata_numeric_witness :
  Backend.extractKeyMetadata item_numeric
  = Normal (derived (Backend.unfoldAttributes item_numeric) "1234567890123456"
              "AABBCCDDEEFF001122334455")
  /\ Backend.extractKeyMetadata item_bad
     = Throw (AssertionError "typeof result.pgpKeyId === 'string'").
Proof.
  split.
  - apply (proj1 (extractKeyMetadata_accepts_strings_and_numbers item_numeric)).
    exists "1234567890123456", "AABBCCDDEEFF001122334455", "Jane Doe <jane@example.org>".
    repeat split; reflexivity.
  - apply (proj1 (proj2 (extractKeyMetadata_accepts_strings_and_numbers item_bad))).
    reflexivity.
Defined.

End FurtherSamples.
